(** * product-tracker-api: the scraping and orchestration core

    A shallow embedding of the three platform scrapers
    (src/scrapers/amazon, aliexpress, shopify), of their shared retry loop
    and of the orchestrator (src/scrapers/scraperManager.ts), followed by
    the properties the specification states about them.

    Part I holds the definitions, each one a transcription of the
    TypeScript function of the same name.  Part II holds the lemmas. *)

From Stdlib Require Import Ascii String ZArith QArith Qminmax Qround List Lia.
From Stdlib Require Import Sorting.Sorted.
From stdpp Require Import base option list gmap strings.
Close Scope Q_scope.

(* ===================================================================== *)
(** * Part I.  The embedding                                              *)
(* ===================================================================== *)

(** ** ECMAScript values and built-ins *)

Module JS.

(** A string is its sequence of UTF-16 code units; [length] is the
    [.length] property. *)
Definition jsstring := list N.

(** Literals of the source, all of them Latin-1. *)
Definition js (s : string) : jsstring :=
  (fun a => N_of_ascii a) <$> list_ascii_of_string s.

(** WhiteSpace and LineTerminator code points: what [trim] strips and what
    [\s] matches. *)
Definition isWhiteSpace (c : N) : bool :=
  existsb (N.eqb c)
    [9; 10; 11; 12; 13; 32; 160; 5760; 8232; 8233; 8239; 8287; 12288; 65279]%N
  || ((8192 <=? c)%N && (c <=? 8202)%N).

Definition isDigit (c : N) : bool := ((48 <=? c) && (c <=? 57))%N.
Definition isUpperAZ (c : N) : bool := ((65 <=? c) && (c <=? 90))%N.
Definition isLowerAZ (c : N) : bool := ((97 <=? c) && (c <=? 122))%N.
Definition isAlnum (c : N) : bool := isDigit c || isUpperAZ c || isLowerAZ c.

Definition asciiUpper (c : N) : N := if isLowerAZ c then (c - 32)%N else c.
Definition asciiLower (c : N) : N := if isUpperAZ c then (c + 32)%N else c.

Fixpoint takeWhile (f : N -> bool) (s : jsstring) : jsstring :=
  match s with
  | c :: s' => if f c then c :: takeWhile f s' else []
  | [] => []
  end.

Fixpoint dropWhile (f : N -> bool) (s : jsstring) : jsstring :=
  match s with
  | c :: s' => if f c then dropWhile f s' else s
  | [] => []
  end.

Definition trimStart (s : jsstring) : jsstring := dropWhile isWhiteSpace s.
Definition trimEnd (s : jsstring) : jsstring :=
  rev (dropWhile isWhiteSpace (rev s)).
Definition trim (s : jsstring) : jsstring := trimEnd (trimStart s).

(** A string is falsy exactly when it is empty. *)
Definition truthy (s : jsstring) : bool :=
  match s with [] => false | _ => true end.

(** [o ?? d]: only null and undefined fall through. *)
Definition nullish {A} (o : option A) (d : option A) : option A :=
  match o with Some a => Some a | None => d end.

Fixpoint startsWith (s p : jsstring) : bool :=
  match p, s with
  | [], _ => true
  | a :: p', b :: s' => (a =? b)%N && startsWith s' p'
  | _ :: _, [] => false
  end.

Fixpoint includes (s sub : jsstring) : bool :=
  startsWith s sub
  || match s with [] => false | _ :: s' => includes s' sub end.

(** Matching a literal under the [i] flag (no [u] flag): two code units are
    equated when their canonical forms agree, and a code unit above 127 is
    never canonicalised to one below 128, so against an ASCII pattern only
    the ASCII letters fold. *)
Fixpoint startsWith_i (s p : jsstring) : bool :=
  match p, s with
  | [], _ => true
  | a :: p', b :: s' => (asciiUpper a =? asciiUpper b)%N && startsWith_i s' p'
  | _ :: _, [] => false
  end.

(** [/lit/i.test(s)] for a literal [lit]. *)
Fixpoint test_i (lit s : jsstring) : bool :=
  startsWith_i s lit
  || match s with [] => false | _ :: s' => test_i lit s' end.

(** *** Exceptions *)

Inductive Error :=
| URIError
| TypeError
| AxiosError (status : option Z)
| OtherError.

Inductive Result (A : Type) :=
| Ok (a : A)
| Throw (e : Error).
Arguments Ok {A} a.
Arguments Throw {A} e.

Global Instance Result_ret : MRet Result := fun A a => Ok a.
Global Instance Result_bind : MBind Result := fun A B f m =>
  match m with Ok a => f a | Throw e => Throw e end.

(** [try { body } catch (error) { handler }]. *)
Definition try_catch {A} (body : Result A) (handler : Error -> Result A)
  : Result A :=
  match body with Ok a => Ok a | Throw e => handler e end.

(** [await Promise.all(ps)]: the values in order, or the rejection of a
    promise that rejected. *)
Fixpoint Promise_all {A} (ps : list (Result A)) : Result (list A) :=
  match ps with
  | [] => Ok []
  | p :: ps' => a ← p; r ← Promise_all ps'; mret (a :: r)
  end.

(** [arr.reduce((acc, x, index) => f acc x index, init)]. *)
Fixpoint reduce_from {A B} (f : B -> A -> nat -> B) (index : nat) (acc : B)
    (arr : list A) : B :=
  match arr with
  | [] => acc
  | x :: arr' => reduce_from f (S index) (f acc x index) arr'
  end.
Definition reduce {A B} (f : B -> A -> nat -> B) (init : B) (arr : list A)
  : B := reduce_from f 0 init arr.

(** *** Numbers *)

(** The Number values the scrapers can produce.  [Finite q] stands for the
    double nearest to [q]; rounding to the nearest double is monotone and
    is not modelled beyond the overflow threshold below. *)
Inductive number :=
| NaN
| Infinity
| Finite (q : Q).

(** Half-way between the largest double and [2^1024]: a decimal literal at
    or above it rounds to [Infinity]. *)
Definition overflow_threshold : Z := 2 ^ 1024 - 2 ^ 970.

Definition roundToNumber (q : Q) : number :=
  if Qle_bool (inject_Z overflow_threshold) q then Infinity else Finite q.

Definition digitsValue (ds : jsstring) : Z :=
  fold_left (fun acc c => 10 * acc + (Z.of_N c - 48))%Z ds 0%Z.

(** [parseFloat] on the strings the scrapers hand it.  The literal grammar
    is cut down to [DecimalDigits], [DecimalDigits . DecimalDigits?] and
    [. DecimalDigits]: no sign, no exponent and no [Infinity] literal can
    occur in a string made of digits and dots only, which is what both
    callers build. *)
Definition parseFloat (s : jsstring) : number :=
  let s := trimStart s in
  let int := takeWhile isDigit s in
  let frac :=
    match drop (length int) s with
    | 46%N :: r => takeWhile isDigit r
    | _ => []
    end in
  if negb (truthy int) && negb (truthy frac) then NaN
  else roundToNumber
         (Qmake (digitsValue (int ++ frac))
                (Z.to_pos (10 ^ Z.of_nat (length frac)))).

Definition Number_isNaN (v : option number) : bool :=
  match v with Some NaN => true | _ => false end.

(** *** Array.prototype.sort *)

(** [sort] is stable and, with a consistent comparator, orders [a] before
    [b] whenever [cmp a b < 0].  A stable insertion sort is the model: the
    head is inserted into the sorted tail and moves right only past
    elements that must precede it ([cmp x y > 0]). *)
Section Sort.
Context {A : Type} (cmp : A -> A -> Q).

Fixpoint sort_insert (x : A) (l : list A) : list A :=
  match l with
  | [] => [x]
  | y :: l' =>
      if Qle_bool (cmp x y) 0 then x :: y :: l' else y :: sort_insert x l'
  end.

Fixpoint Array_sort (l : list A) : list A :=
  match l with
  | [] => []
  | x :: l' => sort_insert x (Array_sort l')
  end.

End Sort.

(** *** Host objects left abstract *)

(** A parsed [URL]: the properties the scrapers read. *)
Record URL := {
  href : jsstring;
  origin : jsstring;
  pathname : jsstring;
  searchParams : list (jsstring * jsstring);
}.

(** [table[key]] for an object literal [table]: its own properties. *)
Fixpoint property {V : Type} (table : list (jsstring * V)) (key : jsstring)
  : option V :=
  match table with
  | [] => None
  | (k, v) :: table' => if decide (k = key) then Some v else property table' key
  end.

(** [url.searchParams.get(name)]: the first value under [name], or null. *)
Fixpoint searchParams_get (ps : list (jsstring * jsstring)) (name : jsstring)
  : option jsstring :=
  match ps with
  | [] => None
  | (k, v) :: ps' =>
      if decide (k = name) then Some v else searchParams_get ps' name
  end.

(** The built-ins whose tables and parsers are not spelled out here.  The
    two laws are the only facts about case mapping that are used: on ASCII
    text both maps are the ASCII ones. *)
Class ECMAScript := {
  toLowerCase : jsstring -> jsstring;
  toUpperCase : jsstring -> jsstring;
  encodeURIComponent : jsstring -> Result jsstring;
  decodeURIComponent : jsstring -> Result jsstring;
  (** [new URL(input)] and [new URL(input, base)]. *)
  new_URL : jsstring -> option jsstring -> Result URL;
  (** [new URLSearchParams({...}).toString()]. *)
  URLSearchParams_toString : list (jsstring * jsstring) -> jsstring;
  toLowerCase_ascii :
    forall s, Forall (fun c => (c < 128)%N) s -> toLowerCase s = asciiLower <$> s;
  toUpperCase_ascii :
    forall s, Forall (fun c => (c < 128)%N) s -> toUpperCase s = asciiUpper <$> s;
}.

End JS.
Export JS.

(** ** types.ts *)

Inductive PlatformName := amazon | aliexpress | shopify.

Global Instance PlatformName_eq_dec : EqDecision PlatformName.
Proof. solve_decision. Defined.

Global Instance PlatformName_countable : Countable PlatformName.
Proof.
  refine (inj_countable'
    (fun p => match p with amazon => 0 | aliexpress => 1 | shopify => 2 end)
    (fun n => match n with 0 => amazon | 1 => aliexpress | _ => shopify end) _).
  by intros [].
Defined.

(** The fields the scrapers fill in; [id], [rating], [reviewsCount],
    [isSponsored] and [raw] are never set by them. *)
Record PlatformProduct := {
  platform : PlatformName;
  title : jsstring;
  url : jsstring;
  price : option number;
  currency : option jsstring;
  image : option jsstring;
  imageUrl : option jsstring;
  sourcePlatform : PlatformName;
}.

(** An object with the three platform keys. *)
Abbreviation PlatformMatches := (gmap PlatformName (list PlatformProduct)).

(** The timeouts configure the HTTP client, whose answers are taken as
    given below.  Of [AppConfig], [port] and [internalApiKey] belong to the
    server and are left out. *)
Record ScraperTimeoutConfig := {
  timeout_amazon : Z;
  timeout_aliexpress : Z;
  timeout_shopify : Z;
}.

Record AppConfig := {
  scraperTimeouts : ScraperTimeoutConfig;
  maxResultsPerPlatform : Z;
}.

(** ** cheerio *)

(** The part of cheerio's interface the scrapers call, left abstract: the
    HTML parser and the selector engine are not part of this code base.
    [attr] answers [undefined] ([None]) on an empty selection or a missing
    attribute; [text] always answers a string, the empty one on an empty
    selection. *)
Class Cheerio := {
  CheerioAPI : Type;
  Selection : Type;
  load : jsstring -> CheerioAPI;
  (** [$(selector)] *)
  select : CheerioAPI -> string -> Selection;
  (** the elements of a selection, each wrapped as [$(element)] *)
  elements : Selection -> list Selection;
  find : Selection -> string -> Selection;
  closest : Selection -> string -> Selection;
  first : Selection -> Selection;
  attr : Selection -> string -> option jsstring;
  text : Selection -> jsstring;
  (** [.length] *)
  size : Selection -> nat;
}.

(** [selection.each((_idx, element) => body)]: the callback runs on the
    elements in order and the iteration stops when it returns [false]. *)
Fixpoint each {ch : Cheerio} {State : Type}
    (body : State -> Selection -> State * bool)
    (els : list Selection) (st : State) : State :=
  match els with
  | [] => st
  | el :: els' =>
      let '(st', go_on) := body st el in
      if go_on then each body els' st' else st'
  end.

(** The double quote inside attribute selectors. *)
Definition dq : string := String (ascii_of_nat 34) EmptyString.

(** ** The retry loop shared by the three scrapers *)

Module Scraper.

Inductive ResponseData :=
| DataString (s : jsstring)
| DataNullish
| DataOther.

Record Response := { status : Z; data : ResponseData }.

Inductive Outcome :=
| Resolved (r : Response)
| Rejected (e : Error).

(** What one scraper instance meets outside: the outcome of its [n]-th
    [http.get] (counted from 1) for a URL, and the value of its [n]-th
    [Math.random()].  Each instance owns its client, so each has a world of
    its own. *)
Record World := {
  http_get : jsstring -> nat -> Outcome;
  Math_random : nat -> Q;
}.

(** What a run leaves behind: requests issued, random numbers drawn and the
    delays waited for, oldest first. *)
Record Trace := {
  calls : nat;
  draws : nat;
  delays : list Z;
}.

Definition start : Trace := {| calls := 0; draws := 0; delays := [] |}.

Definition maxRetries : nat := 3.

(** Each scraper class carries its own copy of this method, with the same
    text. *)
Definition maybeRetry (w : World) (attempt maxRetries : nat) (t : Trace)
  : Trace :=
  if maxRetries <=? attempt then t
  else
    let delay := (300 + Qfloor (Math_random w (S (draws t)) * 300))%Z in
    {| calls := calls t; draws := S (draws t); delays := delays t ++ [delay] |}.

Definition transientStatus (status : Z) : bool :=
  ((status =? 503) || (status =? 429))%Z.

(** [response.data ?? ''], then [typeof html !== 'string' ||
    html.trim().length === 0]: the usable body, if there is one. *)
Definition usableHtml (d : ResponseData) : option jsstring :=
  match d with
  | DataString html => if length (trim html) =? 0 then None else Some html
  | DataNullish => None
  | DataOther => None
  end.

Section Loop.
Context (w : World).
Context (isBotPage : jsstring -> bool).
Context (parseProducts : jsstring -> list PlatformProduct).

(** The body of [for (attempt = 1; attempt <= maxRetries; attempt += 1)],
    over the attempt numbers still to run.  The three [search] methods
    differ only in the bot test, the parser and the log texts.  The parsers
    below are total, so the [catch] branch is reached from [http.get]
    only. *)
Fixpoint attempts (searchUrl : jsstring) (todo : list nat) (t : Trace)
  : list PlatformProduct * Trace :=
  match todo with
  | [] => ([], t)
  | attempt :: todo' =>
      let t := {| calls := S (calls t); draws := draws t; delays := delays t |} in
      match http_get w searchUrl (calls t) with
      | Resolved response =>
          if transientStatus (status response)
          then attempts searchUrl todo' (maybeRetry w attempt maxRetries t)
          else
            match usableHtml (data response) with
            | None => attempts searchUrl todo' (maybeRetry w attempt maxRetries t)
            | Some html =>
                if isBotPage html then ([], t) else (parseProducts html, t)
            end
      | Rejected error => attempts searchUrl todo' (maybeRetry w attempt maxRetries t)
      end
  end.

(** [search()], given what [getSearchUrl()] did. *)
Definition search_with (getSearchUrl : Result jsstring)
  : Result (list PlatformProduct) * Trace :=
  match getSearchUrl with
  | Throw e => (Throw e, start)
  | Ok searchUrl =>
      if negb (truthy searchUrl) then (Ok [], start)
      else
        let '(products, t) := attempts searchUrl (seq 1 maxRetries) start in
        (Ok products, t)
  end.

End Loop.

End Scraper.

(** ** scrapers/amazon/amazonScraper.ts *)

Module AmazonScraper.

Definition AMAZON_BASE_URL : jsstring := js "https://www.amazon.com".

(** Own properties of the table; 8364 is the euro sign, 163 the pound
    sign. *)
Definition CURRENCY_SYMBOLS : list (jsstring * jsstring) :=
  [(js "$", js "USD"); ([8364%N], js "EUR"); ([163%N], js "GBP")].

Definition RESULT_ITEMS : string :=
  ".s-main-slot .s-result-item[data-component-type=" ++ dq
    ++ "s-search-result" ++ dq ++ "]".

Definition SPONSORED_MARKS : string :=
  "[aria-label=" ++ dq ++ "Sponsored" ++ dq ++ "], .s-sponsored-label-text".

Definition isSlash (c : N) : bool := (c =? 47)%N.

(** [s.replace(/\/+$/, '')] *)
Definition trimTrailingSlashes (s : jsstring) : jsstring :=
  rev (dropWhile isSlash (rev s)).

(** [path.match(/lit([A-Z0-9]{10})/i)] for a literal [lit]: the capture
    of the leftmost match. *)
Fixpoint match_code (lit path : jsstring) : option jsstring :=
  let code := take 10 (drop (length lit) path) in
  if startsWith_i path lit && (length code =? 10) && forallb isAlnum code
  then Some code
  else match path with
       | [] => None
       | _ :: path' => match_code lit path'
       end.

(** [const asinMatch = ... || ...]: a match array is always truthy. *)
Definition asinMatch (pathname : jsstring) : option jsstring :=
  nullish (match_code (js "/dp/") pathname)
          (match_code (js "/gp/product/") pathname).

Definition isBotPage (html : jsstring) : bool :=
  test_i (js "Robot Check") html || test_i (js "captcha") html.

Section Instance.
Context {rt : ECMAScript} {ch : Cheerio}.
Context (query : jsstring) (maxResults : Z).

Definition getSearchUrl : Result jsstring :=
  encodedQuery ← encodeURIComponent (trim query);
  mret (AMAZON_BASE_URL ++ js "/s?k=" ++ encodedQuery).

Definition normalizeProductLink (rawLink : jsstring) : option jsstring :=
  if negb (truthy rawLink) then None
  else
    let candidate := trim rawLink in
    let attempt : Result jsstring :=
      let candidate :=
        if negb (startsWith candidate (js "http"))
        then AMAZON_BASE_URL
               ++ (if startsWith candidate (js "/") then [] else js "/")
               ++ dropWhile isSlash candidate
        else candidate in
      urlObject ← new_URL candidate None;
      let redirectTarget :=
        nullish (searchParams_get (searchParams urlObject) (js "url"))
                (searchParams_get (searchParams urlObject) (js "location")) in
      urlObject ←
        match redirectTarget with
        | Some target =>
            if truthy target
            then
              decoded ← decodeURIComponent target;
              new_URL (if startsWith decoded (js "http") then decoded
                       else AMAZON_BASE_URL ++ decoded) None
            else mret urlObject
        | None => mret urlObject
        end;
      match asinMatch (pathname urlObject) with
      | Some code => mret (AMAZON_BASE_URL ++ js "/dp/" ++ toUpperCase code)
      | None =>
          mret (trimTrailingSlashes (origin urlObject ++ pathname urlObject))
      end in
    match attempt with
    | Ok link => Some link
    | Throw error => None
    end.

Definition extractPrice (container : Selection)
  : option number * option jsstring :=
  let priceContainer := find container ".a-price" in
  if 0 <? size priceContainer then
    let symbol := trim (text (first (find priceContainer ".a-price-symbol"))) in
    let whole := trim (text (first (find priceContainer ".a-price-whole"))) in
    let fraction :=
      trim (text (first (find priceContainer ".a-price-fraction"))) in
    let price :=
      if truthy whole then
        let normalizedWhole := filter (fun c => isDigit c = true) whole in
        let normalizedFraction := filter (fun c => isDigit c = true) fraction in
        Some (parseFloat
                (normalizedWhole ++ js "."
                   ++ (if truthy normalizedFraction then normalizedFraction
                       else js "00")))
      else None in
    let currency :=
      if truthy symbol
      then nullish (property CURRENCY_SYMBOLS symbol) (Some symbol)
      else None in
    (price, currency)
  else (None, None).

(** [const sponsored = ...] *)
Definition sponsored (container : Selection) : bool :=
  bool_decide (attr container "data-component-type"
               = Some (js "sp-sponsored-result"))
  || (0 <? size (find container SPONSORED_MARKS)).

(** The callback of [.each]: the products so far and the next container
    give the products after it and whether the iteration goes on. *)
Definition parseProducts_step (products : list PlatformProduct)
    (container : Selection) : list PlatformProduct * bool :=
  if (maxResults <=? Z.of_nat (length products))%Z then (products, false)
  else
    if sponsored container then (products, true)
    else
      let title := trim (text (find container "h2 a span")) in
      match attr (find container "h2 a") "href" with
      | None => (products, true)
      | Some rawLink =>
          if negb (truthy title) || negb (truthy rawLink) then (products, true)
          else
            match normalizeProductLink rawLink with
            | None => (products, true)
            | Some url =>
                if negb (truthy url) then (products, true)
                else
                  let image :=
                    nullish (attr (find container "img.s-image") "src")
                            (attr (first (find container "img")) "src") in
                  let priceInfo := extractPrice container in
                  (products ++
                     [{| platform := amazon;
                         title := title;
                         url := url;
                         price := priceInfo.1;
                         currency := priceInfo.2;
                         image := image;
                         imageUrl := image;
                         sourcePlatform := amazon |}], true)
            end
      end.

(** The listing the callback pushes for a container, when it pushes one. *)
Definition builtFrom (container : Selection) (p : PlatformProduct) : Prop :=
  exists rawLink link,
    attr (find container "h2 a") "href" = Some rawLink
    /\ normalizeProductLink rawLink = Some link
    /\ truthy (trim (text (find container "h2 a span"))) = true
    /\ p = {| platform := amazon;
              title := trim (text (find container "h2 a span"));
              url := link;
              price := (extractPrice container).1;
              currency := (extractPrice container).2;
              image := nullish (attr (find container "img.s-image") "src")
                               (attr (first (find container "img")) "src");
              imageUrl := nullish (attr (find container "img.s-image") "src")
                                  (attr (first (find container "img")) "src");
              sourcePlatform := amazon |}.

(** The callback past its cap test: the listing it pushes for a
    container, or nothing when it returns early. *)
Definition listingOf (container : Selection) : option PlatformProduct :=
  if sponsored container then None
  else
    let title := trim (text (find container "h2 a span")) in
    match attr (find container "h2 a") "href" with
    | None => None
    | Some rawLink =>
        if negb (truthy title) || negb (truthy rawLink) then None
        else
          match normalizeProductLink rawLink with
          | None => None
          | Some url =>
              if negb (truthy url) then None
              else
                let image :=
                  nullish (attr (find container "img.s-image") "src")
                          (attr (first (find container "img")) "src") in
                let priceInfo := extractPrice container in
                Some {| platform := amazon;
                        title := title;
                        url := url;
                        price := priceInfo.1;
                        currency := priceInfo.2;
                        image := image;
                        imageUrl := image;
                        sourcePlatform := amazon |}
          end
    end.

Definition parseProducts (html : jsstring) : list PlatformProduct :=
  let dollar := load html in
  each parseProducts_step (elements (select dollar RESULT_ITEMS)) [].

Definition search (w : Scraper.World)
  : Result (list PlatformProduct) * Scraper.Trace :=
  Scraper.search_with w isBotPage parseProducts getSearchUrl.

End Instance.

End AmazonScraper.

(** ** scrapers/aliexpress/aliexpressScraper.ts *)

Module AliExpressScraper.

Definition ALIEXPRESS_BASE_URL : jsstring := js "https://www.aliexpress.com".

Definition PRODUCT_SELECTORS : string :=
  "[data-widget=" ++ dq ++ "productList" ++ dq ++ "] li"
    ++ "," ++ "[data-product-id]"
    ++ "," ++ ".manhattan--container--1lP57Ag"
    ++ "," ++ ".list-item".

Definition ITEM_ANCHOR : string := "a[href*=" ++ dq ++ "/item/" ++ dq ++ "]".

Definition BOT_PATTERNS : list jsstring :=
  [js "captcha"; js "robot"; js "verification"].

Definition isBotPage (html : jsstring) : bool :=
  existsb (fun pattern => test_i pattern html) BOT_PATTERNS.

Definition isSlash (c : N) : bool := (c =? 47)%N.

(** The character classes of the price pattern
    [/([$€£]|[A-Z]{3})?\s*([\d.,]+)/]. *)
Definition isCurrencySign (c : N) : bool :=
  ((c =? 36) || (c =? 8364) || (c =? 163))%N.
Definition isAmountChar (c : N) : bool :=
  isDigit c || (c =? 46)%N || (c =? 44)%N.

(** [\s*([\d.,]+)] at the head of [s]: both runs are greedy and share no
    character, so there is nothing to backtrack into. *)
Definition match_amount (s : jsstring) : option jsstring :=
  let amount := takeWhile isAmountChar (dropWhile isWhiteSpace s) in
  if truthy amount then Some amount else None.

(** [([$€£]|[A-Z]{3})] at the head of [s]. *)
Definition match_currency (s : jsstring) : option jsstring :=
  match s with
  | c :: _ =>
      if isCurrencySign c then Some [c]
      else
        let code := take 3 s in
        if (length code =? 3) && forallb isUpperAZ code then Some code
        else None
  | [] => None
  end.

(** The whole pattern anchored at the head of [s]: group 1 is tried first
    and given up when the rest does not follow.  The result is
    [(match[1], match[2])]. *)
Definition match_price_here (s : jsstring)
  : option (option jsstring * jsstring) :=
  let without := (fun amount => (None, amount)) <$> match_amount s in
  match match_currency s with
  | Some sign =>
      match match_amount (drop (length sign) s) with
      | Some amount => Some (Some sign, amount)
      | None => without
      end
  | None => without
  end.

(** [raw.match(...)]: the leftmost position where the pattern matches. *)
Fixpoint match_price (raw : jsstring) : option (option jsstring * jsstring) :=
  match match_price_here raw with
  | Some m => Some m
  | None =>
      match raw with
      | [] => None
      | _ :: raw' => match_price raw'
      end
  end.

(** [match[2]?.replace(/,/g, '').replace(/[^\d.]/g, '')] *)
Definition numericPartOf (amount : jsstring) : jsstring :=
  filter (fun c => isDigit c || (c =? 46)%N = true)
         (filter (fun c => (c =? 44)%N = false) amount).

Definition parsePrice (raw : jsstring) : option number * option jsstring :=
  if negb (truthy raw) then (None, None)
  else
    match match_price raw with
    | None => (None, None)
    | Some (group1, group2) =>
        let currencySymbol := group1 in
        let numericPart := numericPartOf group2 in
        let price :=
          if truthy numericPart then Some (parseFloat numericPart) else None in
        (if Number_isNaN price then None else price,
         trim <$> currencySymbol)
    end.

Section Instance.
Context {rt : ECMAScript} {ch : Cheerio}.
Context (query : jsstring) (maxResults : Z).

Definition getSearchUrl : Result jsstring :=
  encodedQuery ← encodeURIComponent (trim query);
  mret (ALIEXPRESS_BASE_URL ++ js "/wholesale?SearchText=" ++ encodedQuery
          ++ js "&SortType=default").

Definition ensureAbsoluteUrl (relative : jsstring) : option jsstring :=
  let normalized :=
    if startsWith relative (js "http") then relative
    else ALIEXPRESS_BASE_URL
           ++ (if startsWith relative (js "/") then [] else js "/")
           ++ dropWhile isSlash relative in
  match new_URL normalized None with
  | Ok parsed => Some (href parsed)
  | Throw _ => None
  end.

(** [a || b] on strings. *)
Definition or_else (a b : jsstring) : jsstring := if truthy a then a else b.

Definition extractPriceText (container : Selection) : jsstring :=
  or_else (text (find container ".multi--price-sale--U-S0jtj"))
    (or_else (text (find container ".manhattan--price-sale--1CCEZfK"))
       (or_else (text (find container ".price"))
          (or_else (text (find container ".price-current")) []))).

(** The anchor the title and the link are read from. *)
Definition anchorOf (container : Selection) : Selection :=
  if 0 <? size (first (find container ITEM_ANCHOR))
  then first (find container ITEM_ANCHOR)
  else closest container ITEM_ANCHOR.

(** The [??] chain of the title.  [text] answers a string, never
    [undefined], so it is wrapped in [Some] where the source calls it. *)
Definition titleOf (container anchor : Selection) : option jsstring :=
  nullish (attr anchor "title")
    (nullish (Some (text (find container ".multi--titleText--nXeOvyr")))
       (nullish (Some (text (find container ".manhattan--titleText--WccSjUS")))
          (Some (text anchor)))).

(** [!title?.trim()] *)
Definition blankTitle (title : option jsstring) : bool :=
  match title with
  | Some t => negb (truthy (trim t))
  | None => true
  end.

Definition parseProducts_step (products : list PlatformProduct)
    (container : Selection) : list PlatformProduct * bool :=
  if (maxResults <=? Z.of_nat (length products))%Z then (products, false)
  else
    let anchor := anchorOf container in
    let href := nullish (attr anchor "href") (attr container "href") in
    let title := titleOf container anchor in
    match href, title with
    | Some href, Some title =>
        if negb (truthy href) || blankTitle (Some title) then (products, true)
        else
          match ensureAbsoluteUrl href with
          | None => (products, true)
          | Some url =>
              if negb (truthy url) then (products, true)
              else
                let image :=
                  nullish (attr (find container "img") "src")
                    (nullish (attr (find container "img") "data-src")
                       (attr (find container "img") "image-src")) in
                let priceText := extractPriceText container in
                let '(price, currency) := parsePrice priceText in
                (products ++
                   [{| platform := aliexpress;
                       title := trim title;
                       url := url;
                       price := price;
                       currency := currency;
                       image := image;
                       imageUrl := image;
                       sourcePlatform := aliexpress |}], true)
          end
    | _, _ => (products, true)
    end.

(** The listing the callback pushes for a container, when it pushes one. *)
Definition builtFrom (container : Selection) (p : PlatformProduct) : Prop :=
  exists href rawTitle link,
    nullish (attr (anchorOf container) "href") (attr container "href")
    = Some href
    /\ titleOf container (anchorOf container) = Some rawTitle
    /\ truthy (trim rawTitle) = true
    /\ ensureAbsoluteUrl href = Some link
    /\ p = {| platform := aliexpress;
              title := trim rawTitle;
              url := link;
              price := (parsePrice (extractPriceText container)).1;
              currency := (parsePrice (extractPriceText container)).2;
              image :=
                nullish (attr (find container "img") "src")
                  (nullish (attr (find container "img") "data-src")
                     (attr (find container "img") "image-src"));
              imageUrl :=
                nullish (attr (find container "img") "src")
                  (nullish (attr (find container "img") "data-src")
                     (attr (find container "img") "image-src"));
              sourcePlatform := aliexpress |}.

(** The callback past its cap test: the listing it pushes for a
    container, or nothing when it returns early. *)
Definition listingOf (container : Selection) : option PlatformProduct :=
  let anchor := anchorOf container in
  let href := nullish (attr anchor "href") (attr container "href") in
  let title := titleOf container anchor in
  match href, title with
  | Some href, Some title =>
      if negb (truthy href) || blankTitle (Some title) then None
      else
        match ensureAbsoluteUrl href with
        | None => None
        | Some url =>
            if negb (truthy url) then None
            else
              let image :=
                nullish (attr (find container "img") "src")
                  (nullish (attr (find container "img") "data-src")
                     (attr (find container "img") "image-src")) in
              let priceText := extractPriceText container in
              let '(price, currency) := parsePrice priceText in
              Some {| platform := aliexpress;
                      title := trim title;
                      url := url;
                      price := price;
                      currency := currency;
                      image := image;
                      imageUrl := image;
                      sourcePlatform := aliexpress |}
        end
  | _, _ => None
  end.

Definition parseProducts (html : jsstring) : list PlatformProduct :=
  let dollar := load html in
  each parseProducts_step (elements (select dollar PRODUCT_SELECTORS)) [].

Definition search (w : Scraper.World)
  : Result (list PlatformProduct) * Scraper.Trace :=
  Scraper.search_with w isBotPage parseProducts getSearchUrl.

End Instance.

End AliExpressScraper.

(** ** scrapers/shopify/shopifyScraper.ts *)

Module ShopifyScraper.

Definition SHOPIFY_SEARCH_BASE_URL : jsstring := js "https://duckduckgo.com/html/".

(** [/(myshopify\.com|\.shopify\.com)/i.test(url)] *)
Definition SHOPIFY_DOMAIN_REGEX_test (url : jsstring) : bool :=
  test_i (js "myshopify.com") url || test_i (js ".shopify.com") url.

Definition BOT_PATTERNS : list jsstring :=
  [js "captcha"; js "verification"; js "enable javascript"].

Definition isBotPage (html : jsstring) : bool :=
  existsb (fun pattern => test_i pattern html) BOT_PATTERNS.

Section Instance.
Context {rt : ECMAScript} {ch : Cheerio}.
Context (query : jsstring) (maxResults : Z).

Definition getSearchUrl : Result jsstring :=
  let query := query ++ js " site:myshopify.com product" in
  let params := [(js "q", query); (js "ia", js "web")] in
  mret (SHOPIFY_SEARCH_BASE_URL ++ js "?" ++ URLSearchParams_toString params).

(** What the [if (rawHref.startsWith('/l/?'))] block does: [Some r] when it
    returns [r], [None] when control falls out of it. *)
Definition unwrapRedirect (rawHref : jsstring) : option (option jsstring) :=
  let attempt : Result (option jsstring) :=
    url ← new_URL rawHref (Some SHOPIFY_SEARCH_BASE_URL);
    match searchParams_get (searchParams url) (js "uddg") with
    | Some encoded =>
        if truthy encoded
        then decoded ← decodeURIComponent encoded; mret (Some decoded)
        else mret None
    | None => mret None
    end in
  match attempt with
  | Ok (Some decoded) => Some (Some decoded)
  | Ok None => None
  | Throw _ => Some None
  end.

Definition normalizeResultLink (rawHref : option jsstring) : option jsstring :=
  match rawHref with
  | None => None
  | Some rawHref =>
      if negb (truthy rawHref) then None
      else
        let returned :=
          if startsWith rawHref (js "/l/?") then unwrapRedirect rawHref
          else None in
        match returned with
        | Some r => r
        | None => if startsWith rawHref (js "http") then Some rawHref else None
        end
  end.

Definition parseProducts_step (products : list PlatformProduct)
    (container : Selection) : list PlatformProduct * bool :=
  if (maxResults <=? Z.of_nat (length products))%Z then (products, false)
  else
    let anchor := first (find container "a.result__a") in
    let rawHref := attr anchor "href" in
    match normalizeResultLink rawHref with
    | None => (products, true)
    | Some url =>
        if negb (truthy url) || negb (SHOPIFY_DOMAIN_REGEX_test url)
        then (products, true)
        else
          let title := trim (text anchor) in
          if negb (truthy title) then (products, true)
          else
            (products ++
               [{| platform := shopify;
                   title := title;
                   url := url;
                   price := None;
                   currency := None;
                   image := None;
                   imageUrl := None;
                   sourcePlatform := shopify |}], true)
    end.

(** The listing the callback pushes for a container, when it pushes one. *)
Definition builtFrom (container : Selection) (p : PlatformProduct) : Prop :=
  exists link,
    normalizeResultLink (attr (first (find container "a.result__a")) "href")
    = Some link
    /\ SHOPIFY_DOMAIN_REGEX_test link = true
    /\ truthy (trim (text (first (find container "a.result__a")))) = true
    /\ p = {| platform := shopify;
              title := trim (text (first (find container "a.result__a")));
              url := link;
              price := None;
              currency := None;
              image := None;
              imageUrl := None;
              sourcePlatform := shopify |}.

(** The callback past its cap test: the listing it pushes for a
    container, or nothing when it returns early. *)
Definition listingOf (container : Selection) : option PlatformProduct :=
  let anchor := first (find container "a.result__a") in
  let rawHref := attr anchor "href" in
  match normalizeResultLink rawHref with
  | None => None
  | Some url =>
      if negb (truthy url) || negb (SHOPIFY_DOMAIN_REGEX_test url) then None
      else
        let title := trim (text anchor) in
        if negb (truthy title) then None
        else
          Some {| platform := shopify;
                  title := title;
                  url := url;
                  price := None;
                  currency := None;
                  image := None;
                  imageUrl := None;
                  sourcePlatform := shopify |}
  end.

Definition parseProducts (html : jsstring) : list PlatformProduct :=
  let dollar := load html in
  each parseProducts_step (elements (select dollar ".result")) [].

Definition search (w : Scraper.World)
  : Result (list PlatformProduct) * Scraper.Trace :=
  Scraper.search_with w isBotPage parseProducts getSearchUrl.

End Instance.

End ShopifyScraper.

(** ** scrapers/scraperManager.ts *)

Module ScraperManager.

Section Instance.
Context {rt : ECMAScript} {ch : Cheerio}.
Context (query : jsstring) (sourceUrl : option jsstring) (config : AppConfig).

(** Scores are computed in exact rational arithmetic.  The double the
    source computes is a monotone rounding of this value, and two scores
    for the same query that differ do so by at least [1 / length query],
    far above the rounding error for any string length an engine allows:
    comparing doubles and comparing these rationals give the same
    answers. *)
Definition computeScore (product : PlatformProduct) : Q :=
  if negb (truthy (title product)) then 0%Q
  else
    let normalizedQuery := toLowerCase query in
    let normalizedTitle := toLowerCase (title product) in
    let score := 0%Q in
    let score :=
      if includes normalizedTitle normalizedQuery then (score + 2)%Q
      else score in
    let lengthDifference :=
      Z.abs (Z.of_nat (length normalizedTitle)
             - Z.of_nat (length normalizedQuery)) in
    (score
     + Qmax 0 (1 - inject_Z lengthDifference
                   / inject_Z (Z.max (Z.of_nat (length normalizedQuery)) 1)))%Q.

(** [[...products].sort(...)]: on values the copy is the list itself; the
    store-level reading is [Store.sortByRelevance] below. *)
Definition sortByRelevance (products : list PlatformProduct)
  : list PlatformProduct :=
  Array_sort (fun a b => (computeScore b - computeScore a)%Q) products.

(** The [scrapers] record: each thunk, run in the world of its own
    instance.  Only the returned promise matters to [runAll]. *)
Definition scrapers (world : PlatformName -> Scraper.World)
    (platform : PlatformName) : Result (list PlatformProduct) :=
  match platform with
  | amazon =>
      (AmazonScraper.search query (maxResultsPerPlatform config)
         (world amazon)).1
  | aliexpress =>
      (AliExpressScraper.search query (maxResultsPerPlatform config)
         (world aliexpress)).1
  | shopify =>
      (ShopifyScraper.search query (maxResultsPerPlatform config)
         (world shopify)).1
  end.

(** [runAll] from [const platforms] on, for any record of thunks.  The
    three tasks share no state, so running them one after the other gives
    the values [Promise.all] gives.  [results] has one entry per platform,
    so [results[index]] is never [undefined]. *)
Definition runAll_with (scrapers : PlatformName -> Result (list PlatformProduct))
  : Result PlatformMatches :=
  let platforms := [amazon; aliexpress; shopify] in
  results ← Promise_all
    ((fun platform =>
        try_catch
          (products ← scrapers platform; mret (sortByRelevance products))
          (fun error => mret []))
       <$> platforms);
  mret (reduce
          (fun (acc : PlatformMatches) platform index =>
             <[platform := default [] (results !! index)]> acc)
          (<[amazon := []]> (<[aliexpress := []]> (<[shopify := []]> ∅)))
          platforms).

Definition runAll (world : PlatformName -> Scraper.World)
  : Result PlatformMatches :=
  runAll_with (scrapers world).

End Instance.

End ScraperManager.

(** ** Arrays as objects *)

(** [sortByRelevance] once more, with the arrays held in a store, so that
    the in-place [sort] and the copy made by the spread are visible. *)
Module Store.

Abbreviation store := (gmap positive (list PlatformProduct)).

(** [[...a]]: a new array with the elements of [a]. *)
Definition spread (h : store) (a : positive) : positive * store :=
  let copy := fresh (dom h) in
  (copy, <[copy := default [] (h !! a)]> h).

(** [a.sort(cmp)]: sorts [a] in place and returns it. *)
Definition sort (cmp : PlatformProduct -> PlatformProduct -> Q) (h : store)
    (a : positive) : positive * store :=
  (a, <[a := Array_sort cmp (default [] (h !! a))]> h).

Definition sortByRelevance {rt : ECMAScript} (query : jsstring) (h : store)
    (products : positive) : positive * store :=
  let '(copy, h) := spread h products in
  sort (fun a b => (ScraperManager.computeScore query b
                    - ScraperManager.computeScore query a)%Q) h copy.

End Store.

(** ** A runtime and a document model for concrete runs *)

(** Small implementations of the abstract interfaces, used to run the
    scrapers on recorded inputs.  They agree with the real built-ins on the
    inputs used in this file: the case maps cover Basic Latin and Latin-1,
    plus U+0130 (the one code point whose lower-case form is longer than
    itself); URLs are [http(s)://host/path?query] without escapes in the
    query; percent escapes are decoded for single bytes only. *)
Module Fixture.

Definition lowerUnit (c : N) : jsstring :=
  if isUpperAZ c then [c + 32]%N
  else if ((192 <=? c) && (c <=? 222) && negb (c =? 215))%N then [c + 32]%N
  else if (c =? 304)%N then [105; 775]%N
  else [c].

Definition upperUnit (c : N) : jsstring :=
  if isLowerAZ c then [c - 32]%N
  else if ((224 <=? c) && (c <=? 254) && negb (c =? 247))%N then [c - 32]%N
  else if (c =? 223)%N then [83; 83]%N
  else if (c =? 181)%N then [924]%N
  else if (c =? 255)%N then [376]%N
  else [c].

Definition lower (s : jsstring) : jsstring := s ≫= lowerUnit.
Definition upper (s : jsstring) : jsstring := s ≫= upperUnit.

Definition hexDigit (n : N) : N := (if n <? 10 then 48 + n else 55 + n)%N.
Definition pct (b : N) : jsstring := [37; hexDigit (b / 16); hexDigit (b mod 16)]%N.

Definition utf8 (cp : N) : jsstring :=
  (if cp <? 128 then pct cp
   else if cp <? 2048 then pct (192 + cp / 64) ++ pct (128 + cp mod 64)
   else if cp <? 65536 then
     pct (224 + cp / 4096) ++ pct (128 + (cp / 64) mod 64)
       ++ pct (128 + cp mod 64)
   else
     pct (240 + cp / 262144) ++ pct (128 + (cp / 4096) mod 64)
       ++ pct (128 + (cp / 64) mod 64) ++ pct (128 + cp mod 64))%N.

Definition unreserved (c : N) : bool :=
  isAlnum c || existsb (N.eqb c) (js "-_.!~*'()").
Definition isHigh (c : N) : bool := ((55296 <=? c) && (c <=? 56319))%N.
Definition isLow (c : N) : bool := ((56320 <=? c) && (c <=? 57343))%N.

(** [encodeURIComponent]: a lone surrogate is a [URIError]. *)
Fixpoint encode (s : jsstring) : Result jsstring :=
  match s with
  | [] => Ok []
  | c :: s' =>
      if unreserved c then r ← encode s'; mret (c :: r)
      else if isHigh c then
        match s' with
        | d :: s'' =>
            if isLow d then
              r ← encode s'';
              mret (utf8 (65536 + (c - 55296) * 1024 + (d - 56320))%N ++ r)
            else Throw URIError
        | [] => Throw URIError
        end
      else if isLow c then Throw URIError
      else r ← encode s'; mret (utf8 c ++ r)
  end.

Definition hexValue (c : N) : option N :=
  if isDigit c then Some (c - 48)%N
  else if ((65 <=? c) && (c <=? 70))%N then Some (c - 55)%N
  else if ((97 <=? c) && (c <=? 102))%N then Some (c - 87)%N
  else None.

Fixpoint decode (s : jsstring) : Result jsstring :=
  match s with
  | [] => Ok []
  | 37%N :: s' =>
      match s' with
      | a :: b :: s'' =>
          match hexValue a, hexValue b with
          | Some x, Some y =>
              if (16 * x + y <? 128)%N
              then r ← decode s''; mret ((16 * x + y)%N :: r)
              else Throw URIError
          | _, _ => Throw URIError
          end
      | _ => Throw URIError
      end
  | c :: s' => r ← decode s'; mret (c :: r)
  end.

Definition isNot (stops : jsstring) (c : N) : bool :=
  negb (existsb (N.eqb c) stops).

Fixpoint splitOn (sep : N) (s : jsstring) : list jsstring :=
  match s with
  | [] => [[]]
  | c :: s' =>
      if (c =? sep)%N then [] :: splitOn sep s'
      else match splitOn sep s' with
           | w :: ws => (c :: w) :: ws
           | [] => [[c]]
           end
  end.

Definition pairOf (kv : jsstring) : jsstring * jsstring :=
  let k := takeWhile (isNot (js "=")) kv in
  (k, drop (S (length k)) kv).

Definition parseAbsolute (input : jsstring) : Result URL :=
  let scheme :=
    if startsWith input (js "https://") then Some (js "https://")
    else if startsWith input (js "http://") then Some (js "http://")
    else None in
  match scheme with
  | None => Throw TypeError
  | Some scheme =>
      let rest := drop (length scheme) input in
      let host := takeWhile (isNot (js "/?#")) rest in
      let rest := drop (length host) rest in
      let path := takeWhile (isNot (js "?#")) rest in
      let rest := drop (length path) rest in
      let search :=
        match rest with
        | 63%N :: q => takeWhile (isNot (js "#")) q
        | _ => []
        end in
      if negb (truthy host) then Throw TypeError
      else
        let path := if truthy path then path else js "/" in
        Ok {| href := scheme ++ host ++ path
                        ++ (if truthy search then js "?" ++ search else []);
              origin := scheme ++ host;
              pathname := path;
              searchParams :=
                if truthy search then pairOf <$> splitOn 38 search else [] |}
  end.

Definition parseURL (input : jsstring) (base : option jsstring) : Result URL :=
  match base with
  | Some base =>
      if startsWith input (js "/")
      then b ← parseAbsolute base; parseAbsolute (origin b ++ input)
      else parseAbsolute input
  | None => parseAbsolute input
  end.

Definition formEncode (s : jsstring) : jsstring :=
  (fun c => if (c =? 32)%N then 43%N else c) <$> s.

Fixpoint joinParams (ps : list (jsstring * jsstring)) : jsstring :=
  match ps with
  | [] => []
  | [(k, v)] => formEncode k ++ js "=" ++ formEncode v
  | (k, v) :: ps' => formEncode k ++ js "=" ++ formEncode v ++ js "&" ++ joinParams ps'
  end.

(** A recorded element: its attributes, its text, and what [find] and
    [closest] answer for the selectors asked of it. *)
#[local] Set Warnings "-register-all".
Inductive Node :=
| node (attrs : list (string * jsstring)) (txt : jsstring)
       (found : list (string * list Node)) (up : list (string * list Node)).

Definition attrs_of (n : Node) := let 'node a _ _ _ := n in a.
Definition txt_of (n : Node) := let 'node _ t _ _ := n in t.
Definition found_of (n : Node) := let 'node _ _ f _ := n in f.
Definition up_of (n : Node) := let 'node _ _ _ u := n in u.

Fixpoint assoc {V} (k : string) (l : list (string * V)) : option V :=
  match l with
  | [] => None
  | (k', v) :: l' => if decide (k = k') then Some v else assoc k l'
  end.

(** A recorded page: what each top-level selector yields. *)
Definition Page := list (string * list Node).

Fixpoint pageOf (html : jsstring) (pages : list (jsstring * Page)) : Page :=
  match pages with
  | [] => []
  | (text, page) :: pages' =>
      if decide (text = html) then page else pageOf html pages'
  end.

(** A cheerio over recorded pages, keyed by their HTML text. *)
Definition cheerio (pages : list (jsstring * Page)) : Cheerio := {|
  CheerioAPI := Page;
  Selection := list Node;
  load := fun html => pageOf html pages;
  select := fun page sel => default [] (assoc sel page);
  elements := fun sel => (fun n : Node => [n]) <$> sel;
  find := fun sel s => sel ≫= (fun n => default [] (assoc s (found_of n)));
  closest := fun sel s => sel ≫= (fun n => default [] (assoc s (up_of n)));
  first := take 1;
  attr := fun sel name =>
    match sel with [] => None | n :: _ => assoc name (attrs_of n) end;
  text := fun sel => sel ≫= txt_of;
  size := length;
|}.

Definition runtime : ECMAScript.
Proof.
  refine {| toLowerCase := lower;
            toUpperCase := upper;
            encodeURIComponent := encode;
            decodeURIComponent := decode;
            new_URL := parseURL;
            URLSearchParams_toString := joinParams |}.
  - intros s Hs. induction Hs as [|c s Hc _ IH]; [reflexivity|].
    unfold lower in *. cbn [mbind list_bind]. rewrite IH. cbn [fmap list_fmap].
    unfold lowerUnit, asciiLower. destruct (isUpperAZ c); [reflexivity|].
    destruct (N.leb_spec 192 c); [lia|].
    destruct (N.eqb_spec c 304); [lia|]. reflexivity.
  - intros s Hs. induction Hs as [|c s Hc _ IH]; [reflexivity|].
    unfold upper in *. cbn [mbind list_bind]. rewrite IH. cbn [fmap list_fmap].
    unfold upperUnit, asciiUpper. destruct (isLowerAZ c); [reflexivity|].
    destruct (N.leb_spec 224 c); [lia|].
    destruct (N.eqb_spec c 223); [lia|].
    destruct (N.eqb_spec c 181); [lia|].
    destruct (N.eqb_spec c 255); [lia|]. reflexivity.
Defined.

(** A listing with nothing but a platform, a title and a link. *)
Definition listing (platform : PlatformName) (title url : jsstring)
  : PlatformProduct :=
  {| platform := platform; title := title; url := url; price := None;
     currency := None; image := None; imageUrl := None;
     sourcePlatform := platform |}.

(** A world that answers the requests with [outcomes], in order, then
    fails, and whose random numbers are all [r]. *)
Definition world (outcomes : list Scraper.Outcome) (r : Q) : Scraper.World :=
  {| Scraper.http_get := fun _ n =>
       default (Scraper.Rejected OtherError) (outcomes !! pred n);
     Scraper.Math_random := fun _ => r |}.

Definition page200 (html : jsstring) : Scraper.Outcome :=
  Scraper.Resolved {| Scraper.status := 200; Scraper.data := Scraper.DataString html |}.

End Fixture.

(** ** The specification's wording, for comparison *)

Module Spec.

(** The relevance score as the specification words it: the lengths are
    those of the title and the query themselves. *)
Definition relevance {rt : ECMAScript} (query title : jsstring) : Q :=
  ((if includes (toLowerCase title) (toLowerCase query) then 2 else 0)
   + Qmax 0 (1 - inject_Z (Z.abs (Z.of_nat (length title)
                                  - Z.of_nat (length query)))
                 / inject_Z (Z.max (Z.of_nat (length query)) 1)))%Q.

(** The same expression over the lower-cased strings. *)
Definition relevance_lowered {rt : ECMAScript} (query title : jsstring) : Q :=
  let q := toLowerCase query in
  let t := toLowerCase title in
  ((if includes t q then 2 else 0)
   + Qmax 0 (1 - inject_Z (Z.abs (Z.of_nat (length t) - Z.of_nat (length q)))
                 / inject_Z (Z.max (Z.of_nat (length q)) 1)))%Q.

Definition isSchemeChar (c : N) : bool :=
  isAlnum c || existsb (N.eqb c) (js "+-.").

(** An absolute URL starts with a scheme, [ALPHA *( ALPHA / DIGIT / "+" /
    "-" / "." ) ":"].  This is necessary for being an absolute URL, not
    sufficient. *)
Definition hasScheme (s : jsstring) : bool :=
  match s with
  | c :: s' =>
      (isUpperAZ c || isLowerAZ c)
      && match dropWhile isSchemeChar s' with
         | 58%N :: _ => true
         | _ => false
         end
  | [] => false
  end.

(** The two forms the marketplace rewrites a link to, from the URL object
    [u] the link resolved to: the product form when the path of [u] holds
    a ten-character alphanumeric code after "/dp/" or "/gp/product/", and
    origin and path without trailing slashes otherwise. *)
Definition canonical (u : URL) (link : jsstring) : Prop :=
  (exists code,
     AmazonScraper.asinMatch (pathname u) = Some code
     /\ length code = 10
     /\ forallb isAlnum code = true
     /\ link = AmazonScraper.AMAZON_BASE_URL ++ js "/dp/"
                 ++ (asciiUpper <$> code))
  \/ (AmazonScraper.asinMatch (pathname u) = None
      /\ link = AmazonScraper.trimTrailingSlashes (origin u ++ pathname u)).

(** The redirect target a marketplace URL carries: the first value of its
    [url] parameter or, when it has no [url] parameter, of its [location]
    parameter. *)
Definition redirectTarget (u : URL) : option jsstring :=
  match searchParams_get (searchParams u) (js "url") with
  | Some target => Some target
  | None => searchParams_get (searchParams u) (js "location")
  end.

(** Redirect unwrapping, from the URL object [u0] of the link to the URL
    object [u] the link resolves to.  With a non-empty redirect target,
    [u] is the parse of the target once URI-decoded, prefixed with the
    marketplace base when it does not start with "http"; with no target or
    an empty one, [u] is [u0] itself. *)
Definition unwrapped {rt : ECMAScript} (u0 u : URL) : Prop :=
  (exists target decoded,
     redirectTarget u0 = Some target
     /\ target <> []
     /\ decodeURIComponent target = Ok decoded
     /\ new_URL (if startsWith decoded (js "http") then decoded
                 else AmazonScraper.AMAZON_BASE_URL ++ decoded) None = Ok u)
  \/ ((redirectTarget u0 = None \/ redirectTarget u0 = Some []) /\ u = u0).

(** The absolute form of a trimmed link: the link itself when it starts
    with "http", and the marketplace base, a slash and the link when it is
    relative and has no leading slash.  Links with a leading slash are
    left out. *)
Definition absolute (link : jsstring) : option jsstring :=
  if startsWith link (js "http") then Some link
  else if startsWith link (js "/") then None
  else Some (AmazonScraper.AMAZON_BASE_URL ++ js "/" ++ link).

(** The URL object a raw marketplace link resolves to: some text, which
    is the absolute form of the trimmed link where that is defined, parses
    to a URL object, and [u] is that object after redirect unwrapping. *)
Definition resolves {rt : ECMAScript} (rawLink : jsstring) (u : URL) : Prop :=
  exists input u0,
    (forall a, absolute (trim rawLink) = Some a -> input = a)
    /\ new_URL input None = Ok u0
    /\ unwrapped u0 u.

(** Highest key first. *)
Definition descending {A : Type} (key : A -> Q) : list A -> Prop :=
  StronglySorted (fun a b => (key b <= key a)%Q).

(** A fetch outcome the retry policy retries: status 429 or 503, an empty
    or whitespace-only (or non-string) body, or a failed request. *)
Definition transient (o : Scraper.Outcome) : bool :=
  match o with
  | Scraper.Resolved r =>
      Scraper.transientStatus (Scraper.status r)
      || match Scraper.usableHtml (Scraper.data r) with Some _ => false | None => true end
  | Scraper.Rejected _ => true
  end.

End Spec.

(** ** Recorded pages *)

Module Pages.
Import Fixture.

Definition leaf (attrs : list (string * jsstring)) (txt : jsstring) : Node :=
  node attrs txt [] [].

(** A marketplace result page with one organic result, "Wireless Mouse
    2.4G" at $12.99, and one sponsored result. *)
Definition amazonHtml : jsstring := js "<html><!-- amazon: wireless mouse --></html>".

Definition organic : Node :=
  node [("data-component-type", js "s-search-result")] []
    [("h2 a span", [leaf [] (js "Wireless Mouse 2.4G")]);
     ("h2 a", [leaf [("href", js "/wireless-mouse/dp/b08n5wrwnw/ref=sr_1_1")]
                 (js "Wireless Mouse 2.4G")]);
     ("img.s-image", [leaf [("src", js "https://m.media-amazon.com/images/I/1.jpg")] []]);
     (".a-price",
      [node [] (js "$12.99")
         [(".a-price-symbol", [leaf [] (js "$")]);
          (".a-price-whole", [leaf [] (js "12.")]);
          (".a-price-fraction", [leaf [] (js "99")])] []])] [].

Definition advert : Node :=
  node [("data-component-type", js "s-search-result")] []
    [(AmazonScraper.SPONSORED_MARKS, [leaf [] (js "Sponsored")]);
     ("h2 a span", [leaf [] (js "Sponsored Mouse Deal")]);
     ("h2 a", [leaf [("href", js "https://www.amazon.com/gp/product/B000000001")]
                 (js "Sponsored Mouse Deal")])] [].

Definition amazon : Page := [(AmazonScraper.RESULT_ITEMS, [advert; organic])].

(** A wholesale card whose anchor has no [title] attribute and whose title
    sits in the second title class only. *)
Definition aliexpressHtml : jsstring := js "<html><!-- aliexpress: widget --></html>".

Definition card : Node :=
  node [] []
    [(AliExpressScraper.ITEM_ANCHOR,
      [leaf [("href", js "https://www.aliexpress.com/item/1005001.html")]
         (js "Blue Widget")]);
     (".manhattan--titleText--WccSjUS", [leaf [] (js "Blue Widget")]);
     (".price", [leaf [] (js "US $1,234.50")])] [].

(** The same card with the title in the anchor's [title] attribute. *)
Definition titledCard : Node :=
  node [] []
    [(AliExpressScraper.ITEM_ANCHOR,
      [leaf [("href", js "https://www.aliexpress.com/item/1005001.html");
             ("title", js " Blue Widget ")]
         (js "Blue Widget")]);
     (".price", [leaf [] (js "US $1,234.50")])] [].

Definition aliexpress : Page := [(AliExpressScraper.PRODUCT_SELECTORS, [card])].

Definition aliexpressTitledHtml : jsstring :=
  js "<html><!-- aliexpress: titled widget --></html>".
Definition aliexpressTitled : Page :=
  [(AliExpressScraper.PRODUCT_SELECTORS, [titledCard])].

(** A search-engine result whose link starts with "http" yet has no
    scheme. *)
Definition shopifyHtml : jsstring := js "<html><!-- duckduckgo: shop --></html>".

Definition result : Node :=
  node [] []
    [("a.result__a", [leaf [("href", js "http-myshopify.com")] (js "Shop")])] [].

Definition shopify : Page := [(".result", [result])].

Definition all : Cheerio :=
  cheerio [(amazonHtml, amazon); (aliexpressHtml, aliexpress);
           (aliexpressTitledHtml, aliexpressTitled); (shopifyHtml, shopify)].

End Pages.

(** ** utils/productMatcher.ts *)

Module ProductMatcher.

Record Product := {
  id : jsstring;
  name : jsstring;
  price : number;
}.

Definition matchProducts {rt : ECMAScript} (query : jsstring)
    (candidates : list Product) : list Product :=
  let normalizedQuery := toLowerCase query in
  List.filter
    (fun product => includes (toLowerCase (name product)) normalizedQuery)
    candidates.

End ProductMatcher.

(** ** services/trackerService.ts *)

Module TrackerService.

Record MarginAnalysis := { dropshippingProbability : Z }.

Record TrackerResponse := {
  productQuery : jsstring;
  sourceUrl : option jsstring;
  productPageUrl : option jsstring;
  matches : PlatformMatches;
  analysis : MarginAnalysis;
  amazonProductUrl : option jsstring;
  aliexpressProductUrl : option jsstring;
  shopifyProductUrl : option jsstring;
}.

(** [matches.amazon] and the like, about to be indexed: indexing
    [undefined] is a [TypeError]. *)
Definition entry (matches : PlatformMatches) (platform : PlatformName)
  : Result (list PlatformProduct) :=
  match matches !! platform with
  | Some products => Ok products
  | None => Throw TypeError
  end.

(** The version of the service that also reports the top link of each
    platform; the other version is this one without the three link
    fields. *)
Definition runTracker {rt : ECMAScript} {ch : Cheerio}
    (productQuery : jsstring) (sourceUrl : option jsstring)
    (config : AppConfig) (world : PlatformName -> Scraper.World)
  : Result TrackerResponse :=
  matches ← ScraperManager.runAll productQuery config world;
  amazonProducts ← entry matches amazon;
  let topAmazon := head amazonProducts in
  aliexpressProducts ← entry matches aliexpress;
  let topAliExpress := head aliexpressProducts in
  shopifyProducts ← entry matches shopify;
  let topShopify := head shopifyProducts in
  mret {| productQuery := productQuery;
          sourceUrl := sourceUrl;
          productPageUrl := sourceUrl;
          matches := matches;
          analysis := {| dropshippingProbability := 0 |};
          amazonProductUrl := url <$> topAmazon;
          aliexpressProductUrl := url <$> topAliExpress;
          shopifyProductUrl := url <$> topShopify |}.

End TrackerService.

(** ** routes/tracker.ts *)

Module TrackerRoute.

(** A field of the request body as the handler tests it: a string, or
    anything else ([undefined] included). *)
Inductive Field :=
| IsString (s : jsstring)
| NotString.

Record Body := {
  productQuery : Field;
  sourceUrl : option jsstring;
}.

Inductive Payload :=
| Failure (message : jsstring)
| Success (data : TrackerService.TrackerResponse).

(** [res.status(code).json(payload)]; [res.json] alone answers 200. *)
Record Reply := { status : Z; payload : Payload }.

(** The POST handler, given [req.body], [req.app.locals.config] and the
    worlds the three scrapers of this request will meet. *)
Definition post {rt : ECMAScript} {ch : Cheerio} (body : option Body)
    (config : option AppConfig) (world : PlatformName -> Scraper.World)
  : Reply :=
  let productQuery :=
    match body with Some b => productQuery b | None => NotString end in
  let sourceUrl :=
    match body with Some b => sourceUrl b | None => None end in
  match productQuery with
  | NotString =>
      {| status := 400;
         payload := Failure (js "productQuery must be a non-empty string") |}
  | IsString productQuery =>
      if length (trim productQuery) =? 0 then
        {| status := 400;
           payload := Failure (js "productQuery must be a non-empty string") |}
      else
        match config with
        | None =>
            {| status := 500;
               payload := Failure (js "Server configuration missing") |}
        | Some config =>
            match TrackerService.runTracker productQuery sourceUrl config world with
            | Ok data => {| status := 200; payload := Success data |}
            | Throw error =>
                {| status := 500;
                   payload := Failure (js "Unable to fetch tracker data") |}
            end
        end
  end.

End TrackerRoute.

(** ** scrapers/baseScraper.ts: the cached client *)

Module BaseScraper.

(** A proxy agent and an axios instance, by what they were made from. *)
Inductive Agent := HttpsProxyAgent (proxyUrl : jsstring).

Record AxiosInstance := {
  timeout : Z;
  agent : option Agent;
}.

(** The two cached promises of an instance, with counts of the calls to
    [resolveProxyAgent] and to [axios.create] made so far. *)
Record Instance := {
  httpClientPromise : option AxiosInstance;
  proxyAgentPromise : option (option Agent);
  resolutions : nat;
  clients : nat;
}.

Section Instance.
(** What the [n]-th call of [resolveProxyAgent] resolves to (an agent or
    [undefined]; it never rejects), and the timeout of the instance. *)
Context (resolveProxyAgent : nat -> option Agent) (timeoutMs : Z).

Definition constructor : Instance :=
  {| httpClientPromise := None;
     proxyAgentPromise := Some (resolveProxyAgent 1);
     resolutions := 1;
     clients := 0 |}.

Definition getProxyAgent (this : Instance) : option Agent * Instance :=
  match proxyAgentPromise this with
  | Some promise => (promise, this)
  | None =>
      let promise := resolveProxyAgent (S (resolutions this)) in
      (promise,
       {| httpClientPromise := httpClientPromise this;
          proxyAgentPromise := Some promise;
          resolutions := S (resolutions this);
          clients := clients this |})
  end.

Definition buildAxiosInstance (this : Instance) : AxiosInstance * Instance :=
  let '(agent, this) := getProxyAgent this in
  ({| timeout := timeoutMs; agent := agent |},
   {| httpClientPromise := httpClientPromise this;
      proxyAgentPromise := proxyAgentPromise this;
      resolutions := resolutions this;
      clients := S (clients this) |}).

Definition getHttpClient (this : Instance) : AxiosInstance * Instance :=
  match httpClientPromise this with
  | Some promise => (promise, this)
  | None =>
      let '(promise, this) := buildAxiosInstance this in
      (promise,
       {| httpClientPromise := Some promise;
          proxyAgentPromise := proxyAgentPromise this;
          resolutions := resolutions this;
          clients := clients this |})
  end.

(** [n] calls of [getHttpClient] in a row: the clients they return,
    oldest first, and the instance afterwards. *)
Fixpoint getHttpClients (n : nat) (this : Instance)
  : list AxiosInstance * Instance :=
  match n with
  | 0 => ([], this)
  | S n' =>
      let '(client, this) := getHttpClient this in
      let '(rest, this) := getHttpClients n' this in
      (client :: rest, this)
  end.

End Instance.

End BaseScraper.

(* ===================================================================== *)
(** * Part II.  Properties                                                *)
(* ===================================================================== *)

(** ** Array.prototype.sort *)

Section SortFacts.
Context {A : Type} (key : A -> Q).

(** The comparator of [sortByRelevance]: higher keys first. *)
Local Abbreviation cmp := (fun a b : A => (key b - key a)%Q).

Lemma cmp_le_0 (x y : A) : Qle_bool (cmp x y) 0 = true <-> (key y <= key x)%Q.
Proof.
  rewrite Qle_bool_iff. split; intros Hle.
  - apply Qplus_le_l with (z := (- key x)%Q). rewrite Qplus_opp_r. exact Hle.
  - apply Qplus_le_l with (z := key x). unfold Qminus.
    rewrite <- Qplus_assoc, (Qplus_comm (- key x)), Qplus_opp_r.
    rewrite Qplus_0_r, Qplus_0_l. exact Hle.
Qed.

Lemma cmp_gt_0 (x y : A) : Qle_bool (cmp x y) 0 = false -> (key x < key y)%Q.
Proof.
  intros Hf. apply Qnot_le_lt. intros Hle.
  apply cmp_le_0 in Hle. congruence.
Qed.

Lemma sort_insert_perm (x : A) (l : list A) : sort_insert cmp x l ≡ₚ x :: l.
Proof.
  induction l as [|y l IH]; cbn; [done|].
  destruct (Qle_bool (cmp x y) 0); [done|].
  rewrite IH. apply Permutation_swap.
Qed.

Lemma Array_sort_perm (l : list A) : Array_sort cmp l ≡ₚ l.
Proof.
  induction l as [|x l IH]; cbn; [done|].
  by rewrite sort_insert_perm, IH.
Qed.

Local Abbreviation descending := (Spec.descending key).

Lemma sort_insert_descending (x : A) (l : list A) :
  descending l -> descending (sort_insert cmp x l).
Proof.
  unfold Spec.descending.
  induction l as [|y l IH]; intros Hs; cbn.
  - repeat constructor.
  - inversion Hs as [|? ? Hl Hy]; subst.
    destruct (Qle_bool (cmp x y) 0) eqn:E.
    + apply cmp_le_0 in E. constructor; [exact Hs|].
      constructor; [exact E|].
      eapply Forall_impl; [exact Hy|]. cbn. intros z Hz. by eapply Qle_trans.
    + apply cmp_gt_0 in E. constructor; [by apply IH|].
      rewrite sort_insert_perm. constructor; [by apply Qlt_le_weak | exact Hy].
Qed.

Lemma Array_sort_descending (l : list A) : descending (Array_sort cmp l).
Proof.
  induction l as [|x l IH]; cbn; [constructor|].
  by apply sort_insert_descending.
Qed.

(** Stability: the elements of any one key come out in the order they went
    in. *)
Lemma sort_insert_stable (s : Q) (x : A) (l : list A) :
  List.filter (fun a => Qeq_bool (key a) s) (sort_insert cmp x l)
  = List.filter (fun a => Qeq_bool (key a) s) (x :: l).
Proof.
  induction l as [|y l IH]; [reflexivity|].
  cbn [sort_insert]. destruct (Qle_bool (cmp x y) 0) eqn:E; [reflexivity|].
  apply cmp_gt_0 in E. cbn [List.filter] in *. rewrite IH.
  destruct (Qeq_bool (key x) s) eqn:Ex, (Qeq_bool (key y) s) eqn:Ey;
    try reflexivity.
  apply Qeq_bool_iff in Ex, Ey. rewrite Ex, Ey in E.
  by apply Qlt_irrefl in E.
Qed.

Lemma Array_sort_stable (s : Q) (l : list A) :
  List.filter (fun a => Qeq_bool (key a) s) (Array_sort cmp l)
  = List.filter (fun a => Qeq_bool (key a) s) l.
Proof.
  induction l as [|x l IH]; [reflexivity|].
  cbn [Array_sort]. rewrite sort_insert_stable. cbn [List.filter].
  by rewrite IH.
Qed.

End SortFacts.

(** ** Relevance ranking *)

Section Ranking.
Context {rt : ECMAScript}.

Lemma computeScore_lowered (query : jsstring) (p : PlatformProduct) :
  title p <> [] ->
  (ScraperManager.computeScore query p
   == Spec.relevance_lowered query (title p))%Q.
Proof.
  intros Ht. unfold ScraperManager.computeScore, Spec.relevance_lowered.
  destruct (title p) as [|c t] eqn:E; [done|]. cbn [truthy negb].
  destruct (includes _ _); cbn zeta; [|reflexivity].
  by rewrite Qplus_0_l.
Qed.

Lemma computeScore_empty (query : jsstring) (p : PlatformProduct) :
  title p = [] -> ScraperManager.computeScore query p = 0%Q.
Proof. intros Ht. unfold ScraperManager.computeScore. by rewrite Ht. Qed.

Lemma relevance_lowered_same_length (query t : jsstring) :
  length (toLowerCase t) = length t ->
  length (toLowerCase query) = length query ->
  Spec.relevance_lowered query t = Spec.relevance query t.
Proof.
  intros Ht Hq. unfold Spec.relevance_lowered, Spec.relevance. cbn zeta.
  by rewrite Ht, Hq.
Qed.

Lemma ascii_js (s : string) :
  forallb (fun c => (c <? 128)%N) (js s) = true ->
  Forall (fun c => (c < 128)%N) (js s).
Proof.
  rewrite forallb_forall, Forall_forall. intros H c Hc.
  apply N.ltb_lt, H. by apply list_elem_of_In.
Qed.

Lemma toLowerCase_js (s : string) :
  forallb (fun c => (c <? 128)%N) (js s) = true ->
  toLowerCase (js s) = asciiLower <$> js s.
Proof. intros H. by apply toLowerCase_ascii, ascii_js. Qed.

End Ranking.

Section RankingClaims.
Context {rt : ECMAScript}.

Local Abbreviation score q := (ScraperManager.computeScore q).
Local Abbreviation L t := (Fixture.listing amazon (js t) (js "https://www.amazon.com/")).

Lemma red_mug_scores :
  score (js "red mug") (L "red mug") = (21 # 7)%Q
  /\ score (js "red mug") (L "a red mug set") = (15 # 7)%Q
  /\ score (js "red mug") (L "blue plate") = (4 # 7)%Q.
Proof.
  unfold ScraperManager.computeScore. cbn [title Fixture.listing].
  rewrite !toLowerCase_js by reflexivity.
  repeat split; vm_compute; reflexivity.
Qed.

(** C3, as amended.  For a listing with a non-empty title the score is 2
    if the lower-cased title contains the lower-cased query, plus
    [max(0, 1 - |len t' - len q'| / max(len q', 1))] where [t'] and [q']
    are the lower-cased title and query; this is the specification's
    expression whenever lower-casing keeps both lengths, as it does on
    ASCII text.  An empty title
    scores 0.  [sortByRelevance] orders by descending score and keeps the
    input order among equal scores.  For the query "red mug" the titles
    "red mug", "a red mug set" and "blue plate" score 3, 15/7 and 4/7, and
    are returned in that order. *)
Theorem relevance_ranking :
  (forall query p, title p <> [] ->
     (score query p == Spec.relevance_lowered query (title p))%Q)
  /\ (forall query p, title p <> [] ->
        length (toLowerCase (title p)) = length (title p) ->
        length (toLowerCase query) = length query ->
        (score query p == Spec.relevance query (title p))%Q)
  /\ (forall query p, title p <> [] ->
        Forall (fun c => (c < 128)%N) (title p) ->
        Forall (fun c => (c < 128)%N) query ->
        (score query p == Spec.relevance query (title p))%Q)
  /\ (forall query p, title p = [] -> score query p = 0%Q)
  /\ (forall query ps,
        Spec.descending (score query) (ScraperManager.sortByRelevance query ps))
  /\ (forall query ps s,
        List.filter (fun p => Qeq_bool (score query p) s)
          (ScraperManager.sortByRelevance query ps)
        = List.filter (fun p => Qeq_bool (score query p) s) ps)
  /\ (score (js "red mug") (L "blue plate")
        < score (js "red mug") (L "a red mug set"))%Q
  /\ (score (js "red mug") (L "a red mug set")
        < score (js "red mug") (L "red mug"))%Q
  /\ ScraperManager.sortByRelevance (js "red mug")
       [L "blue plate"; L "a red mug set"; L "red mug"]
     = [L "red mug"; L "a red mug set"; L "blue plate"].
Proof.
  destruct red_mug_scores as (H1 & H2 & H3).
  split; [exact computeScore_lowered|].
  split.
  { intros query p Hne Ht Hq. rewrite computeScore_lowered by done.
    by rewrite relevance_lowered_same_length. }
  split.
  { intros query p Hne Ht Hq. rewrite computeScore_lowered by done.
    rewrite relevance_lowered_same_length; [reflexivity| |];
      rewrite toLowerCase_ascii by done; apply length_fmap. }
  split; [exact computeScore_empty|].
  split; [intros; apply Array_sort_descending|].
  split; [intros; apply Array_sort_stable|].
  rewrite H1, H2, H3. repeat split.
  unfold ScraperManager.sortByRelevance.
  repeat (cbn [Array_sort sort_insert]; rewrite ?H1, ?H2, ?H3;
          match goal with
          | |- context [Qle_bool ?a ?b] =>
              let v := eval vm_compute in (Qle_bool a b) in
              change (Qle_bool a b) with v
          end).
  reflexivity.
Qed.

End RankingClaims.

(** The lower-cased form of U+0130 is two code units long: for the query
    "i" the one-unit title U+0130 scores 2, where the specification's
    expression, taken on the lengths of the strings themselves, gives 3. *)
Lemma relevance_length_counterexample :
  ~ (@ScraperManager.computeScore Fixture.runtime (js "i")
       (Fixture.listing amazon [304%N] (js "https://www.amazon.com/"))
     == @Spec.relevance Fixture.runtime (js "i") [304%N])%Q.
Proof. vm_compute. discriminate. Qed.

Lemma relevance_ranking_witness :
  (@ScraperManager.computeScore Fixture.runtime (js "red mug")
     (Fixture.listing amazon (js "Red Mug") [])
   == @Spec.relevance Fixture.runtime (js "red mug") (js "Red Mug"))%Q.
Proof.
  apply (proj1 (proj2 (@relevance_ranking Fixture.runtime)));
    [discriminate | reflexivity | reflexivity].
Defined.

(** ** The orchestrator *)

Section Orchestrator.
Context {rt : ECMAScript} {ch : Cheerio}.

(** What [runAll] stores for a platform, given what its thunk did. *)
Local Abbreviation entry query r :=
  (match r with
   | Ok products => ScraperManager.sortByRelevance query products
   | Throw _ => []
   end).

Lemma runAll_with_entries (query : jsstring)
    (scrapers : PlatformName -> Result (list PlatformProduct)) :
  exists m : PlatformMatches,
    ScraperManager.runAll_with query scrapers = Ok m
    /\ dom m = ({[amazon; aliexpress; shopify]} : gset PlatformName)
    /\ forall platform, m !! platform = Some (entry query (scrapers platform)).
Proof.
  unfold ScraperManager.runAll_with.
  cbn [fmap list_fmap Promise_all].
  destruct (scrapers amazon) eqn:Ea, (scrapers aliexpress) eqn:Eb,
    (scrapers shopify) eqn:Ec; cbn;
    (eexists; split; [reflexivity|]; split;
     [rewrite !dom_insert_L, dom_empty_L; set_solver
     |intros []; rewrite ?Ea, ?Eb, ?Ec; by simplify_map_eq]).
Qed.

(** C1.  [runAll] returns, never throws; the object it returns has exactly
    the keys amazon, aliexpress and shopify; the entry of a platform whose
    [search()] threw is the empty list, and the entry of every other
    platform is the ranked list of what its [search()] returned.  The same
    holds for any record of thunks put in place of the three scrapers. *)
Theorem runAll_isolates_failures :
  (forall query config world,
     exists m : PlatformMatches,
       ScraperManager.runAll query config world = Ok m
       /\ dom m = ({[amazon; aliexpress; shopify]} : gset PlatformName)
       /\ forall platform,
            m !! platform
            = Some (entry query
                      (ScraperManager.scrapers query config world platform)))
  /\ (forall query scrapers,
        exists m : PlatformMatches,
          ScraperManager.runAll_with query scrapers = Ok m
          /\ dom m = ({[amazon; aliexpress; shopify]} : gset PlatformName)
          /\ (forall platform e,
                scrapers platform = Throw e -> m !! platform = Some [])
          /\ (forall platform products,
                scrapers platform = Ok products ->
                m !! platform
                = Some (ScraperManager.sortByRelevance query products))).
Proof.
  split.
  - intros query config world. apply runAll_with_entries.
  - intros query scrapers.
    destruct (runAll_with_entries query scrapers) as (m & Hm & Hdom & Hget).
    exists m. repeat split; [done..| |].
    + intros platform e He. by rewrite Hget, He.
    + intros platform products Hp. by rewrite Hget, Hp.
Qed.

End Orchestrator.

(** ** [sortByRelevance] and the array it is given *)

(** C10.  With the input array at [products] in the store,
    [sortByRelevance] returns a different array, leaves the array at
    [products] and every other array as it was, and the array it returns
    is the ranking of the input, a permutation of it. *)
Theorem sortByRelevance_permutes_a_copy {rt : ECMAScript} (query : jsstring)
    (h : Store.store) (products : positive) (ps : list PlatformProduct) :
  h !! products = Some ps ->
  exists (sorted : positive) (h' : Store.store),
    Store.sortByRelevance query h products = (sorted, h')
    /\ sorted <> products
    /\ h' !! products = Some ps
    /\ (forall a, a <> sorted -> h' !! a = h !! a)
    /\ h' !! sorted = Some (ScraperManager.sortByRelevance query ps)
    /\ ScraperManager.sortByRelevance query ps ≡ₚ ps.
Proof.
  intros Hps. unfold Store.sortByRelevance, Store.spread, Store.sort.
  set (copy := fresh (dom h)).
  assert (Hfresh : copy ∉ dom h) by apply is_fresh.
  assert (Hne : copy <> products).
  { intros ->. apply Hfresh, elem_of_dom. by eexists. }
  eexists _, _. split; [reflexivity|].
  rewrite insert_insert_eq, lookup_insert_eq, Hps. cbn [default].
  split; [exact Hne|].
  split; [by rewrite lookup_insert_ne|].
  split; [intros a Ha; by rewrite lookup_insert_ne|].
  split; [by rewrite lookup_insert_eq|].
  apply Array_sort_perm.
Qed.

Lemma sortByRelevance_permutes_a_copy_witness :
  exists (sorted : positive) (h' : Store.store),
    @Store.sortByRelevance Fixture.runtime (js "red mug")
      {[ 1%positive := [Fixture.listing amazon (js "blue plate") [];
                        Fixture.listing amazon (js "red mug") []] ]}
      1%positive = (sorted, h')
    /\ sorted <> 1%positive
    /\ h' !! 1%positive
       = Some [Fixture.listing amazon (js "blue plate") [];
               Fixture.listing amazon (js "red mug") []].
Proof.
  destruct (@sortByRelevance_permutes_a_copy Fixture.runtime (js "red mug")
              {[ 1%positive := [Fixture.listing amazon (js "blue plate") [];
                                Fixture.listing amazon (js "red mug") []] ]}
              1%positive _ (lookup_singleton_eq _ _))
    as (sorted & h' & H1 & H2 & H3 & _).
  exists sorted, h'. repeat split; assumption.
Defined.

(** ** The retry loop *)

Section RetryFacts.
Context (w : Scraper.World).
Context (isBotPage : jsstring -> bool).
Context (parseProducts : jsstring -> list PlatformProduct).

Local Abbreviation attempts := (Scraper.attempts w isBotPage parseProducts).
Local Abbreviation requested t :=
  {| Scraper.calls := S (Scraper.calls t);
     Scraper.draws := Scraper.draws t;
     Scraper.delays := Scraper.delays t |}.

Lemma delay_range (r : Q) :
  (0 <= r)%Q -> (r < 1)%Q ->
  (300 <= 300 + Qfloor (r * 300) < 600)%Z.
Proof.
  intros H0 H1.
  assert (Hlo : (0 <= Qfloor (r * 300))%Z).
  { change 0%Z with (Qfloor 0). apply Qfloor_resp_le.
    apply Qmult_le_0_compat; [exact H0 | discriminate]. }
  assert (Hhi : (Qfloor (r * 300) < 300)%Z).
  { rewrite Zlt_Qlt. eapply Qle_lt_trans; [apply Qfloor_le|].
    change (inject_Z 300) with (1 * 300)%Q.
    apply Qmult_lt_compat_r; [reflexivity | exact H1]. }
  lia.
Qed.

(** A transient outcome sends the loop to its next round through
    [maybeRetry]. *)
Lemma attempts_transient url attempt todo t :
  Spec.transient (Scraper.http_get w url (S (Scraper.calls t))) = true ->
  attempts url (attempt :: todo) t
  = attempts url todo
      (Scraper.maybeRetry w attempt Scraper.maxRetries (requested t)).
Proof.
  cbn [Scraper.attempts Scraper.calls]. unfold Spec.transient.
  destruct (Scraper.http_get w url (S (Scraper.calls t))) as [r|e];
    [|reflexivity].
  destruct (Scraper.transientStatus (Scraper.status r)); [reflexivity|].
  destruct (Scraper.usableHtml (Scraper.data r)); [discriminate|reflexivity].
Qed.

(** A bot page ends the loop on the spot: no further request, no delay. *)
Lemma attempts_bot_page url attempt todo t r html :
  Scraper.http_get w url (S (Scraper.calls t)) = Scraper.Resolved r ->
  Scraper.transientStatus (Scraper.status r) = false ->
  Scraper.usableHtml (Scraper.data r) = Some html ->
  isBotPage html = true ->
  attempts url (attempt :: todo) t = ([], requested t).
Proof.
  intros Hget Hst Hhtml Hbot. cbn [Scraper.attempts Scraper.calls].
  by rewrite Hget, Hst, Hhtml, Hbot.
Qed.

(** The loop issues at most one request per round, waits at most once per
    round, and answers the empty list or a parse result. *)
Lemma attempts_bounds url todo t :
  let '(products, t') := attempts url todo t in
  (Scraper.calls t' <= Scraper.calls t + length todo
   /\ length (Scraper.delays t') <= length (Scraper.delays t) + length todo)
  /\ (products = [] \/ exists html, products = parseProducts html).
Proof.
  revert t. induction todo as [|attempt todo IH]; intros t.
  - cbn. split; [lia | by left].
  - cbn [Scraper.attempts Scraper.calls].
    set (t1 := requested t).
    assert (Hretry :
      let '(products, t') :=
        attempts url todo
          (Scraper.maybeRetry w attempt Scraper.maxRetries t1) in
      (Scraper.calls t' <= Scraper.calls t + length (attempt :: todo)
       /\ length (Scraper.delays t')
          <= length (Scraper.delays t) + length (attempt :: todo))
      /\ (products = [] \/ exists html, products = parseProducts html)).
    { specialize (IH (Scraper.maybeRetry w attempt Scraper.maxRetries t1)).
      destruct (attempts url todo _) as [products t'].
      destruct IH as [[Hc Hd] Hp]. split; [|exact Hp].
      unfold Scraper.maybeRetry in Hc, Hd.
      destruct (Scraper.maxRetries <=? attempt);
        cbn in Hc, Hd; rewrite ?length_app in Hd; cbn in Hd |- *; lia. }
    destruct (Scraper.http_get w url (S (Scraper.calls t))) as [r|e];
      [|exact Hretry].
    destruct (Scraper.transientStatus (Scraper.status r)); [exact Hretry|].
    destruct (Scraper.usableHtml (Scraper.data r)) as [html|];
      [|exact Hretry].
    destruct (isBotPage html); cbn; (split; [lia|]); [by left | right; eauto].
Qed.

(** Three transient outcomes in a row: three requests, the empty list, and
    the two delays drawn after the first and the second. *)
Lemma attempts_exhausted url :
  (forall n, 1 <= n <= 3 ->
     Spec.transient (Scraper.http_get w url n) = true) ->
  attempts url (seq 1 Scraper.maxRetries) Scraper.start
  = ([], {| Scraper.calls := 3;
            Scraper.draws := 2;
            Scraper.delays :=
              [(300 + Qfloor (Scraper.Math_random w 1 * 300))%Z;
               (300 + Qfloor (Scraper.Math_random w 2 * 300))%Z] |}).
Proof.
  intros Ht. cbn [seq Scraper.maxRetries].
  rewrite attempts_transient by (apply Ht; cbn; lia).
  cbn [Scraper.maybeRetry Scraper.start Scraper.calls Scraper.draws
       Scraper.delays Nat.leb app].
  rewrite attempts_transient by (apply Ht; cbn; lia).
  cbn [Scraper.maybeRetry Scraper.start Scraper.calls Scraper.draws
       Scraper.delays Nat.leb app].
  rewrite attempts_transient by (apply Ht; cbn; lia).
  reflexivity.
Qed.

End RetryFacts.

Section SearchFacts.
Context (w : Scraper.World).
Context (isBotPage : jsstring -> bool).
Context (parseProducts : jsstring -> list PlatformProduct).

Local Abbreviation search_with := (Scraper.search_with w isBotPage parseProducts).

Lemma search_with_exhausted url :
  truthy url = true ->
  (forall n, (0 <= Scraper.Math_random w n)%Q /\ (Scraper.Math_random w n < 1)%Q) ->
  (forall n, 1 <= n <= 3 -> Spec.transient (Scraper.http_get w url n) = true) ->
  exists t d1 d2,
    search_with (Ok url) = (Ok [], t)
    /\ Scraper.calls t = 3
    /\ Scraper.delays t = [d1; d2]
    /\ (300 <= d1 < 600)%Z /\ (300 <= d2 < 600)%Z.
Proof.
  intros Hurl Hrand Ht. unfold Scraper.search_with. rewrite Hurl. cbn [negb].
  rewrite attempts_exhausted by exact Ht.
  eexists _, _, _. split; [reflexivity|]. split; [reflexivity|].
  split; [reflexivity|].
  split; apply delay_range; apply Hrand.
Qed.

Lemma search_with_bot_page url k r html :
  truthy url = true ->
  1 <= k <= 3 ->
  (forall n, 1 <= n < k -> Spec.transient (Scraper.http_get w url n) = true) ->
  Scraper.http_get w url k = Scraper.Resolved r ->
  Scraper.transientStatus (Scraper.status r) = false ->
  Scraper.usableHtml (Scraper.data r) = Some html ->
  isBotPage html = true ->
  exists t,
    search_with (Ok url) = (Ok [], t)
    /\ Scraper.calls t = k
    /\ length (Scraper.delays t) = k - 1.
Proof.
  intros Hurl Hk Ht Hget Hst Hhtml Hbot.
  unfold Scraper.search_with. rewrite Hurl. cbn [negb seq Scraper.maxRetries].
  assert (Hcases : k = 1 \/ k = 2 \/ k = 3) by lia.
  destruct Hcases as [->|[->| ->]].
  - erewrite attempts_bot_page by eassumption.
    eexists. repeat split.
  - rewrite attempts_transient by (apply Ht; cbn; lia).
    erewrite attempts_bot_page by eassumption.
    eexists. repeat split.
  - rewrite attempts_transient by (apply Ht; cbn; lia).
    rewrite attempts_transient by (apply Ht; cbn; lia).
    erewrite attempts_bot_page by eassumption.
    eexists. repeat split.
Qed.

Lemma search_with_bounds (getSearchUrl : Result jsstring) :
  Scraper.calls (search_with getSearchUrl).2 <= 3
  /\ length (Scraper.delays (search_with getSearchUrl).2) <= 3.
Proof.
  unfold Scraper.search_with. destruct getSearchUrl as [url|e]; [|cbn; lia].
  destruct (negb (truthy url)); [cbn; lia|].
  pose proof (attempts_bounds w isBotPage parseProducts url
                (seq 1 Scraper.maxRetries) Scraper.start) as Hb.
  destruct (Scraper.attempts _ _ _ _ _ _) as [products t].
  cbn in Hb |- *. lia.
Qed.

End SearchFacts.

Section Urls.
Context {rt : ECMAScript}.

Lemma amazon_searchUrl_truthy query url :
  AmazonScraper.getSearchUrl query = Ok url -> truthy url = true.
Proof.
  unfold AmazonScraper.getSearchUrl.
  destruct (encodeURIComponent (trim query)); [|discriminate].
  cbn. by intros [= <-].
Qed.

Lemma aliexpress_searchUrl_truthy query url :
  AliExpressScraper.getSearchUrl query = Ok url -> truthy url = true.
Proof.
  unfold AliExpressScraper.getSearchUrl.
  destruct (encodeURIComponent (trim query)); [|discriminate].
  cbn. by intros [= <-].
Qed.

Lemma shopify_searchUrl_truthy query url :
  ShopifyScraper.getSearchUrl query = Ok url -> truthy url = true.
Proof. unfold ShopifyScraper.getSearchUrl. cbn. by intros [= <-]. Qed.

End Urls.

Section RetryClaims.
Context {rt : ECMAScript} {ch : Cheerio}.
Context (query : jsstring) (maxResults : Z) (w : Scraper.World).

(** C4.  For each of the three scrapers: when the first three requests all
    fail transiently (status 429 or 503, a blank body, or a failed
    request), [search()] issues exactly three requests, returns the empty
    list and waits exactly twice, each time for 300 to 599 ms; and in no
    world does it issue more than three requests.  [url] is the search URL
    the scraper built. *)
Theorem exhausted_retries_two_delays (url : jsstring) :
  (forall n, (0 <= Scraper.Math_random w n)%Q
             /\ (Scraper.Math_random w n < 1)%Q) ->
  (forall n, 1 <= n <= 3 ->
     Spec.transient (Scraper.http_get w url n) = true) ->
  let exhausted (run : Result (list PlatformProduct) * Scraper.Trace) :=
    exists t d1 d2,
      run = (Ok [], t)
      /\ Scraper.calls t = 3
      /\ Scraper.delays t = [d1; d2]
      /\ (300 <= d1 < 600)%Z /\ (300 <= d2 < 600)%Z in
  (AmazonScraper.getSearchUrl query = Ok url ->
   exhausted (AmazonScraper.search query maxResults w))
  /\ (AliExpressScraper.getSearchUrl query = Ok url ->
      exhausted (AliExpressScraper.search query maxResults w))
  /\ (ShopifyScraper.getSearchUrl query = Ok url ->
      exhausted (ShopifyScraper.search query maxResults w))
  /\ Scraper.calls (AmazonScraper.search query maxResults w).2 <= 3
  /\ Scraper.calls (AliExpressScraper.search query maxResults w).2 <= 3
  /\ Scraper.calls (ShopifyScraper.search query maxResults w).2 <= 3.
Proof.
  intros Hrand Ht exhausted. subst exhausted. cbv beta.
  unfold AmazonScraper.search, AliExpressScraper.search, ShopifyScraper.search.
  repeat split; try apply search_with_bounds.
  - intros Hurl. rewrite Hurl.
    apply search_with_exhausted; eauto using amazon_searchUrl_truthy.
  - intros Hurl. rewrite Hurl.
    apply search_with_exhausted; eauto using aliexpress_searchUrl_truthy.
  - intros Hurl. rewrite Hurl.
    apply search_with_exhausted; eauto using shopify_searchUrl_truthy.
Qed.

(** C5.  For each of the three scrapers: when the [k]-th request (after
    [k - 1] transient failures) is answered with a usable body that
    matches one of the scraper's bot markers, [search()] returns the empty
    list at once: [k] requests in all and only the [k - 1] delays that
    came before.  A challenge page in answer to the first request thus
    costs one request and no delay.  The markers are matched without
    regard to case: "Robot Check" and "captcha" for amazon; "captcha",
    "robot" and "verification" for aliexpress; "captcha", "verification"
    and "enable javascript" for shopify. *)
Theorem bot_page_ends_search (url : jsstring) (k : nat)
    (r : Scraper.Response) (html : jsstring) :
  1 <= k <= 3 ->
  (forall n, 1 <= n < k -> Spec.transient (Scraper.http_get w url n) = true) ->
  Scraper.http_get w url k = Scraper.Resolved r ->
  Scraper.transientStatus (Scraper.status r) = false ->
  Scraper.usableHtml (Scraper.data r) = Some html ->
  let stopped (run : Result (list PlatformProduct) * Scraper.Trace) :=
    exists t,
      run = (Ok [], t)
      /\ Scraper.calls t = k
      /\ length (Scraper.delays t) = k - 1 in
  (AmazonScraper.getSearchUrl query = Ok url ->
   Exists (fun marker => test_i marker html = true)
     [js "Robot Check"; js "captcha"] ->
   stopped (AmazonScraper.search query maxResults w))
  /\ (AliExpressScraper.getSearchUrl query = Ok url ->
      Exists (fun marker => test_i marker html = true)
        [js "captcha"; js "robot"; js "verification"] ->
      stopped (AliExpressScraper.search query maxResults w))
  /\ (ShopifyScraper.getSearchUrl query = Ok url ->
      Exists (fun marker => test_i marker html = true)
        [js "captcha"; js "verification"; js "enable javascript"] ->
      stopped (ShopifyScraper.search query maxResults w)).
Proof.
  intros Hk Ht Hget Hst Hhtml stopped. subst stopped. cbv beta.
  unfold AmazonScraper.search, AliExpressScraper.search, ShopifyScraper.search.
  repeat split; intros Hurl Hmark; rewrite Hurl.
  - eapply search_with_bot_page; eauto using amazon_searchUrl_truthy.
    unfold AmazonScraper.isBotPage.
    rewrite !Exists_cons, Exists_nil in Hmark.
    destruct Hmark as [-> | [-> | []]]; [reflexivity | apply orb_true_r].
  - eapply search_with_bot_page; eauto using aliexpress_searchUrl_truthy.
    unfold AliExpressScraper.isBotPage, AliExpressScraper.BOT_PATTERNS.
    apply existsb_exists. apply Exists_exists in Hmark.
    destruct Hmark as (m & Hin & Hm). exists m.
    split; [by apply list_elem_of_In | exact Hm].
  - eapply search_with_bot_page; eauto using shopify_searchUrl_truthy.
    unfold ShopifyScraper.isBotPage, ShopifyScraper.BOT_PATTERNS.
    apply existsb_exists. apply Exists_exists in Hmark.
    destruct Hmark as (m & Hin & Hm). exists m.
    split; [by apply list_elem_of_In | exact Hm].
Qed.

End RetryClaims.

Lemma exhausted_retries_two_delays_witness :
  exists t d1 d2,
    @AmazonScraper.search Fixture.runtime (Fixture.cheerio []) (js "red mug") 10
      (Fixture.world
         [Scraper.Resolved {| Scraper.status := 503;
                              Scraper.data := Scraper.DataNullish |};
          Scraper.Resolved {| Scraper.status := 200;
                              Scraper.data := Scraper.DataString (js "  ") |};
          Scraper.Rejected (AxiosError (Some 503%Z))] (1 # 2))
    = (Ok [], t)
    /\ Scraper.calls t = 3
    /\ Scraper.delays t = [d1; d2]
    /\ (300 <= d1 < 600)%Z /\ (300 <= d2 < 600)%Z.
Proof.
  apply (@exhausted_retries_two_delays Fixture.runtime (Fixture.cheerio [])
           (js "red mug") 10 _ (js "https://www.amazon.com/s?k=red%20mug")).
  - intros n. split; [vm_compute; discriminate | reflexivity].
  - intros [|[|[|[|n]]]] Hn; try reflexivity; lia.
  - reflexivity.
Defined.

Lemma bot_page_ends_search_witness :
  exists t,
    @ShopifyScraper.search Fixture.runtime (Fixture.cheerio []) (js "red mug") 10
      (Fixture.world
         [Fixture.page200 (js "<html>Please Enable JavaScript to continue</html>")]
         (1 # 2))
    = (Ok [], t)
    /\ Scraper.calls t = 1
    /\ length (Scraper.delays t) = 0.
Proof.
  pose proof (@bot_page_ends_search Fixture.runtime (Fixture.cheerio [])
    (js "red mug") 10
    (Fixture.world
       [Fixture.page200 (js "<html>Please Enable JavaScript to continue</html>")]
       (1 # 2))
    (js "https://duckduckgo.com/html/?q=red+mug+site:myshopify.com+product&ia=web")
    1 _ _ ltac:(lia) ltac:(intros; lia) eq_refl eq_refl eq_refl) as H.
  apply H.
  - reflexivity.
  - right. right. left. reflexivity.
Defined.

(** ** Parsing *)

(** The three callbacks have one shape: at the cap they stop the
    iteration; below it they either leave the products alone or push one
    listing built from the container at hand. *)
Section EachFacts.
Context {ch : Cheerio}.
Context (maxResults : Z).
Context (step : list PlatformProduct -> Selection -> list PlatformProduct * bool).
Context (built : Selection -> PlatformProduct -> Prop).

Hypothesis step_stops : forall products container,
  (maxResults <= Z.of_nat (length products))%Z ->
  step products container = (products, false).

Hypothesis step_pushes : forall products container,
  (step products container).1 = products
  \/ exists p,
       step products container = (products ++ [p], true)
       /\ (Z.of_nat (length products) < maxResults)%Z
       /\ built container p.

Lemma each_at_cap els products :
  (maxResults <= Z.of_nat (length products))%Z ->
  each step els products = products.
Proof.
  intros Hcap. destruct els as [|el els]; [reflexivity|].
  cbn [each]. by rewrite step_stops.
Qed.

Lemma each_capped els products :
  (Z.of_nat (length products) <= maxResults)%Z ->
  (Z.of_nat (length (each step els products)) <= maxResults)%Z.
Proof.
  revert products. induction els as [|el els IH]; intros products Hlen.
  - exact Hlen.
  - cbn [each].
    destruct (step_pushes products el) as [Hsame | (p & Hstep & Hlt & _)].
    + destruct (step products el) as [products' go_on]. cbn in Hsame. subst.
      destruct go_on; [by apply IH | exact Hlen].
    + rewrite Hstep. apply IH. rewrite length_app. cbn. lia.
Qed.

Lemma each_built els products p :
  p ∈ each step els products ->
  p ∈ products \/ exists container, container ∈ els /\ built container p.
Proof.
  revert products. induction els as [|el els IH]; intros products Hp.
  - by left.
  - cbn [each] in Hp.
    destruct (step_pushes products el) as [Hsame | (p' & Hstep & _ & Hb)].
    + destruct (step products el) as [products' go_on]. cbn in Hsame. subst.
      destruct go_on; [|by left].
      destruct (IH _ Hp) as [Hin | (c & Hc & Hbc)]; [by left|].
      right. exists c. split; [by right | exact Hbc].
    + rewrite Hstep in Hp.
      destruct (IH _ Hp) as [Hin | (c & Hc & Hbc)].
      * apply elem_of_app in Hin as [Hin | Hin]; [by left|].
        apply list_elem_of_singleton in Hin as ->.
        right. exists el. split; [by left | exact Hb].
      * right. exists c. split; [by right | exact Hbc].
Qed.

End EachFacts.

Section StepFacts.
Context {rt : ECMAScript} {ch : Cheerio}.
Context (maxResults : Z).

Lemma amazon_step_stops products container :
  (maxResults <= Z.of_nat (length products))%Z ->
  AmazonScraper.parseProducts_step maxResults products container
  = (products, false).
Proof.
  intros Hcap. unfold AmazonScraper.parseProducts_step.
  by rewrite (proj2 (Z.leb_le _ _) Hcap).
Qed.

Lemma amazon_step_pushes products container :
  (AmazonScraper.parseProducts_step maxResults products container).1 = products
  \/ exists p,
       AmazonScraper.parseProducts_step maxResults products container
       = (products ++ [p], true)
       /\ (Z.of_nat (length products) < maxResults)%Z
       /\ (AmazonScraper.sponsored container = false
           /\ AmazonScraper.builtFrom container p).
Proof.
  unfold AmazonScraper.parseProducts_step.
  destruct (Z.leb_spec maxResults (Z.of_nat (length products))); [by left|].
  destruct (AmazonScraper.sponsored container) eqn:Es; [by left|].
  destruct (attr (find container "h2 a") "href") as [rawLink|] eqn:Ehref;
    [|by left].
  destruct (truthy (trim (text (find container "h2 a span")))) eqn:Et;
    [|by left].
  destruct (truthy rawLink); [|by left]. cbn [negb orb].
  destruct (AmazonScraper.normalizeProductLink rawLink) as [link|] eqn:El;
    [|by left].
  destruct (truthy link); [|by left]. cbn [negb].
  right. eexists. split; [reflexivity|]. split; [done|]. split; [done|].
  exists rawLink, link. by rewrite Et.
Qed.

Lemma aliexpress_step_stops products container :
  (maxResults <= Z.of_nat (length products))%Z ->
  AliExpressScraper.parseProducts_step maxResults products container
  = (products, false).
Proof.
  intros Hcap. unfold AliExpressScraper.parseProducts_step.
  by rewrite (proj2 (Z.leb_le _ _) Hcap).
Qed.

Lemma aliexpress_step_pushes products container :
  (AliExpressScraper.parseProducts_step maxResults products container).1
  = products
  \/ exists p,
       AliExpressScraper.parseProducts_step maxResults products container
       = (products ++ [p], true)
       /\ (Z.of_nat (length products) < maxResults)%Z
       /\ AliExpressScraper.builtFrom container p.
Proof.
  unfold AliExpressScraper.parseProducts_step.
  destruct (Z.leb_spec maxResults (Z.of_nat (length products))); [by left|].
  destruct (nullish (attr (AliExpressScraper.anchorOf container) "href")
              (attr container "href")) as [href|] eqn:Ehref; [|by left].
  destruct (AliExpressScraper.titleOf container
              (AliExpressScraper.anchorOf container)) as [rawTitle|] eqn:Et;
    [|by left].
  destruct (truthy href); [|by left]. cbn [negb orb].
  unfold AliExpressScraper.blankTitle.
  destruct (truthy (trim rawTitle)) eqn:Etr; [|by left]. cbn [negb].
  destruct (AliExpressScraper.ensureAbsoluteUrl href) as [link|] eqn:El;
    [|by left].
  destruct (truthy link); [|by left]. cbn [negb].
  destruct (AliExpressScraper.parsePrice
              (AliExpressScraper.extractPriceText container))
    as [price currency] eqn:Ep.
  right. eexists. split; [reflexivity|]. split; [done|].
  exists href, rawTitle, link. by rewrite Ep.
Qed.

Lemma shopify_step_stops products container :
  (maxResults <= Z.of_nat (length products))%Z ->
  ShopifyScraper.parseProducts_step maxResults products container
  = (products, false).
Proof.
  intros Hcap. unfold ShopifyScraper.parseProducts_step.
  by rewrite (proj2 (Z.leb_le _ _) Hcap).
Qed.

Lemma shopify_step_pushes products container :
  (ShopifyScraper.parseProducts_step maxResults products container).1
  = products
  \/ exists p,
       ShopifyScraper.parseProducts_step maxResults products container
       = (products ++ [p], true)
       /\ (Z.of_nat (length products) < maxResults)%Z
       /\ ShopifyScraper.builtFrom container p.
Proof.
  unfold ShopifyScraper.parseProducts_step.
  destruct (Z.leb_spec maxResults (Z.of_nat (length products))); [by left|].
  destruct (ShopifyScraper.normalizeResultLink
              (attr (first (find container "a.result__a")) "href"))
    as [link|] eqn:El; [|by left].
  destruct (truthy link); [|by left]. cbn [negb orb].
  destruct (ShopifyScraper.SHOPIFY_DOMAIN_REGEX_test link) eqn:Ed; [|by left].
  cbn [negb].
  destruct (truthy (trim (text (first (find container "a.result__a")))))
    eqn:Et; [|by left].
  right. eexists. split; [reflexivity|]. split; [done|].
  exists link. by rewrite Et.
Qed.

End StepFacts.

Section ParseClaims.
Context {rt : ECMAScript} {ch : Cheerio}.

Lemma search_with_capped (maxResults : Z) (w : Scraper.World)
    (isBotPage : jsstring -> bool)
    (parseProducts : jsstring -> list PlatformProduct)
    (getSearchUrl : Result jsstring) products t :
  (0 <= maxResults)%Z ->
  (forall html, (Z.of_nat (length (parseProducts html)) <= maxResults)%Z) ->
  Scraper.search_with w isBotPage parseProducts getSearchUrl = (Ok products, t) ->
  (Z.of_nat (length products) <= maxResults)%Z.
Proof.
  intros Hmax Hparse. unfold Scraper.search_with.
  destruct getSearchUrl as [url|e]; [|discriminate].
  destruct (negb (truthy url)); [by intros [= <- _]|].
  pose proof (attempts_bounds w isBotPage parseProducts url
                (seq 1 Scraper.maxRetries) Scraper.start) as Hb.
  destruct (Scraper.attempts _ _ _ _ _ _) as [products' t'].
  destruct Hb as [_ [-> | [html ->]]]; intros [= <- _]; [done | apply Hparse].
Qed.

(** C2.  With a positive [maxResults], each scraper's [parseProducts]
    returns at most [maxResults] listings whatever the page holds, and so
    does each [search()] that returns; once the products have reached the
    cap the callback adds nothing and stops the iteration. *)
Theorem results_capped (query : jsstring) (maxResults : Z) :
  (0 < maxResults)%Z ->
  (forall html,
     (Z.of_nat (length (AmazonScraper.parseProducts maxResults html))
      <= maxResults)%Z
     /\ (Z.of_nat (length (AliExpressScraper.parseProducts maxResults html))
         <= maxResults)%Z
     /\ (Z.of_nat (length (ShopifyScraper.parseProducts maxResults html))
         <= maxResults)%Z)
  /\ (forall w products t,
        (AmazonScraper.search query maxResults w = (Ok products, t)
         \/ AliExpressScraper.search query maxResults w = (Ok products, t)
         \/ ShopifyScraper.search query maxResults w = (Ok products, t)) ->
        (Z.of_nat (length products) <= maxResults)%Z)
  /\ (forall products container,
        (maxResults <= Z.of_nat (length products))%Z ->
        AmazonScraper.parseProducts_step maxResults products container
        = (products, false)
        /\ AliExpressScraper.parseProducts_step maxResults products container
           = (products, false)
        /\ ShopifyScraper.parseProducts_step maxResults products container
           = (products, false)).
Proof.
  intros Hmax.
  assert (Hparse : forall html,
     (Z.of_nat (length (AmazonScraper.parseProducts maxResults html))
      <= maxResults)%Z
     /\ (Z.of_nat (length (AliExpressScraper.parseProducts maxResults html))
         <= maxResults)%Z
     /\ (Z.of_nat (length (ShopifyScraper.parseProducts maxResults html))
         <= maxResults)%Z).
  { intros html. repeat split.
    - eapply each_capped; [apply amazon_step_pushes | cbn; lia].
    - eapply each_capped; [apply aliexpress_step_pushes | cbn; lia].
    - eapply each_capped; [apply shopify_step_pushes | cbn; lia]. }
  split; [exact Hparse|]. split.
  - intros w products t [H | [H | H]];
      (eapply search_with_capped; [| |exact H]; [lia|]);
      intros html; apply Hparse.
  - intros products container Hcap.
    auto using amazon_step_stops, aliexpress_step_stops, shopify_step_stops.
Qed.

Lemma amazon_sponsored_skipped (maxResults : Z) els products :
  each (AmazonScraper.parseProducts_step maxResults) els products
  = each (AmazonScraper.parseProducts_step maxResults)
      (List.filter (fun c => negb (AmazonScraper.sponsored c)) els) products.
Proof.
  revert products. induction els as [|el els IH]; intros products;
    [reflexivity|].
  cbn [List.filter]. destruct (AmazonScraper.sponsored el) eqn:Es; cbn [negb].
  - cbn [each]. unfold AmazonScraper.parseProducts_step at 1. rewrite Es.
    destruct (Z.leb_spec maxResults (Z.of_nat (length products))).
    + symmetry. eapply each_at_cap; [apply amazon_step_stops | done].
    + apply IH.
  - cbn [each].
    destruct (AmazonScraper.parseProducts_step maxResults products el)
      as [products' go_on].
    destruct go_on; [apply IH | reflexivity].
Qed.

(** C6.  Every listing [parseProducts] returns for the marketplace is
    built from a result container that carries neither the sponsored
    attribute value nor a sponsored-label element; and the output is what
    it would be with the sponsored containers taken out of the page. *)
Theorem sponsored_never_emitted (maxResults : Z) (html : jsstring) :
  (forall p,
     p ∈ AmazonScraper.parseProducts maxResults html ->
     exists container,
       container ∈ elements (select (load html) AmazonScraper.RESULT_ITEMS)
       /\ attr container "data-component-type"
          <> Some (js "sp-sponsored-result")
       /\ size (find container AmazonScraper.SPONSORED_MARKS) = 0
       /\ AmazonScraper.builtFrom container p)
  /\ AmazonScraper.parseProducts maxResults html
     = each (AmazonScraper.parseProducts_step maxResults)
         (List.filter (fun c => negb (AmazonScraper.sponsored c))
            (elements (select (load html) AmazonScraper.RESULT_ITEMS))) [].
Proof.
  split; [|apply amazon_sponsored_skipped].
  intros p Hp. unfold AmazonScraper.parseProducts in Hp.
  eapply each_built in Hp; [|apply amazon_step_pushes].
  destruct Hp as [Hp | (c & Hc & Hs & Hb)]; [by apply elem_of_nil in Hp|].
  exists c. split; [exact Hc|].
  unfold AmazonScraper.sponsored in Hs.
  apply orb_false_iff in Hs as [Hattr Hsize].
  apply bool_decide_eq_false in Hattr. apply Nat.ltb_ge in Hsize.
  repeat split; [exact Hattr | lia | exact Hb].
Qed.

End ParseClaims.

Lemma results_capped_witness :
  (Z.of_nat (length (@AmazonScraper.parseProducts Fixture.runtime Pages.all 1
                       Pages.amazonHtml)) <= 1)%Z.
Proof.
  apply (proj1 (@results_capped Fixture.runtime Pages.all (js "wireless mouse")
                  1 ltac:(lia))).
Defined.

Lemma sponsored_never_emitted_witness :
  exists container,
    container ∈ [[Pages.advert]; [Pages.organic]]
    /\ @AmazonScraper.builtFrom Fixture.runtime Pages.all container
         {| platform := amazon;
            title := js "Wireless Mouse 2.4G";
            url := js "https://www.amazon.com/dp/B08N5WRWNW";
            price := Some (Finite (1299 # 100));
            currency := Some (js "USD");
            image := Some (js "https://m.media-amazon.com/images/I/1.jpg");
            imageUrl := Some (js "https://m.media-amazon.com/images/I/1.jpg");
            sourcePlatform := amazon |}.
Proof.
  destruct (proj1 (@sponsored_never_emitted Fixture.runtime Pages.all 10
                     Pages.amazonHtml)
              {| platform := amazon;
                 title := js "Wireless Mouse 2.4G";
                 url := js "https://www.amazon.com/dp/B08N5WRWNW";
                 price := Some (Finite (1299 # 100));
                 currency := Some (js "USD");
                 image := Some (js "https://m.media-amazon.com/images/I/1.jpg");
                 imageUrl := Some (js "https://m.media-amazon.com/images/I/1.jpg");
                 sourcePlatform := amazon |})
    as (container & Hin & _ & _ & Hb).
  - apply list_elem_of_In. vm_compute. left. reflexivity.
  - exists container. split; [exact Hin | exact Hb].
Defined.

(** ** The wholesale title chain *)

(** C8.  What the code does where the claim fails.  The title is the
    anchor's [title] attribute when there is one, and otherwise the text
    of the first title class, empty or not: [text()] is never [undefined],
    so the [??] chain never reaches the second title class nor the
    anchor's text.  On the recorded card whose title sits in the second
    class (and in the anchor text) the parser returns nothing; with the
    title in the attribute it returns the listing. *)
Theorem aliexpress_title_chain_stops_early :
  (forall (rt : ECMAScript) (ch : Cheerio) container anchor,
     AliExpressScraper.titleOf container anchor
     = Some (default (text (find container ".multi--titleText--nXeOvyr"))
               (attr anchor "title")))
  /\ @AliExpressScraper.titleOf Pages.all [Pages.card]
       (@AliExpressScraper.anchorOf Pages.all [Pages.card])
     = Some []
  /\ @text Pages.all (@find Pages.all [Pages.card] ".manhattan--titleText--WccSjUS")
     = js "Blue Widget"
  /\ @AliExpressScraper.parseProducts Fixture.runtime Pages.all 10
       Pages.aliexpressHtml = []
  /\ title <$> @AliExpressScraper.parseProducts Fixture.runtime Pages.all 10
                 Pages.aliexpressTitledHtml
     = [js "Blue Widget"].
Proof.
  split.
  - intros rt ch container anchor. unfold AliExpressScraper.titleOf.
    by destruct (attr anchor "title").
  - repeat split; vm_compute; reflexivity.
Qed.

(** ** The wholesale price *)

Section PriceFacts.

Lemma upper_not_space (c : N) : isUpperAZ c = true -> isWhiteSpace c = false.
Proof.
  unfold isUpperAZ, isWhiteSpace. intros H.
  apply andb_true_iff in H as [H1 H2].
  apply N.leb_le in H1, H2. cbn [existsb].
  repeat match goal with
         | |- context [N.eqb c ?k] => destruct (N.eqb_spec c k); [lia|]
         end.
  cbn. destruct (N.leb_spec 8192 c); [lia | reflexivity].
Qed.

Lemma match_currency_trim (s code : jsstring) :
  AliExpressScraper.match_currency s = Some code -> trim code = code.
Proof.
  unfold AliExpressScraper.match_currency. destruct s as [|c s]; [done|].
  destruct (AliExpressScraper.isCurrencySign c) eqn:Ec.
  - intros [= <-]. unfold AliExpressScraper.isCurrencySign in Ec.
    destruct (N.eqb_spec c 36) as [->|]; [reflexivity|].
    destruct (N.eqb_spec c 8364) as [->|]; [reflexivity|].
    destruct (N.eqb_spec c 163) as [->|]; [reflexivity | discriminate].
  - destruct (_ && _) eqn:E; [|discriminate]. intros [= <-].
    apply andb_true_iff in E as [Hlen Hup]. apply Nat.eqb_eq in Hlen.
    destruct s as [|b [|d s]]; cbn in Hlen; try lia.
    cbn [take firstn forallb] in Hup |- *.
    apply andb_true_iff in Hup as [Hc Hup].
    apply andb_true_iff in Hup as [Hb Hup].
    apply andb_true_iff in Hup as [Hd _].
    apply upper_not_space in Hc, Hd.
    change (take 0 s) with (@nil N).
    unfold trim, trimStart, trimEnd. cbn [dropWhile]. rewrite Hc.
    cbn [rev app dropWhile]. by rewrite Hd.
Qed.

Lemma match_price_here_currency s g1 g2 code :
  AliExpressScraper.match_price_here s = Some (g1, g2) ->
  g1 = Some code -> trim code = code.
Proof.
  unfold AliExpressScraper.match_price_here.
  destruct (AliExpressScraper.match_currency s) as [sign|] eqn:Es.
  - destruct (AliExpressScraper.match_amount (drop (length sign) s)).
    + intros [= <- _] [= <-]. by eapply match_currency_trim.
    + destruct (AliExpressScraper.match_amount s); cbn; [|discriminate].
      by intros [= <- _].
  - destruct (AliExpressScraper.match_amount s); cbn; [|discriminate].
    by intros [= <- _].
Qed.

Lemma match_price_currency raw g1 g2 code :
  AliExpressScraper.match_price raw = Some (g1, g2) ->
  g1 = Some code -> trim code = code.
Proof.
  induction raw as [|c raw IH]; cbn [AliExpressScraper.match_price].
  - destruct (AliExpressScraper.match_price_here []) as [[h1 h2]|] eqn:E;
      [|discriminate].
    intros [= <- <-]. by eapply match_price_here_currency.
  - destruct (AliExpressScraper.match_price_here (c :: raw)) as [[h1 h2]|] eqn:E;
      [|exact IH].
    intros [= <- <-]. by eapply match_price_here_currency.
Qed.

Lemma numericPartOf_chars (amount : jsstring) :
  Forall (fun c => isDigit c = true \/ c = 46%N)
    (AliExpressScraper.numericPartOf amount)
  /\ 44%N ∉ AliExpressScraper.numericPartOf amount.
Proof.
  unfold AliExpressScraper.numericPartOf. split.
  - apply Forall_forall. intros c Hc.
    apply list_elem_of_filter in Hc as [Hc _].
    apply orb_true_iff in Hc as [Hd | Hdot]; [by left|].
    right. by apply N.eqb_eq.
  - intros Hc. apply list_elem_of_filter in Hc as [_ Hc].
    apply list_elem_of_filter in Hc as [Hc _]. discriminate.
Qed.

End PriceFacts.

(** C9, as amended.  When the price pattern matches [raw] with groups
    [g1] (currency) and [g2] (amount): the currency reported is [g1], the
    captured sign or three-letter code, whatever becomes of the amount;
    the numeric part is [g2] without its commas, made of digits and dots
    only; when it is empty or parses to NaN the price is null, and
    otherwise the price is what [parseFloat] makes of it. *)
Theorem parsePrice_nan_is_null (raw : jsstring) (g1 : option jsstring)
    (g2 : jsstring) :
  raw <> [] ->
  AliExpressScraper.match_price raw = Some (g1, g2) ->
  let numericPart := AliExpressScraper.numericPartOf g2 in
  (AliExpressScraper.parsePrice raw).2 = g1
  /\ ((numericPart = [] \/ parseFloat numericPart = NaN) ->
      (AliExpressScraper.parsePrice raw).1 = None)
  /\ (numericPart <> [] -> parseFloat numericPart <> NaN ->
      (AliExpressScraper.parsePrice raw).1 = Some (parseFloat numericPart))
  /\ (44%N ∉ numericPart)
  /\ Forall (fun c => isDigit c = true \/ c = 46%N) numericPart
  /\ AliExpressScraper.parsePrice (js "US $1,234.50")
     = (Some (Finite (123450 # 100)), Some (js "$")).
Proof.
  intros Hraw Hm numericPart. unfold AliExpressScraper.parsePrice.
  destruct raw as [|c raw]; [done|]. cbn [truthy negb]. rewrite Hm.
  fold numericPart. cbn [fst snd].
  split.
  { destruct g1 as [code|]; [|reflexivity]. cbn.
    f_equal. by eapply match_price_currency. }
  split.
  { intros [Hn | Hn].
    - by rewrite Hn.
    - destruct (truthy numericPart); [|reflexivity]. by rewrite Hn. }
  split.
  { intros Hne Hnan. destruct numericPart as [|d n]; [done|]. cbn [truthy].
    destruct (parseFloat (d :: n)); [done|reflexivity..]. }
  split; [apply numericPartOf_chars|].
  split; [apply numericPartOf_chars|].
  vm_compute. reflexivity.
Qed.

Lemma parsePrice_nan_is_null_witness :
  (AliExpressScraper.parsePrice (js "EUR .")).2 = Some (js "EUR")
  /\ (AliExpressScraper.parsePrice (js "EUR .")).1 = None.
Proof.
  destruct (parsePrice_nan_is_null (js "EUR .") (Some (js "EUR")) (js ".")
              ltac:(discriminate) eq_refl) as (Hc & Hp & _).
  split; [exact Hc | apply Hp; right; reflexivity].
Defined.

(** A numeric part too long for a double does not parse as a finite number
    and yet the price is not null: "$1" followed by 309 zeros gives
    [Infinity], which [Number.isNaN] lets through. *)
Lemma parsePrice_infinity_counterexample :
  let raw := js "$1" ++ replicate 309 48%N in
  exists g1 g2,
    AliExpressScraper.match_price raw = Some (g1, g2)
    /\ (forall q, parseFloat (AliExpressScraper.numericPartOf g2) <> Finite q)
    /\ (AliExpressScraper.parsePrice raw).1 <> None
    /\ (AliExpressScraper.parsePrice raw).2 = Some (js "$").
Proof.
  exists (Some (js "$")), (js "1" ++ replicate 309 48%N).
  split; [vm_compute; reflexivity|].
  assert (Hinf : parseFloat (AliExpressScraper.numericPartOf
                               (js "1" ++ replicate 309 48%N)) = Infinity)
    by (vm_compute; reflexivity).
  split; [intros q; rewrite Hinf; discriminate|].
  split; [|vm_compute; reflexivity].
  assert (Hp : (AliExpressScraper.parsePrice (js "$1" ++ replicate 309 48%N)).1
               = Some Infinity) by (vm_compute; reflexivity).
  cbv zeta. rewrite Hp. discriminate.
Qed.

(** ** Links *)

Section CodeFacts.

Lemma startsWith_i_refl (lit rest : jsstring) :
  startsWith_i (lit ++ rest) lit = true.
Proof.
  induction lit as [|c lit IH]; [by destruct rest|].
  cbn. by rewrite N.eqb_refl, IH.
Qed.

(** A match of [/lit([A-Z0-9]{10})/i] captures ten alphanumeric code units
    that follow an occurrence of [lit] in the path. *)
Lemma match_code_sound (lit path code : jsstring) :
  AmazonScraper.match_code lit path = Some code ->
  length code = 10
  /\ forallb isAlnum code = true
  /\ exists before after,
       path = before ++ after
       /\ startsWith_i after lit = true
       /\ take 10 (drop (length lit) after) = code.
Proof.
  induction path as [|c path IH]; cbn [AmazonScraper.match_code].
  - destruct (_ && _ && _) eqn:E; [|discriminate]. intros [= <-].
    apply andb_true_iff in E as [E Hal]. apply andb_true_iff in E as [Hst Hlen].
    apply Nat.eqb_eq in Hlen. repeat split; [done..|].
    by exists [], [].
  - destruct (_ && _ && _) eqn:E.
    + intros [= <-].
      apply andb_true_iff in E as [E Hal].
      apply andb_true_iff in E as [Hst Hlen].
      apply Nat.eqb_eq in Hlen. repeat split; [done..|].
      by exists [], (c :: path).
    + intros Hm. destruct (IH Hm) as (Hlen & Hal & before & after & -> & Hst & Ht).
      repeat split; [done..|]. by exists (c :: before), after.
Qed.

(** Wherever [lit] followed by ten alphanumeric code units occurs in the
    path, the pattern matches. *)
Lemma match_code_complete (lit before code after : jsstring) :
  length code = 10 ->
  forallb isAlnum code = true ->
  is_Some (AmazonScraper.match_code lit (before ++ lit ++ code ++ after)).
Proof.
  intros Hlen Hal. induction before as [|c before IH].
  - cbn [app]. assert (Hhere :
      startsWith_i (lit ++ code ++ after) lit
      && (length (take 10 (drop (length lit) (lit ++ code ++ after))) =? 10)
      && forallb isAlnum (take 10 (drop (length lit) (lit ++ code ++ after)))
      = true).
    { rewrite startsWith_i_refl, drop_app_length.
      rewrite <- Hlen, take_app_length. by rewrite Hal, Nat.eqb_refl. }
    destruct (lit ++ code ++ after) as [|c rest] eqn:E;
      cbn [AmazonScraper.match_code]; rewrite Hhere; by eexists.
  - cbn [app AmazonScraper.match_code].
    destruct (_ && _ && _); [by eexists | exact IH].
Qed.

Lemma alnum_ascii (code : jsstring) :
  forallb isAlnum code = true -> Forall (fun c => (c < 128)%N) code.
Proof.
  rewrite forallb_forall, Forall_forall. intros H c Hc.
  apply list_elem_of_In, H in Hc. unfold isAlnum, isDigit, isUpperAZ, isLowerAZ in Hc.
  repeat match type of Hc with
         | context [(?a <=? ?b)%N] => destruct (N.leb_spec a b)
         end; cbn in Hc; first [lia | discriminate].
Qed.

End CodeFacts.

Section LinkFacts.
Context {rt : ECMAScript} {ch : Cheerio}.

Local Abbreviation asinOf := AmazonScraper.asinMatch.
Local Abbreviation canonical := Spec.canonical.

Lemma asinOf_sound path code :
  asinOf path = Some code -> length code = 10 /\ forallb isAlnum code = true.
Proof.
  unfold AmazonScraper.asinMatch.
  destruct (AmazonScraper.match_code (js "/dp/") path) as [c|] eqn:E; cbn.
  - intros [= <-]. by destruct (match_code_sound _ _ _ E) as (? & ? & _).
  - intros E'. by destruct (match_code_sound _ _ _ E') as (? & ? & _).
Qed.

Lemma canonical_of u :
  canonical u
    (match asinOf (pathname u) with
     | Some code =>
         AmazonScraper.AMAZON_BASE_URL ++ js "/dp/" ++ toUpperCase code
     | None => AmazonScraper.trimTrailingSlashes (origin u ++ pathname u)
     end).
Proof.
  unfold Spec.canonical.
  destruct (asinOf (pathname u)) as [code|] eqn:E; [left | by right].
  destruct (asinOf_sound _ _ E) as [Hlen Hal].
  exists code. repeat split; [done..|].
  by rewrite toUpperCase_ascii by by apply alnum_ascii.
Qed.

(** An accepted link is one of the two canonical forms of a URL that
    parsed. *)
Lemma normalizeProductLink_canonical rawLink link :
  AmazonScraper.normalizeProductLink rawLink = Some link ->
  exists input u, new_URL input None = Ok u /\ canonical u link.
Proof.
  unfold AmazonScraper.normalizeProductLink.
  destruct (truthy rawLink); [|discriminate]. cbn [negb].
  match goal with
  | |- context [new_URL (if ?b then ?x else ?y) None] =>
      set (candidate := if b then x else y)
  end.
  unfold mbind, Result_bind, mret, Result_ret.
  destruct (new_URL candidate None) as [u0|e] eqn:E0; [|discriminate].
  destruct (nullish _ _) as [target|].
  - destruct (truthy target).
    + destruct (decodeURIComponent target) as [decoded|]; [|discriminate].
      match goal with
      | |- context [new_URL (if ?b then ?x else ?y) None] =>
          destruct (new_URL (if b then x else y) None) as [u1|] eqn:E1;
            [|discriminate]
      end.
      generalize (canonical_of u1).
      destruct (asinOf (pathname u1)) eqn:Ea; intros Hc Hl;
        cbv beta iota in Hl; injection Hl as <-; eexists _, u1;
        (split; [exact E1 | exact Hc]).
    + generalize (canonical_of u0).
      destruct (asinOf (pathname u0)) eqn:Ea; intros Hc Hl;
        cbv beta iota in Hl; injection Hl as <-; exists candidate, u0;
        (split; [exact E0 | exact Hc]).
  - generalize (canonical_of u0).
    destruct (asinOf (pathname u0)) eqn:Ea; intros Hc Hl;
      cbv beta iota in Hl; injection Hl as <-; exists candidate, u0;
      (split; [exact E0 | exact Hc]).
Qed.

Lemma canonical_functional u link link' :
  canonical u link -> canonical u link' -> link = link'.
Proof.
  intros [(c & E & _ & _ & ->) | (E & ->)] [(c' & E' & _ & _ & ->) | (E' & ->)];
    congruence.
Qed.

(** The text the code hands to [new URL] for a raw link. *)
Local Abbreviation joined rawLink :=
  (if negb (startsWith (trim rawLink) (js "http")) return jsstring
   then AmazonScraper.AMAZON_BASE_URL
          ++ (if startsWith (trim rawLink) (js "/") return jsstring
              then [] else js "/")
          ++ dropWhile AmazonScraper.isSlash (trim rawLink)
   else trim rawLink).

(** That text is the absolute form of the trimmed link, where the latter
    is defined. *)
Lemma joined_absolute rawLink a :
  Spec.absolute (trim rawLink) = Some a -> joined rawLink = a.
Proof.
  unfold Spec.absolute.
  destruct (startsWith (trim rawLink) (js "http")); cbn [negb];
    [by intros [= <-]|].
  change (js "/") with [47%N].
  destruct (trim rawLink) as [|c s] eqn:Et; cbn [startsWith].
  - by intros [= <-].
  - destruct (N.eqb_spec 47 c) as [<-|Hc]; cbn [andb]; [by destruct s|].
    intros [= <-]. cbn [dropWhile]. unfold AmazonScraper.isSlash.
    destruct (N.eqb_spec c 47) as [->|_]; [done | reflexivity].
Qed.

(** What [normalizeProductLink] computes: a link is accepted exactly when
    it is not empty, its text parses and the redirect target, if any,
    decodes and parses; the result is the canonical form of the URL
    object after redirect unwrapping. *)
Lemma normalizeProductLink_spec rawLink link :
  AmazonScraper.normalizeProductLink rawLink = Some link
  <-> rawLink <> []
      /\ exists u0 u,
           new_URL (joined rawLink) None = Ok u0
           /\ Spec.unwrapped u0 u
           /\ canonical u link.
Proof.
  assert (Hfinal : forall u,
            (match
               match asinOf (pathname u) with
               | Some code =>
                   Ok (AmazonScraper.AMAZON_BASE_URL ++ js "/dp/"
                         ++ toUpperCase code)
               | None =>
                   Ok (AmazonScraper.trimTrailingSlashes
                         (origin u ++ pathname u))
               end
             with
             | Ok l => Some l
             | Throw _ => None
             end = Some link) <-> canonical u link).
  { intros u. generalize (canonical_of u).
    destruct (asinOf (pathname u)); intros Hc; split.
    - by intros [= <-].
    - intros Hl. f_equal. by eapply canonical_functional.
    - by intros [= <-].
    - intros Hl. f_equal. by eapply canonical_functional. }
  unfold AmazonScraper.normalizeProductLink.
  destruct rawLink as [|c0 raw]; cbn [truthy negb].
  { split; [intros [=] | intros [Hne _]; by destruct Hne]. }
  set (rawLink := c0 :: raw).
  unfold mbind, Result_bind, mret, Result_ret.
  lazymatch goal with
  | |- (?code = _) <-> _ =>
      match code with
      | context [new_URL ?candidate None] =>
          change candidate with (joined rawLink)
      end
  end.
  destruct (new_URL (joined rawLink) None) as [u0|e] eqn:E0.
  2: { split; [intros [=]|]. intros (_ & u0 & u & H & _). congruence. }
  change (nullish (searchParams_get (searchParams u0) (js "url"))
            (searchParams_get (searchParams u0) (js "location")))
    with (Spec.redirectTarget u0).
  unfold Spec.unwrapped.
  destruct (Spec.redirectTarget u0) as [[|c target]|] eqn:Et; cbn [truthy].
  - rewrite Hfinal. split.
    + intros Hc. split; [done|]. exists u0, u0. split; [done|].
      split; [right; split; [by right | done] | done].
    + intros (_ & u0' & u & [= <-] & [(t & d & Ht' & Hne & _) | [_ ->]] & Hc);
        [congruence | done].
  - destruct (decodeURIComponent (c :: target)) as [decoded|e] eqn:Ed.
    + match goal with
      | |- context [new_URL (if ?b then ?x else ?y) None] =>
          destruct (new_URL (if b then x else y) None) as [u1|e] eqn:E1
      end.
      * rewrite Hfinal. split.
        -- intros Hc. split; [done|]. exists u0, u1. split; [done|].
           split; [|done]. left. by exists (c :: target), decoded.
        -- intros (_ & u0' & u & [= <-] & Hu & Hc).
           destruct Hu as [(t & d & Ht' & _ & Hd & Hn) | [[Hn | Hn] _]];
             [|congruence..].
           assert (t = c :: target) as -> by congruence.
           assert (d = decoded) as -> by congruence.
           by assert (u = u1) as -> by congruence.
      * split; [intros [=]|].
        intros (_ & u0' & u & [= <-] & Hu & _).
        destruct Hu as [(t & d & Ht' & _ & Hd & Hn) | [[Hn | Hn] _]];
          [|congruence..].
        assert (t = c :: target) as -> by congruence.
        assert (d = decoded) as -> by congruence. congruence.
    + split; [intros [=]|].
      intros (_ & u0' & u & [= <-] & Hu & _).
      destruct Hu as [(t & d & Ht' & _ & Hd & _) | [[Hn | Hn] _]];
        [|congruence..].
      assert (t = c :: target) as -> by congruence. congruence.
  - rewrite Hfinal. split.
    + intros Hc. split; [done|]. exists u0, u0. split; [done|].
      split; [right; split; [by left | done] | done].
    + intros (_ & u0' & u & [= <-] & [(t & d & Ht' & _) | [_ ->]] & Hc);
        [congruence | done].
Qed.

(** The URL object put in canonical form is one that parsed. *)
Lemma unwrapped_parsed input u0 u :
  new_URL input None = Ok u0 -> Spec.unwrapped u0 u ->
  exists input', new_URL input' None = Ok u.
Proof.
  intros H0 [(t & d & _ & _ & _ & Hu) | [_ ->]]; eauto.
Qed.

(** An accepted link is the canonical form of the URL object its raw link
    resolves to. *)
Lemma normalizeProductLink_resolves rawLink link :
  AmazonScraper.normalizeProductLink rawLink = Some link ->
  rawLink <> []
  /\ exists u,
       Spec.resolves rawLink u /\ canonical u link
       /\ exists input, new_URL input None = Ok u.
Proof.
  intros Hl. apply normalizeProductLink_spec in Hl as (Hne & u0 & u & H0 & Hu & Hc).
  split; [done|]. exists u. split; [|split; [done|]].
  - exists (joined rawLink), u0. split; [|done].
    intros a Ha. by apply joined_absolute.
  - by eapply unwrapped_parsed.
Qed.

(** A link with an absolute form is accepted exactly when that form
    parses and the redirect target, if any, decodes and parses; the
    result is the canonical form of the URL object after unwrapping. *)
Lemma normalizeProductLink_unwraps rawLink a link :
  rawLink <> [] ->
  Spec.absolute (trim rawLink) = Some a ->
  AmazonScraper.normalizeProductLink rawLink = Some link
  <-> exists u0 u,
        new_URL a None = Ok u0 /\ Spec.unwrapped u0 u /\ canonical u link.
Proof.
  intros Hne Ha. rewrite normalizeProductLink_spec.
  rewrite (joined_absolute _ _ Ha). split; [by intros [_ H] | by split].
Qed.

(** A link that is already absolute and carries no redirect parameter is
    accepted as soon as it parses, and it is its own URL object that is
    put in canonical form. *)
Lemma normalizeProductLink_absolute rawLink u :
  truthy rawLink = true ->
  startsWith (trim rawLink) (js "http") = true ->
  new_URL (trim rawLink) None = Ok u ->
  searchParams_get (searchParams u) (js "url") = None ->
  searchParams_get (searchParams u) (js "location") = None ->
  exists link,
    AmazonScraper.normalizeProductLink rawLink = Some link /\ canonical u link.
Proof.
  intros Ht Hhttp Hu H1 H2. unfold AmazonScraper.normalizeProductLink.
  rewrite Ht, Hhttp. cbn [negb].
  unfold mbind, Result_bind, mret, Result_ret. rewrite Hu, H1, H2.
  change (nullish (@None jsstring) None) with (@None jsstring). cbv beta iota.
  generalize (canonical_of u).
  destruct (asinOf (pathname u)); intros Hc; eexists;
    (split; [reflexivity | exact Hc]).
Qed.

Lemma ensureAbsoluteUrl_parsed relative link :
  AliExpressScraper.ensureAbsoluteUrl relative = Some link ->
  exists input parsed, new_URL input None = Ok parsed /\ link = href parsed.
Proof.
  unfold AliExpressScraper.ensureAbsoluteUrl.
  match goal with
  | |- context [new_URL (if ?b then ?x else ?y) None] =>
      set (normalized := if b then x else y)
  end.
  destruct (new_URL normalized None) as [parsed|] eqn:E; [|discriminate].
  intros [= <-]. by exists normalized, parsed.
Qed.

(** A storefront link is the decoded [uddg] parameter of a redirect
    wrapper, or the raw link itself when that starts with "http". *)
Lemma normalizeResultLink_cases rawHref link :
  ShopifyScraper.normalizeResultLink rawHref = Some link ->
  exists raw,
    rawHref = Some raw
    /\ ((startsWith raw (js "/l/?") = true
         /\ exists u encoded,
              new_URL raw (Some ShopifyScraper.SHOPIFY_SEARCH_BASE_URL) = Ok u
              /\ searchParams_get (searchParams u) (js "uddg") = Some encoded
              /\ decodeURIComponent encoded = Ok link)
        \/ (link = raw /\ startsWith raw (js "http") = true)).
Proof.
  unfold ShopifyScraper.normalizeResultLink.
  destruct rawHref as [raw|]; [|discriminate].
  destruct (truthy raw); [|discriminate]. cbn [negb].
  intros Hl. exists raw. split; [reflexivity|].
  destruct (startsWith raw (js "/l/?")) eqn:Ew.
  - unfold ShopifyScraper.unwrapRedirect in Hl.
    unfold mbind, Result_bind, mret, Result_ret in Hl.
    destruct (new_URL raw (Some ShopifyScraper.SHOPIFY_SEARCH_BASE_URL))
      as [u|] eqn:Eu; [|discriminate].
    destruct (searchParams_get (searchParams u) (js "uddg")) as [encoded|] eqn:Ee.
    + destruct (truthy encoded).
      * destruct (decodeURIComponent encoded) as [decoded|] eqn:Ed;
          [|discriminate].
        injection Hl as <-. left. split; [reflexivity|]. by exists u, encoded.
      * right. destruct (startsWith raw (js "http")); [|discriminate].
        by injection Hl as <-.
    + right. destruct (startsWith raw (js "http")); [|discriminate].
      by injection Hl as <-.
  - right. destruct (startsWith raw (js "http")); [|discriminate].
    by injection Hl as <-.
Qed.

End LinkFacts.

Section LinkClaims.
Context {rt : ECMAScript} {ch : Cheerio}.

(** C7, as amended.  A wholesale listing carries the serialisation of a
    URL that parsed.  A marketplace listing carries a canonical form of
    the URL object its raw link (the [href] of the title anchor of a
    selected container) resolves to, an object that parsed: the raw link,
    in absolute form, is parsed, and when it carries a non-empty redirect
    target (its [url] parameter, else its [location] parameter) the URL
    object is replaced by the parse of that target, URI-decoded and
    prefixed with the marketplace base unless it starts with "http".  The
    canonical form is "https://www.amazon.com/dp/" and the upper-cased
    code when the path of the resolved URL holds ten alphanumeric code
    units after "/dp/" or "/gp/product/" (in any letter case), origin and
    path without trailing slashes otherwise; both patterns match wherever
    such a code occurs in a path.  A link that already starts with "http",
    parses and has no [url] or [location] parameter is accepted, the URL
    put in canonical form being its own.  For a non-empty link that starts
    with "http" or has no leading slash, acceptance is characterised: the
    link is accepted with a given result exactly when its absolute form
    parses, the redirect target, if any, decodes and parses, and the
    result is the canonical form of the unwrapped URL object.  A
    storefront listing carries a link that matches the hosting-domain
    pattern and is either the decoded [uddg] parameter of a "/l/?" wrapper
    or the raw link itself, which then starts with "http". *)
Theorem listing_links (maxResults : Z) (html : jsstring) :
  (forall p,
     p ∈ AliExpressScraper.parseProducts maxResults html ->
     exists input parsed,
       new_URL input None = Ok parsed /\ url p = href parsed)
  /\ (forall p,
        p ∈ AmazonScraper.parseProducts maxResults html ->
        exists container rawLink u,
          container ∈ elements (select (load html) AmazonScraper.RESULT_ITEMS)
          /\ attr (find container "h2 a") "href" = Some rawLink
          /\ rawLink <> []
          /\ Spec.resolves rawLink u
          /\ Spec.canonical u (url p)
          /\ exists input, new_URL input None = Ok u)
  /\ (forall before code after,
        length code = 10 ->
        forallb isAlnum code = true ->
        is_Some (AmazonScraper.match_code (js "/dp/")
                   (before ++ js "/dp/" ++ code ++ after))
        /\ is_Some (AmazonScraper.match_code (js "/gp/product/")
                      (before ++ js "/gp/product/" ++ code ++ after)))
  /\ (forall rawLink u,
        truthy rawLink = true ->
        startsWith (trim rawLink) (js "http") = true ->
        new_URL (trim rawLink) None = Ok u ->
        searchParams_get (searchParams u) (js "url") = None ->
        searchParams_get (searchParams u) (js "location") = None ->
        exists link,
          AmazonScraper.normalizeProductLink rawLink = Some link
          /\ Spec.canonical u link)
  /\ (forall rawLink a link,
        rawLink <> [] ->
        Spec.absolute (trim rawLink) = Some a ->
        AmazonScraper.normalizeProductLink rawLink = Some link
        <-> exists u0 u,
              new_URL a None = Ok u0
              /\ Spec.unwrapped u0 u
              /\ Spec.canonical u link)
  /\ (forall p,
        p ∈ ShopifyScraper.parseProducts maxResults html ->
        ShopifyScraper.SHOPIFY_DOMAIN_REGEX_test (url p) = true
        /\ exists raw,
             (startsWith raw (js "/l/?") = true
              /\ exists u encoded,
                   new_URL raw (Some ShopifyScraper.SHOPIFY_SEARCH_BASE_URL)
                   = Ok u
                   /\ searchParams_get (searchParams u) (js "uddg")
                      = Some encoded
                   /\ decodeURIComponent encoded = Ok (url p))
             \/ (url p = raw /\ startsWith raw (js "http") = true)).
Proof.
  split.
  { intros p Hp. unfold AliExpressScraper.parseProducts in Hp.
    eapply each_built in Hp; [|apply aliexpress_step_pushes].
    destruct Hp as [Hp | (c & _ & Hb)]; [by apply elem_of_nil in Hp|].
    destruct Hb as (href & rawTitle & link & _ & _ & _ & Hl & ->).
    by apply ensureAbsoluteUrl_parsed in Hl. }
  split.
  { intros p Hp. unfold AmazonScraper.parseProducts in Hp.
    eapply each_built in Hp; [|apply amazon_step_pushes].
    destruct Hp as [Hp | (c & Hc & _ & Hb)]; [by apply elem_of_nil in Hp|].
    destruct Hb as (rawLink & link & Hhref & Hl & _ & ->). cbn [url].
    apply normalizeProductLink_resolves in Hl as (Hne & u & Hres & Hcan & Hu).
    by exists c, rawLink, u. }
  split.
  { intros before code after Hlen Hal.
    split; by apply match_code_complete. }
  split; [exact normalizeProductLink_absolute|].
  split; [exact normalizeProductLink_unwraps|].
  intros p Hp. unfold ShopifyScraper.parseProducts in Hp.
  eapply each_built in Hp; [|apply shopify_step_pushes].
  destruct Hp as [Hp | (c & _ & Hb)]; [by apply elem_of_nil in Hp|].
  destruct Hb as (link & Hl & Hd & _ & ->). cbn [url].
  split; [exact Hd|].
  apply normalizeResultLink_cases in Hl as (raw & _ & Hcases).
  by exists raw.
Qed.

End LinkClaims.

Lemma listing_links_witness :
  (exists link,
     @AmazonScraper.normalizeProductLink Fixture.runtime
       (js " https://www.amazon.com/Mouse/gp/product/b08n5wrwnw/?ref=x ")
     = Some link
     /\ Spec.canonical
          {| href := js "https://www.amazon.com/Mouse/gp/product/b08n5wrwnw/?ref=x";
             origin := js "https://www.amazon.com";
             pathname := js "/Mouse/gp/product/b08n5wrwnw/";
             searchParams := [(js "ref", js "x")] |}
          link)
  /\ @AmazonScraper.normalizeProductLink Fixture.runtime
       (js "https://www.amazon.com/sspa/click?url=/gp/product/b08n5wrwnw/")
     = Some (js "https://www.amazon.com/dp/B08N5WRWNW").
Proof.
  split.
  - apply (proj1 (proj2 (proj2 (proj2
             (@listing_links Fixture.runtime Pages.all 10 Pages.amazonHtml)))));
      reflexivity.
  - refine (proj2 (proj1 (proj2 (proj2 (proj2 (proj2
              (@listing_links Fixture.runtime Pages.all 10 Pages.amazonHtml)))))
              (js "https://www.amazon.com/sspa/click?url=/gp/product/b08n5wrwnw/")
              (js "https://www.amazon.com/sspa/click?url=/gp/product/b08n5wrwnw/")
              (js "https://www.amazon.com/dp/B08N5WRWNW") _ _) _).
    + discriminate.
    + reflexivity.
    + exists {| href := js "https://www.amazon.com/sspa/click?url=/gp/product/b08n5wrwnw/";
                origin := js "https://www.amazon.com";
                pathname := js "/sspa/click";
                searchParams := [(js "url", js "/gp/product/b08n5wrwnw/")] |},
             {| href := js "https://www.amazon.com/gp/product/b08n5wrwnw/";
                origin := js "https://www.amazon.com";
                pathname := js "/gp/product/b08n5wrwnw/";
                searchParams := [] |}.
      split; [reflexivity|]. split.
      * left. exists (js "/gp/product/b08n5wrwnw/"), (js "/gp/product/b08n5wrwnw/").
        split; [reflexivity|]. split; [discriminate|].
        split; reflexivity.
      * left. exists (js "b08n5wrwnw"). repeat split; reflexivity.
Defined.

(** The storefront parser returns a listing whose link has no scheme: the
    raw link "http-myshopify.com" starts with "http" and matches the
    domain pattern, and is passed on as it is. *)
Lemma storefront_link_counterexample :
  ~ Forall (fun p => Spec.hasScheme (url p) = true)
      (@ShopifyScraper.parseProducts Fixture.runtime Pages.all 10
         Pages.shopifyHtml).
Proof.
  assert (H : @ShopifyScraper.parseProducts Fixture.runtime Pages.all 10
                Pages.shopifyHtml
              = [Fixture.listing shopify (js "Shop") (js "http-myshopify.com")])
    by (vm_compute; reflexivity).
  rewrite H. intros Hall. apply Forall_cons in Hall as [Hs _].
  vm_compute in Hs. discriminate.
Qed.

(** A link that starts with "/" is joined to the base without its slash:
    "/dp/B08N5WRWNW" becomes "https://www.amazon.comdp/B08N5WRWNW", whose
    path is "/B08N5WRWNW", so the product code goes unrecognised; the
    wholesale scraper joins its links the same way. *)
Lemma relative_link_loses_its_slash :
  @AmazonScraper.normalizeProductLink Fixture.runtime (js "/dp/B08N5WRWNW")
  = Some (js "https://www.amazon.comdp/B08N5WRWNW")
  /\ @AliExpressScraper.ensureAbsoluteUrl Fixture.runtime (js "/item/1005001.html")
     = Some (js "https://www.aliexpress.comitem/1005001.html").
Proof. split; vm_compute; reflexivity. Qed.

(* ===================================================================== *)
(** * Part III.  Further properties of the code                           *)
(* ===================================================================== *)

(** ** More on ranking *)

Section RankingMore.
Context {rt : ECMAScript}.

Local Abbreviation score q := (ScraperManager.computeScore q).

(** Whether [computeScore] awards the two points: a non-empty title whose
    lower-cased form contains the lower-cased query. *)
Local Abbreviation matches q :=
  (fun p : PlatformProduct =>
     truthy (title p) && includes (toLowerCase (title p)) (toLowerCase q)).

Lemma penalty_range (d m : Z) :
  (0 <= d)%Z -> (1 <= m)%Z ->
  (0 <= Qmax 0 (1 - inject_Z d / inject_Z m))%Q
  /\ (Qmax 0 (1 - inject_Z d / inject_Z m) <= 1)%Q.
Proof.
  intros Hd Hm. split; [apply Q.le_max_l|].
  apply Q.max_lub; [discriminate|].
  assert (Hx : (0 <= inject_Z d / inject_Z m)%Q).
  { apply Qmult_le_0_compat; [|apply Qinv_le_0_compat];
      change 0%Q with (inject_Z 0); rewrite <- Zle_Qle; lia. }
  unfold Qminus. rewrite <- (Qplus_0_r 1) at 2.
  apply Qplus_le_r. change 0%Q with (- 0)%Q. by apply Qopp_le_compat.
Qed.

Lemma score_cases (query : jsstring) (p : PlatformProduct) :
  (matches query p = true /\ (2 <= score query p)%Q /\ (score query p <= 3)%Q)
  \/ (matches query p = false
      /\ (0 <= score query p)%Q /\ (score query p <= 1)%Q).
Proof.
  unfold ScraperManager.computeScore.
  destruct (truthy (title p)); cbn [negb andb];
    [|right; repeat split; discriminate].
  destruct (penalty_range
              (Z.abs (Z.of_nat (length (toLowerCase (title p)))
                      - Z.of_nat (length (toLowerCase query))))
              (Z.max (Z.of_nat (length (toLowerCase query))) 1))
    as [Hlo Hhi]; [lia..|].
  destruct (includes _ _); cbn zeta; [left | right];
    (split; [reflexivity|]); split.
  - rewrite <- (Qplus_0_r 2) at 1. apply Qplus_le_compat; [discriminate|done].
  - change 3%Q with (0 + 2 + 1)%Q. apply Qplus_le_compat; [apply Qle_refl|done].
  - rewrite <- (Qplus_0_r 0) at 1. apply Qplus_le_compat; [apply Qle_refl|done].
  - rewrite <- (Qplus_0_l 1) at 2. apply Qplus_le_compat; [apply Qle_refl|done].
Qed.

(** X1.  A relevance score lies between 0 and 3; it is at least 2 exactly
    for the listings with a non-empty title that contains the query (both
    lower-cased), and at most 1 for all others. *)
Theorem computeScore_range (query : jsstring) (p : PlatformProduct) :
  (0 <= score query p)%Q /\ (score query p <= 3)%Q
  /\ (matches query p = true <-> (2 <= score query p)%Q)
  /\ (matches query p = false <-> (score query p <= 1)%Q).
Proof.
  destruct (score_cases query p) as [(Hm & Hlo & Hhi) | (Hm & Hlo & Hhi)];
    rewrite Hm.
  - repeat split; try done.
    + eapply Qle_trans; [|exact Hlo]. discriminate.
    + intros H1. exfalso.
      apply (Qle_not_lt _ _ (Qle_trans _ _ _ Hlo H1)). reflexivity.
  - repeat split; try done.
    + eapply Qle_trans; [exact Hhi|]. discriminate.
    + intros H2. exfalso.
      apply (Qle_not_lt _ _ (Qle_trans _ _ _ H2 Hhi)). reflexivity.
Qed.

(** X2.  In the output of [sortByRelevance] every listing whose title
    contains the query comes before every listing whose title does not:
    the output is its matching listings followed by its other listings. *)
Theorem matching_titles_rank_first (query : jsstring)
    (ps : list PlatformProduct) :
  ScraperManager.sortByRelevance query ps
  = List.filter (matches query) (ScraperManager.sortByRelevance query ps)
    ++ List.filter (fun p => negb (matches query p))
         (ScraperManager.sortByRelevance query ps).
Proof.
  pose proof (Array_sort_descending (score query) ps) as Hs.
  unfold ScraperManager.sortByRelevance. revert Hs.
  generalize (Array_sort (fun a b => (score query b - score query a)%Q) ps).
  unfold Spec.descending. intros l. induction l as [|x l IH]; [reflexivity|].
  intros Hs. inversion Hs as [|? ? Hl Hx]; subst. cbn [List.filter].
  match goal with
  | |- context [if ?b then x :: _ else _] => destruct b eqn:Ex
  end; cbn [negb app].
  - f_equal. by apply IH.
  - assert (Hnone : Forall (fun y => matches query y = false) l).
    { assert (Hx1 : (score query x <= 1)%Q).
      { destruct (score_cases query x) as [(Hm & _) | (_ & _ & H)];
          [cbn beta in Hm; rewrite Ex in Hm; discriminate | exact H]. }
      eapply Forall_impl; [exact Hx|]. cbn beta. intros y Hy.
      destruct (score_cases query y) as [(_ & Hlo & _) | (Hm & _)];
        [|exact Hm].
      exfalso.
      apply (Qle_not_lt _ _ (Qle_trans _ _ _ Hlo (Qle_trans _ _ _ Hy Hx1))).
      reflexivity. }
    assert (Hf : List.filter (matches query) l = []).
    { clear -Hnone. induction Hnone as [|y l Hy _ IHl]; [reflexivity|].
      cbn [List.filter]. by rewrite Hy. }
    assert (Hg : List.filter (fun p => negb (matches query p)) l = l).
    { clear -Hnone. induction Hnone as [|y l Hy _ IHl]; [reflexivity|].
      cbn [List.filter]. rewrite Hy. cbn [negb]. by f_equal. }
    by rewrite Hf, Hg.
Qed.

Lemma Array_sort_descending_id (l : list PlatformProduct) (query : jsstring) :
  Spec.descending (score query) l ->
  Array_sort (fun a b => (score query b - score query a)%Q) l = l.
Proof.
  unfold Spec.descending. induction l as [|x l IH]; [reflexivity|].
  intros Hs. inversion Hs as [|? ? Hl Hx]; subst.
  cbn [Array_sort]. rewrite IH by done.
  destruct l as [|y l]; [reflexivity|]. cbn [sort_insert].
  apply Forall_cons in Hx as [Hy _].
  by rewrite (proj2 (cmp_le_0 (score query) x y) Hy).
Qed.

(** X3.  Ranking a ranked list changes nothing, and ranking keeps the
    number of listings. *)
Theorem sortByRelevance_idempotent (query : jsstring)
    (ps : list PlatformProduct) :
  ScraperManager.sortByRelevance query
    (ScraperManager.sortByRelevance query ps)
  = ScraperManager.sortByRelevance query ps
  /\ length (ScraperManager.sortByRelevance query ps) = length ps.
Proof.
  split.
  - apply Array_sort_descending_id, Array_sort_descending.
  - apply Permutation_length, Array_sort_perm.
Qed.

End RankingMore.

(** ** More on the retry loop *)

Section RetryMore.
Context (w : Scraper.World).
Context (isBotPage : jsstring -> bool).
Context (parseProducts : jsstring -> list PlatformProduct).

Local Abbreviation attempts := (Scraper.attempts w isBotPage parseProducts).
Local Abbreviation search_with := (Scraper.search_with w isBotPage parseProducts).
Local Abbreviation requested t :=
  {| Scraper.calls := S (Scraper.calls t);
     Scraper.draws := Scraper.draws t;
     Scraper.delays := Scraper.delays t |}.

Lemma outcome_cases (o : Scraper.Outcome) :
  Spec.transient o = true
  \/ exists r html,
       o = Scraper.Resolved r
       /\ Scraper.transientStatus (Scraper.status r) = false
       /\ Scraper.usableHtml (Scraper.data r) = Some html.
Proof.
  destruct o as [r|e]; [|by left]. cbn.
  destruct (Scraper.transientStatus (Scraper.status r)) eqn:Es; [by left|].
  destruct (Scraper.usableHtml (Scraper.data r)) as [html|] eqn:Eh;
    [|by left].
  right. by exists r, html.
Qed.

(** A usable page ends the loop: the empty list for a bot page, the parsed
    listings otherwise. *)
Lemma attempts_page url attempt todo t r html :
  Scraper.http_get w url (S (Scraper.calls t)) = Scraper.Resolved r ->
  Scraper.transientStatus (Scraper.status r) = false ->
  Scraper.usableHtml (Scraper.data r) = Some html ->
  attempts url (attempt :: todo) t
  = (if isBotPage html then [] else parseProducts html, requested t).
Proof.
  intros Hget Hst Hhtml. cbn [Scraper.attempts Scraper.calls].
  rewrite Hget, Hst, Hhtml. by destruct (isBotPage html).
Qed.

Local Ltac rounds :=
  repeat (first [ rewrite attempts_transient by (cbn; assumption)
                | erewrite attempts_page by (cbn; eassumption) ];
          cbn [Scraper.maybeRetry Scraper.start Scraper.calls Scraper.draws
               Scraper.delays Nat.leb app Scraper.maxRetries]).

Lemma search_with_trace url :
  truthy url = true ->
  (forall n, (0 <= Scraper.Math_random w n)%Q
             /\ (Scraper.Math_random w n < 1)%Q) ->
  let t := (search_with (Ok url)).2 in
  1 <= Scraper.calls t <= 3
  /\ length (Scraper.delays t) = Scraper.calls t - 1
  /\ Scraper.draws t = length (Scraper.delays t)
  /\ Forall (fun d => (300 <= d < 600)%Z) (Scraper.delays t).
Proof.
  intros Hurl Hrand. unfold Scraper.search_with. rewrite Hurl.
  cbn [negb seq Scraper.maxRetries].
  pose proof (fun n => delay_range _ (proj1 (Hrand n)) (proj2 (Hrand n)))
    as Hd.
  destruct (outcome_cases (Scraper.http_get w url 1))
    as [T1 | (r1 & h1 & E1 & S1 & U1)];
    [destruct (outcome_cases (Scraper.http_get w url 2))
       as [T2 | (r2 & h2 & E2 & S2 & U2)];
     [destruct (outcome_cases (Scraper.http_get w url 3))
        as [T3 | (r3 & h3 & E3 & S3 & U3)]|]|];
    rounds; cbn; repeat split; try lia; repeat constructor; apply Hd.
Qed.

(** The first usable page within the three attempts decides the result. *)
Lemma search_with_page url k r html :
  truthy url = true ->
  1 <= k <= 3 ->
  (forall n, 1 <= n < k -> Spec.transient (Scraper.http_get w url n) = true) ->
  Scraper.http_get w url k = Scraper.Resolved r ->
  Scraper.transientStatus (Scraper.status r) = false ->
  Scraper.usableHtml (Scraper.data r) = Some html ->
  exists t,
    search_with (Ok url)
    = (Ok (if isBotPage html then [] else parseProducts html), t)
    /\ Scraper.calls t = k.
Proof.
  intros Hurl Hk Ht Hget Hst Hhtml.
  unfold Scraper.search_with. rewrite Hurl. cbn [negb seq Scraper.maxRetries].
  assert (Hcases : k = 1 \/ k = 2 \/ k = 3) by lia.
  destruct Hcases as [->|[->| ->]].
  - erewrite attempts_page by eassumption. eexists. by split.
  - rewrite attempts_transient by (apply Ht; cbn; lia).
    erewrite attempts_page by eassumption. eexists. by split.
  - rewrite attempts_transient by (apply Ht; cbn; lia).
    rewrite attempts_transient by (apply Ht; cbn; lia).
    erewrite attempts_page by eassumption. eexists. by split.
Qed.

End RetryMore.

Section SearchMore.
Context {rt : ECMAScript} {ch : Cheerio}.
Context (query : jsstring) (maxResults : Z) (w : Scraper.World).

(** X4.  Whatever the network does, a [search()] that gets as far as
    requesting issues between one and three requests, waits exactly once
    between two consecutive requests and never after the last, draws one
    random number per wait, and every wait lasts from 300 to 599 ms; a
    [search()] that throws has requested nothing. *)
Theorem search_trace_invariant :
  (forall n, (0 <= Scraper.Math_random w n)%Q
             /\ (Scraper.Math_random w n < 1)%Q) ->
  let paced (run : Result (list PlatformProduct) * Scraper.Trace) :=
    match run.1 with
    | Throw _ => run.2 = Scraper.start
    | Ok _ =>
        1 <= Scraper.calls run.2 <= 3
        /\ length (Scraper.delays run.2) = Scraper.calls run.2 - 1
        /\ Scraper.draws run.2 = length (Scraper.delays run.2)
        /\ Forall (fun d => (300 <= d < 600)%Z) (Scraper.delays run.2)
    end in
  paced (AmazonScraper.search query maxResults w)
  /\ paced (AliExpressScraper.search query maxResults w)
  /\ paced (ShopifyScraper.search query maxResults w).
Proof.
  intros Hrand paced. subst paced. cbv beta.
  unfold AmazonScraper.search, AliExpressScraper.search, ShopifyScraper.search.
  repeat split.
  - destruct (AmazonScraper.getSearchUrl query) as [url|e] eqn:E;
      [|reflexivity].
    pose proof (search_with_trace w AmazonScraper.isBotPage
                  (AmazonScraper.parseProducts maxResults) url
                  (amazon_searchUrl_truthy _ _ E) Hrand) as Ht.
    unfold Scraper.search_with in Ht |- *.
    rewrite (amazon_searchUrl_truthy _ _ E) in Ht |- *. cbn [negb] in Ht |- *.
    by destruct (Scraper.attempts _ _ _ _ _ _).
  - destruct (AliExpressScraper.getSearchUrl query) as [url|e] eqn:E;
      [|reflexivity].
    pose proof (search_with_trace w AliExpressScraper.isBotPage
                  (AliExpressScraper.parseProducts maxResults) url
                  (aliexpress_searchUrl_truthy _ _ E) Hrand) as Ht.
    unfold Scraper.search_with in Ht |- *.
    rewrite (aliexpress_searchUrl_truthy _ _ E) in Ht |- *.
    cbn [negb] in Ht |- *.
    by destruct (Scraper.attempts _ _ _ _ _ _).
  - destruct (ShopifyScraper.getSearchUrl query) as [url|e] eqn:E;
      [|reflexivity].
    pose proof (search_with_trace w ShopifyScraper.isBotPage
                  (ShopifyScraper.parseProducts maxResults) url
                  (shopify_searchUrl_truthy _ _ E) Hrand) as Ht.
    unfold Scraper.search_with in Ht |- *.
    rewrite (shopify_searchUrl_truthy _ _ E) in Ht |- *.
    cbn [negb] in Ht |- *.
    by destruct (Scraper.attempts _ _ _ _ _ _).
Qed.

(** X5.  A transient failure is recovered from: when the [k]-th request
    (after [k - 1] transient failures, [k] at most 3) brings a usable page
    that is no bot page, [search()] returns the listings parsed from that
    page and has issued [k] requests. *)
Theorem search_recovers (url : jsstring) (k : nat) (r : Scraper.Response)
    (html : jsstring) :
  1 <= k <= 3 ->
  (forall n, 1 <= n < k -> Spec.transient (Scraper.http_get w url n) = true) ->
  Scraper.http_get w url k = Scraper.Resolved r ->
  Scraper.transientStatus (Scraper.status r) = false ->
  Scraper.usableHtml (Scraper.data r) = Some html ->
  (AmazonScraper.getSearchUrl query = Ok url ->
   AmazonScraper.isBotPage html = false ->
   exists t,
     AmazonScraper.search query maxResults w
     = (Ok (AmazonScraper.parseProducts maxResults html), t)
     /\ Scraper.calls t = k)
  /\ (AliExpressScraper.getSearchUrl query = Ok url ->
      AliExpressScraper.isBotPage html = false ->
      exists t,
        AliExpressScraper.search query maxResults w
        = (Ok (AliExpressScraper.parseProducts maxResults html), t)
        /\ Scraper.calls t = k)
  /\ (ShopifyScraper.getSearchUrl query = Ok url ->
      ShopifyScraper.isBotPage html = false ->
      exists t,
        ShopifyScraper.search query maxResults w
        = (Ok (ShopifyScraper.parseProducts maxResults html), t)
        /\ Scraper.calls t = k).
Proof.
  intros Hk Ht Hget Hst Hhtml.
  unfold AmazonScraper.search, AliExpressScraper.search, ShopifyScraper.search.
  repeat split; intros Hurl Hbot; rewrite Hurl.
  - destruct (search_with_page w AmazonScraper.isBotPage
                (AmazonScraper.parseProducts maxResults) url k r html)
      as (t & Hs & Hc); eauto using amazon_searchUrl_truthy.
    rewrite Hbot in Hs. by exists t.
  - destruct (search_with_page w AliExpressScraper.isBotPage
                (AliExpressScraper.parseProducts maxResults) url k r html)
      as (t & Hs & Hc); eauto using aliexpress_searchUrl_truthy.
    rewrite Hbot in Hs. by exists t.
  - destruct (search_with_page w ShopifyScraper.isBotPage
                (ShopifyScraper.parseProducts maxResults) url k r html)
      as (t & Hs & Hc); eauto using shopify_searchUrl_truthy.
    rewrite Hbot in Hs. by exists t.
Qed.

(** X6.  The marketplace and the wholesale [search()] throw exactly when
    [encodeURIComponent] rejects the trimmed query, with the error it
    throws and before any request; the storefront [search()] never
    throws. *)
Theorem search_throws_only_from_encoding :
  (forall e,
     (AmazonScraper.search query maxResults w).1 = Throw e
     <-> encodeURIComponent (trim query) = Throw e)
  /\ (forall e,
        (AliExpressScraper.search query maxResults w).1 = Throw e
        <-> encodeURIComponent (trim query) = Throw e)
  /\ (forall e,
        encodeURIComponent (trim query) = Throw e ->
        AmazonScraper.search query maxResults w = (Throw e, Scraper.start)
        /\ AliExpressScraper.search query maxResults w
           = (Throw e, Scraper.start))
  /\ exists products,
       (ShopifyScraper.search query maxResults w).1 = Ok products.
Proof.
  unfold AmazonScraper.search, AliExpressScraper.search, ShopifyScraper.search,
    AmazonScraper.getSearchUrl, AliExpressScraper.getSearchUrl,
    ShopifyScraper.getSearchUrl, Scraper.search_with.
  unfold mbind, Result_bind, mret, Result_ret.
  repeat split.
  - destruct (encodeURIComponent (trim query)) as [enc|e']; cbn [fst];
      [|by intros [= ->]].
    destruct (negb _); [discriminate|].
    by destruct (Scraper.attempts _ _ _ _ _ _).
  - intros He. by rewrite He.
  - destruct (encodeURIComponent (trim query)) as [enc|e']; cbn [fst];
      [|by intros [= ->]].
    destruct (negb _); [discriminate|].
    by destruct (Scraper.attempts _ _ _ _ _ _).
  - intros He. by rewrite He.
  - by rewrite H.
  - by rewrite H.
  - destruct (negb _); [by eexists|].
    destruct (Scraper.attempts _ _ _ _ _ _). by eexists.
Qed.

End SearchMore.

Lemma search_trace_invariant_witness :
  let run :=
    @AmazonScraper.search Fixture.runtime Pages.all (js "wireless mouse") 10
      (Fixture.world
         [Scraper.Rejected (AxiosError None); Fixture.page200 Pages.amazonHtml]
         (1 # 3)) in
  match run.1 with
  | Throw _ => run.2 = Scraper.start
  | Ok _ =>
      1 <= Scraper.calls run.2 <= 3
      /\ length (Scraper.delays run.2) = Scraper.calls run.2 - 1
      /\ Scraper.draws run.2 = length (Scraper.delays run.2)
      /\ Forall (fun d => (300 <= d < 600)%Z) (Scraper.delays run.2)
  end.
Proof.
  refine (proj1 (@search_trace_invariant Fixture.runtime Pages.all
                   (js "wireless mouse") 10
                   (Fixture.world
                      [Scraper.Rejected (AxiosError None);
                       Fixture.page200 Pages.amazonHtml] (1 # 3)) _)).
  intros n. split; [vm_compute; discriminate | reflexivity].
Defined.

Lemma search_recovers_witness :
  exists t,
    @AmazonScraper.search Fixture.runtime Pages.all (js "wireless mouse") 10
      (Fixture.world
         [Scraper.Rejected (AxiosError None); Fixture.page200 Pages.amazonHtml]
         (1 # 3))
    = (Ok (@AmazonScraper.parseProducts Fixture.runtime Pages.all 10
             Pages.amazonHtml), t)
    /\ Scraper.calls t = 2.
Proof.
  apply (proj1 (@search_recovers Fixture.runtime Pages.all
                  (js "wireless mouse") 10
                  (Fixture.world
                     [Scraper.Rejected (AxiosError None);
                      Fixture.page200 Pages.amazonHtml] (1 # 3))
                  (js "https://www.amazon.com/s?k=wireless%20mouse")
                  2 _ Pages.amazonHtml ltac:(lia)
                  ltac:(intros [|[|n]] Hn; [lia | reflexivity | lia])
                  eq_refl eq_refl eq_refl));
    reflexivity.
Defined.

(** ** Parsing in closed form *)

Section CapFacts.
Context {ch : Cheerio}.
Context (maxResults : Z).
Context (step : list PlatformProduct -> Selection -> list PlatformProduct * bool).
Context (listingOf : Selection -> option PlatformProduct).

Hypothesis step_shape : forall products container,
  step products container
  = if (maxResults <=? Z.of_nat (length products))%Z then (products, false)
    else (products ++ option_list (listingOf container), true).

(** The iteration collects the listings of the containers in order until
    the cap is reached. *)
Lemma each_take els products :
  each step els products
  = products
    ++ take (Z.to_nat (maxResults - Z.of_nat (length products)))
         (omap listingOf els).
Proof.
  revert products. induction els as [|el els IH]; intros products.
  - cbn. by rewrite take_nil, app_nil_r.
  - cbn [each]. rewrite step_shape.
    destruct (Z.leb_spec maxResults (Z.of_nat (length products))) as [Hcap|Hlt].
    + replace (Z.to_nat (maxResults - Z.of_nat (length products))) with 0
        by lia.
      by rewrite take_0, app_nil_r.
    + rewrite IH. cbn [omap list_omap].
      destruct (listingOf el) as [p|]; cbn [option_list].
      * rewrite length_app. cbn [length].
        replace (Z.to_nat (maxResults - Z.of_nat (length products)))
          with (S (Z.to_nat (maxResults - Z.of_nat (length products + 1))))
          by lia.
        cbn [take firstn]. by rewrite <- app_assoc.
      * by rewrite app_nil_r.
Qed.

End CapFacts.

Section ClosedForm.
Context {rt : ECMAScript} {ch : Cheerio}.
Context (maxResults : Z).

Lemma amazon_step_shape products container :
  AmazonScraper.parseProducts_step maxResults products container
  = if (maxResults <=? Z.of_nat (length products))%Z then (products, false)
    else (products ++ option_list (AmazonScraper.listingOf container), true).
Proof.
  unfold AmazonScraper.parseProducts_step, AmazonScraper.listingOf.
  destruct (maxResults <=? _)%Z; [reflexivity|].
  destruct (AmazonScraper.sponsored container); [by rewrite app_nil_r|].
  destruct (attr (find container "h2 a") "href") as [rawLink|];
    [|by rewrite app_nil_r].
  destruct (negb _ || negb _); [by rewrite app_nil_r|].
  destruct (AmazonScraper.normalizeProductLink rawLink) as [link|];
    [|by rewrite app_nil_r].
  by destruct (negb (truthy link)); [rewrite app_nil_r|].
Qed.

Lemma aliexpress_step_shape products container :
  AliExpressScraper.parseProducts_step maxResults products container
  = if (maxResults <=? Z.of_nat (length products))%Z then (products, false)
    else (products ++ option_list (AliExpressScraper.listingOf container), true).
Proof.
  unfold AliExpressScraper.parseProducts_step, AliExpressScraper.listingOf.
  destruct (maxResults <=? _)%Z; [reflexivity|].
  destruct (nullish _ _) as [href|]; [|by rewrite app_nil_r].
  destruct (AliExpressScraper.titleOf _ _) as [rawTitle|];
    [|by rewrite app_nil_r].
  destruct (negb _ || _); [by rewrite app_nil_r|].
  destruct (AliExpressScraper.ensureAbsoluteUrl href) as [link|];
    [|by rewrite app_nil_r].
  destruct (negb (truthy link)); [by rewrite app_nil_r|].
  by destruct (AliExpressScraper.parsePrice _).
Qed.

Lemma shopify_step_shape products container :
  ShopifyScraper.parseProducts_step maxResults products container
  = if (maxResults <=? Z.of_nat (length products))%Z then (products, false)
    else (products ++ option_list (ShopifyScraper.listingOf container), true).
Proof.
  unfold ShopifyScraper.parseProducts_step, ShopifyScraper.listingOf.
  destruct (maxResults <=? _)%Z; [reflexivity|].
  destruct (ShopifyScraper.normalizeResultLink _) as [link|];
    [|by rewrite app_nil_r].
  destruct (negb _ || negb _); [by rewrite app_nil_r|].
  by destruct (negb (truthy _)); [rewrite app_nil_r|].
Qed.

Lemma parseProducts_take (html : jsstring) :
  AmazonScraper.parseProducts maxResults html
  = take (Z.to_nat maxResults)
      (omap AmazonScraper.listingOf
         (elements (select (load html) AmazonScraper.RESULT_ITEMS)))
  /\ AliExpressScraper.parseProducts maxResults html
     = take (Z.to_nat maxResults)
         (omap AliExpressScraper.listingOf
            (elements (select (load html) AliExpressScraper.PRODUCT_SELECTORS)))
  /\ ShopifyScraper.parseProducts maxResults html
     = take (Z.to_nat maxResults)
         (omap ShopifyScraper.listingOf
            (elements (select (load html) ".result"))).
Proof.
  unfold AmazonScraper.parseProducts, AliExpressScraper.parseProducts,
    ShopifyScraper.parseProducts.
  repeat split.
  - erewrite each_take by apply amazon_step_shape.
    cbn [app length]. by rewrite Z.sub_0_r.
  - erewrite each_take by apply aliexpress_step_shape.
    cbn [app length]. by rewrite Z.sub_0_r.
  - erewrite each_take by apply shopify_step_shape.
    cbn [app length]. by rewrite Z.sub_0_r.
Qed.

End ClosedForm.

(** X7.  Each parser returns, in document order, the listings of the first
    [maxResults] containers that yield one: the containers that are
    skipped take no place under the cap.  So raising the cap only appends
    (the output under a cap [m] is the first [m] listings of the output
    under any larger cap), and a cap of zero or less gives nothing. *)
Theorem parseProducts_first_listings {rt : ECMAScript} {ch : Cheerio}
    (m : Z) (html : jsstring) :
  (AmazonScraper.parseProducts m html
   = take (Z.to_nat m)
       (omap AmazonScraper.listingOf
          (elements (select (load html) AmazonScraper.RESULT_ITEMS)))
   /\ AliExpressScraper.parseProducts m html
      = take (Z.to_nat m)
          (omap AliExpressScraper.listingOf
             (elements (select (load html)
                          AliExpressScraper.PRODUCT_SELECTORS)))
   /\ ShopifyScraper.parseProducts m html
      = take (Z.to_nat m)
          (omap ShopifyScraper.listingOf
             (elements (select (load html) ".result"))))
  /\ (forall m', (m <= m')%Z ->
        AmazonScraper.parseProducts m html
        = take (Z.to_nat m) (AmazonScraper.parseProducts m' html)
        /\ AliExpressScraper.parseProducts m html
           = take (Z.to_nat m) (AliExpressScraper.parseProducts m' html)
        /\ ShopifyScraper.parseProducts m html
           = take (Z.to_nat m) (ShopifyScraper.parseProducts m' html))
  /\ ((m <= 0)%Z ->
      AmazonScraper.parseProducts m html = []
      /\ AliExpressScraper.parseProducts m html = []
      /\ ShopifyScraper.parseProducts m html = []).
Proof.
  split; [apply parseProducts_take|]. split.
  - intros m' Hle.
    destruct (parseProducts_take m html) as (-> & -> & ->).
    destruct (parseProducts_take m' html) as (-> & -> & ->).
    rewrite !take_take.
    by replace (Z.to_nat m `min` Z.to_nat m') with (Z.to_nat m) by lia.
  - intros Hm. destruct (parseProducts_take m html) as (-> & -> & ->).
    by replace (Z.to_nat m) with 0 by lia.
Qed.

Lemma parseProducts_first_listings_witness :
  @AmazonScraper.parseProducts Fixture.runtime Pages.all 1 Pages.amazonHtml
  = take 1 (@AmazonScraper.parseProducts Fixture.runtime Pages.all 10
              Pages.amazonHtml).
Proof.
  apply (proj1 (proj2 (@parseProducts_first_listings Fixture.runtime Pages.all
                         1 Pages.amazonHtml)) 10%Z ltac:(lia)).
Defined.

(** ** What a listing always looks like *)

Section TrimFacts.

Lemma dropWhile_head (f : N -> bool) (s : jsstring) :
  dropWhile f s = []
  \/ exists c s', dropWhile f s = c :: s' /\ f c = false.
Proof.
  induction s as [|c s IH]; [by left|]. cbn.
  destruct (f c) eqn:E; [exact IH|]. right. by exists c, s.
Qed.

Lemma dropWhile_idem (f : N -> bool) (s : jsstring) :
  dropWhile f (dropWhile f s) = dropWhile f s.
Proof.
  destruct (dropWhile_head f s) as [-> | (c & s' & -> & Hc)]; [reflexivity|].
  cbn. by rewrite Hc.
Qed.

Lemma dropWhile_snoc (f : N -> bool) (l : jsstring) (c : N) :
  f c = false -> dropWhile f (l ++ [c]) = dropWhile f l ++ [c].
Proof.
  intros Hc. induction l as [|d l IH]; cbn; [by rewrite Hc|].
  by destruct (f d).
Qed.

(** What [trim] leaves has nothing more to trim. *)
Lemma trim_idempotent (s : jsstring) : trim (trim s) = trim s.
Proof.
  unfold trim, trimStart, trimEnd.
  destruct (dropWhile_head isWhiteSpace s) as [-> | (c & u & -> & Hc)];
    [reflexivity|].
  cbn [rev]. rewrite dropWhile_snoc by done.
  rewrite rev_app_distr. cbn [rev app dropWhile]. rewrite Hc.
  cbn [rev]. rewrite rev_involutive, dropWhile_snoc by done.
  by rewrite dropWhile_idem, rev_app_distr.
Qed.

Lemma truthy_nonempty (s : jsstring) : truthy s = true <-> s <> [].
Proof. by destruct s. Qed.

End TrimFacts.

Section ListingFacts.
Context {rt : ECMAScript} {ch : Cheerio}.

(** What every listing of a platform satisfies. *)
Local Abbreviation wellformed pf :=
  (fun p : PlatformProduct =>
     platform p = pf /\ sourcePlatform p = pf
     /\ title p <> [] /\ trim (title p) = title p
     /\ url p <> []
     /\ imageUrl p = image p).

Lemma amazon_listingOf_wellformed container p :
  AmazonScraper.listingOf container = Some p -> wellformed amazon p.
Proof.
  unfold AmazonScraper.listingOf.
  destruct (AmazonScraper.sponsored container); [discriminate|].
  destruct (attr (find container "h2 a") "href") as [rawLink|];
    [|discriminate].
  destruct (truthy (trim (text (find container "h2 a span")))) eqn:Et;
    [|discriminate].
  destruct (truthy rawLink); [|discriminate]. cbn [negb orb].
  destruct (AmazonScraper.normalizeProductLink rawLink) as [link|];
    [|discriminate].
  destruct (truthy link) eqn:El; [|discriminate]. cbn [negb].
  intros [= <-]. cbn.
  repeat split; try done; [by apply truthy_nonempty | apply trim_idempotent
                           | by apply truthy_nonempty].
Qed.

Lemma aliexpress_listingOf_wellformed container p :
  AliExpressScraper.listingOf container = Some p -> wellformed aliexpress p.
Proof.
  unfold AliExpressScraper.listingOf.
  destruct (nullish _ _) as [href|]; [|discriminate].
  destruct (AliExpressScraper.titleOf _ _) as [rawTitle|]; [|discriminate].
  destruct (truthy href); [|discriminate]. cbn [negb orb].
  unfold AliExpressScraper.blankTitle.
  destruct (truthy (trim rawTitle)) eqn:Et; [|discriminate]. cbn [negb].
  destruct (AliExpressScraper.ensureAbsoluteUrl href) as [link|];
    [|discriminate].
  destruct (truthy link) eqn:El; [|discriminate]. cbn [negb].
  destruct (AliExpressScraper.parsePrice _) as [pr cu].
  intros [= <-]. cbn.
  repeat split; try done; [by apply truthy_nonempty | apply trim_idempotent
                           | by apply truthy_nonempty].
Qed.

Lemma shopify_listingOf_wellformed container p :
  ShopifyScraper.listingOf container = Some p ->
  wellformed shopify p
  /\ price p = None /\ currency p = None /\ image p = None
  /\ ShopifyScraper.SHOPIFY_DOMAIN_REGEX_test (url p) = true.
Proof.
  unfold ShopifyScraper.listingOf.
  destruct (ShopifyScraper.normalizeResultLink _) as [link|]; [|discriminate].
  destruct (truthy link) eqn:El; [|discriminate]. cbn [negb orb].
  destruct (ShopifyScraper.SHOPIFY_DOMAIN_REGEX_test link) eqn:Ed;
    [|discriminate]. cbn [negb].
  destruct (truthy (trim (text (first (find container "a.result__a")))))
    eqn:Et; [|discriminate]. cbn [negb].
  intros [= <-]. cbn.
  repeat split; try done; [by apply truthy_nonempty | apply trim_idempotent
                           | by apply truthy_nonempty].
Qed.

Lemma parsed_from_container {A : Type} (f : A -> option PlatformProduct)
    (n : nat) (els : list A) (p : PlatformProduct) :
  p ∈ take n (omap f els) -> exists c, c ∈ els /\ f c = Some p.
Proof.
  intros Hp. apply list_elem_of_omap.
  eapply elem_of_sublist; [exact Hp | apply sublist_take].
Qed.

(** X8.  Every listing a parser returns is tagged with the parser's own
    platform (in both platform fields), has a non-empty title without
    leading or trailing white space and a non-empty link, and has
    [imageUrl] equal to [image]; a storefront listing moreover has no
    price, no currency and no image, and its link matches the
    hosting-domain pattern. *)
Theorem listings_wellformed (maxResults : Z) (html : jsstring)
    (p : PlatformProduct) :
  (p ∈ AmazonScraper.parseProducts maxResults html -> wellformed amazon p)
  /\ (p ∈ AliExpressScraper.parseProducts maxResults html ->
      wellformed aliexpress p)
  /\ (p ∈ ShopifyScraper.parseProducts maxResults html ->
      wellformed shopify p
      /\ price p = None /\ currency p = None /\ image p = None
      /\ ShopifyScraper.SHOPIFY_DOMAIN_REGEX_test (url p) = true).
Proof.
  destruct (parseProducts_take maxResults html) as (-> & -> & ->).
  split; [|split]; intros Hp;
    apply parsed_from_container in Hp as (c & _ & Hc).
  all: first [ apply (amazon_listingOf_wellformed _ _ Hc)
             | apply (aliexpress_listingOf_wellformed _ _ Hc)
             | apply (shopify_listingOf_wellformed _ _ Hc) ].
Qed.

End ListingFacts.

(** ** What [runAll] hands back *)

Section RunAllMore.
Context {rt : ECMAScript} {ch : Cheerio}.

Lemma search_with_result (w : Scraper.World) (isBotPage : jsstring -> bool)
    (parseProducts : jsstring -> list PlatformProduct)
    (getSearchUrl : Result jsstring) products :
  (Scraper.search_with w isBotPage parseProducts getSearchUrl).1 = Ok products ->
  products = [] \/ exists html, products = parseProducts html.
Proof.
  unfold Scraper.search_with. destruct getSearchUrl as [url|e]; [|discriminate].
  destruct (negb (truthy url)); [intros [= <-]; by left|].
  pose proof (attempts_bounds w isBotPage parseProducts url
                (seq 1 Scraper.maxRetries) Scraper.start) as Hb.
  destruct (Scraper.attempts _ _ _ _ _ _) as [products' t'].
  intros [= <-]. apply Hb.
Qed.

(** What a scraper's thunk resolves to has the shape of that scraper's
    listings and respects the cap. *)
Lemma scrapers_result query config world pf products :
  ScraperManager.scrapers query config world pf = Ok products ->
  length products <= Z.to_nat (maxResultsPerPlatform config)
  /\ forall p, p ∈ products -> platform p = pf /\ title p <> [].
Proof.
  intros Hs.
  destruct pf; cbn [ScraperManager.scrapers] in Hs;
    apply search_with_result in Hs as [-> | [html ->]];
    try (split; [cbn; lia | intros p Hp; by apply elem_of_nil in Hp]);
    destruct (parseProducts_take (maxResultsPerPlatform config) html)
      as (Ha & Hb & Hc).
  - rewrite Ha. split; [rewrite length_take; lia|]. intros p Hp.
    apply parsed_from_container in Hp as (c & _ & Hl).
    by destruct (amazon_listingOf_wellformed _ _ Hl) as (? & _ & ? & _).
  - rewrite Hb. split; [rewrite length_take; lia|]. intros p Hp.
    apply parsed_from_container in Hp as (c & _ & Hl).
    by destruct (aliexpress_listingOf_wellformed _ _ Hl) as (? & _ & ? & _).
  - rewrite Hc. split; [rewrite length_take; lia|]. intros p Hp.
    apply parsed_from_container in Hp as (c & _ & Hl).
    by destruct (shopify_listingOf_wellformed _ _ Hl) as ((? & _ & ? & _) & _).
Qed.

Lemma runAll_entries_sorted (query : jsstring) (config : AppConfig)
    (world : PlatformName -> Scraper.World) :
  exists m : PlatformMatches,
    ScraperManager.runAll query config world = Ok m
    /\ forall pf,
         exists products,
           m !! pf = Some products
           /\ Spec.descending (ScraperManager.computeScore query) products.
Proof.
  destruct (runAll_with_entries query
              (ScraperManager.scrapers query config world))
    as (m & Hm & _ & Hget).
  exists m. split; [exact Hm|]. intros pf. eexists. split; [apply Hget|].
  destruct (ScraperManager.scrapers query config world pf);
    [apply Array_sort_descending | constructor].
Qed.

(** X9.  [runAll] gives every platform a list that is no longer than
    [maxResultsPerPlatform], is in descending order of relevance score,
    and holds only listings tagged with that platform and carrying a
    non-empty title. *)
Theorem runAll_entries_ranked_and_capped (query : jsstring)
    (config : AppConfig) (world : PlatformName -> Scraper.World) :
  exists m : PlatformMatches,
    ScraperManager.runAll query config world = Ok m
    /\ forall pf,
         exists products,
           m !! pf = Some products
           /\ length products <= Z.to_nat (maxResultsPerPlatform config)
           /\ Spec.descending (ScraperManager.computeScore query) products
           /\ forall p, p ∈ products -> platform p = pf /\ title p <> [].
Proof.
  destruct (runAll_with_entries query
              (ScraperManager.scrapers query config world))
    as (m & Hm & _ & Hget).
  exists m. split; [exact Hm|]. intros pf. eexists. split; [apply Hget|].
  destruct (ScraperManager.scrapers query config world pf) as [products|e]
    eqn:Es.
  - destruct (scrapers_result _ _ _ _ _ Es) as [Hlen Hall].
    split; [|split].
    + unfold ScraperManager.sortByRelevance.
      by rewrite (Permutation_length (Array_sort_perm _ products)).
    + apply Array_sort_descending.
    + intros p Hp. apply Hall.
      unfold ScraperManager.sortByRelevance in Hp.
      by rewrite Array_sort_perm in Hp.
  - split; [cbn; lia|]. split; [constructor|].
    intros p Hp. by apply elem_of_nil in Hp.
Qed.

End RunAllMore.

(** ** Markers and letter case *)

Section CaseFacts.

Local Abbreviation lower := (fmap (M := list) asciiLower).

Lemma ascii_fold_eq (a b : N) :
  (asciiUpper a =? asciiUpper b)%N = (asciiLower a =? asciiLower b)%N.
Proof.
  unfold asciiUpper, asciiLower, isLowerAZ, isUpperAZ.
  destruct (N.leb_spec 97 a), (N.leb_spec a 122), (N.leb_spec 97 b),
    (N.leb_spec b 122), (N.leb_spec 65 a), (N.leb_spec a 90),
    (N.leb_spec 65 b), (N.leb_spec b 90); cbn [andb];
    repeat match goal with
           | |- context [(?x =? ?y)%N] => destruct (N.eqb_spec x y)
           end; first [reflexivity | lia].
Qed.

Lemma startsWith_i_lower (s p : jsstring) :
  startsWith_i s p = startsWith (lower s) (lower p).
Proof.
  revert s. induction p as [|a p IH]; intros s; [by destruct s|].
  destruct s as [|b s]; [reflexivity|]. cbn.
  by rewrite ascii_fold_eq, IH.
Qed.

Lemma test_i_lower (lit s : jsstring) :
  test_i lit s = includes (lower s) (lower lit).
Proof.
  induction s as [|c s IH]; cbn [test_i includes fmap list_fmap].
  - by rewrite startsWith_i_lower.
  - by rewrite startsWith_i_lower, IH.
Qed.

(** X10.  The bot tests and the storefront domain test are plain
    substring tests on the page (or link) with its ASCII letters
    lower-cased: the markers are "robot check" and "captcha" for the
    marketplace; "captcha", "robot" and "verification" for the wholesale
    site; "captcha", "verification" and "enable javascript" for the
    storefront search; "myshopify.com" and ".shopify.com" for the domain.
    They sit anywhere in the text, and upper-casing the ASCII letters of
    the text changes no answer. *)
Theorem markers_ignore_case (text : jsstring) :
  (AmazonScraper.isBotPage text
   = includes (lower text) (js "robot check")
     || includes (lower text) (js "captcha"))
  /\ (AliExpressScraper.isBotPage text
      = includes (lower text) (js "captcha")
        || includes (lower text) (js "robot")
        || includes (lower text) (js "verification"))
  /\ (ShopifyScraper.isBotPage text
      = includes (lower text) (js "captcha")
        || includes (lower text) (js "verification")
        || includes (lower text) (js "enable javascript"))
  /\ (ShopifyScraper.SHOPIFY_DOMAIN_REGEX_test text
      = includes (lower text) (js "myshopify.com")
        || includes (lower text) (js ".shopify.com"))
  /\ AmazonScraper.isBotPage (asciiUpper <$> text)
     = AmazonScraper.isBotPage text
  /\ AliExpressScraper.isBotPage (asciiUpper <$> text)
     = AliExpressScraper.isBotPage text
  /\ ShopifyScraper.isBotPage (asciiUpper <$> text)
     = ShopifyScraper.isBotPage text.
Proof.
  assert (Hup : lower (asciiUpper <$> text) = lower text).
  { induction text as [|c t IH]; [reflexivity|]. cbn. f_equal; [|exact IH].
    unfold asciiUpper, asciiLower, isLowerAZ, isUpperAZ.
    destruct (N.leb_spec 97 c), (N.leb_spec c 122); cbn [andb];
      repeat match goal with
             | |- context [(?x <=? ?y)%N] => destruct (N.leb_spec x y)
             end; cbn [andb]; lia. }
  unfold AmazonScraper.isBotPage, AliExpressScraper.isBotPage,
    ShopifyScraper.isBotPage, ShopifyScraper.SHOPIFY_DOMAIN_REGEX_test,
    AliExpressScraper.BOT_PATTERNS, ShopifyScraper.BOT_PATTERNS.
  cbn [existsb]. rewrite !test_i_lower, Hup, !orb_false_r, !orb_assoc.
  repeat split.
Qed.

End CaseFacts.

(** ** Prices *)

Section NumberFacts.

Lemma takeWhile_Forall (f : N -> bool) (s : jsstring) :
  Forall (fun c => f c = true) (takeWhile f s).
Proof.
  induction s as [|c s IH]; cbn; [constructor|].
  destruct (f c) eqn:E; by constructor.
Qed.

Lemma takeWhile_all (f : N -> bool) (s : jsstring) :
  Forall (fun c => f c = true) s -> takeWhile f s = s.
Proof.
  induction 1 as [|c s Hc _ IH]; cbn; [reflexivity|]. by rewrite Hc, IH.
Qed.

Lemma takeWhile_stop (f : N -> bool) (s rest : jsstring) (c : N) :
  Forall (fun c => f c = true) s -> f c = false ->
  takeWhile f (s ++ c :: rest) = s.
Proof.
  intros Hs Hc. induction Hs as [|d s Hd _ IH]; cbn; [by rewrite Hc|].
  by rewrite Hd, IH.
Qed.

Lemma digitsValue_nonneg (ds : jsstring) :
  Forall (fun c => isDigit c = true) ds -> (0 <= digitsValue ds)%Z.
Proof.
  unfold digitsValue. intros Hds.
  assert (Hgen : forall acc, (0 <= acc)%Z ->
            (0 <= fold_left (fun acc c => 10 * acc + (Z.of_N c - 48)) ds acc)%Z).
  { induction Hds as [|c ds Hc _ IH]; intros acc Hacc; cbn; [exact Hacc|].
    apply IH. unfold isDigit in Hc. apply andb_true_iff in Hc as [H1 H2].
    apply N.leb_le in H1, H2. lia. }
  by apply Hgen.
Qed.

Lemma digit_not_space (c : N) : isDigit c = true -> isWhiteSpace c = false.
Proof.
  unfold isDigit, isWhiteSpace. intros H.
  apply andb_true_iff in H as [H1 H2]. apply N.leb_le in H1, H2.
  cbn [existsb].
  repeat match goal with
         | |- context [N.eqb c ?k] => destruct (N.eqb_spec c k); [lia|]
         end.
  cbn. destruct (N.leb_spec 8192 c); [lia | reflexivity].
Qed.

(** No number [parseFloat] reads is negative. *)
Lemma parseFloat_nonneg (s : jsstring) (q : Q) :
  parseFloat s = Finite q -> (0 <= q)%Q.
Proof.
  unfold parseFloat, roundToNumber.
  destruct (negb _ && negb _); [discriminate|].
  destruct (Qle_bool _ _); [discriminate|]. intros [= <-].
  unfold Qle. cbn [Qnum Qden]. rewrite Z.mul_1_r. cbn.
  apply digitsValue_nonneg, Forall_app. split; [apply takeWhile_Forall|].
  destruct (drop _ _) as [|c r]; [constructor|].
  destruct c as [|c]; [constructor|].
  repeat (destruct c as [c|c|]; try constructor).
  apply takeWhile_Forall.
Qed.

(** A run of digits, a dot and a non-empty run of digits reads as that
    decimal. *)
Lemma parseFloat_decimal (w f : jsstring) :
  Forall (fun c => isDigit c = true) w ->
  Forall (fun c => isDigit c = true) f ->
  f <> [] ->
  parseFloat (w ++ js "." ++ f)
  = roundToNumber (Qmake (digitsValue (w ++ f))
                         (Z.to_pos (10 ^ Z.of_nat (length f)))).
Proof.
  intros Hw Hf Hne. unfold parseFloat.
  change (js ".") with [46%N]. cbn [app].
  assert (Htrim : trimStart (w ++ 46%N :: f) = w ++ 46%N :: f).
  { unfold trimStart. destruct Hw as [|c w Hc _]; cbn; [reflexivity|].
    by rewrite (digit_not_space _ Hc). }
  rewrite Htrim, takeWhile_stop by done.
  rewrite drop_app_length, takeWhile_all by done.
  destruct f as [|c f]; [done|]. by rewrite andb_false_r.
Qed.

End NumberFacts.

Section PriceMore.
Context {rt : ECMAScript} {ch : Cheerio}.

(** A price is null, [Infinity] or a non-negative number. *)
Local Abbreviation sound v :=
  (v <> Some NaN /\ forall q : Q, v = Some (Finite q) -> (0 <= q)%Q).

Lemma parsePrice_sound (raw : jsstring) :
  sound (AliExpressScraper.parsePrice raw).1.
Proof.
  unfold AliExpressScraper.parsePrice.
  destruct (negb (truthy raw)); [by split|].
  destruct (AliExpressScraper.match_price raw) as [[g1 g2]|]; [|by split].
  cbn [fst].
  destruct (truthy (AliExpressScraper.numericPartOf g2)); [|by split].
  destruct (parseFloat (AliExpressScraper.numericPartOf g2)) as [| |q] eqn:E;
    cbn [Number_isNaN]; split; try done.
  intros q' [= <-]. by eapply parseFloat_nonneg.
Qed.

Lemma extractPrice_reading (container : Selection) :
  let priceContainer := find container ".a-price" in
  let whole := trim (text (first (find priceContainer ".a-price-whole"))) in
  let fraction :=
    trim (text (first (find priceContainer ".a-price-fraction"))) in
  let W := filter (fun c => isDigit c = true) whole in
  let F := if truthy (filter (fun c => isDigit c = true) fraction)
           then filter (fun c => isDigit c = true) fraction else js "00" in
  (AmazonScraper.extractPrice container).1
  = if (0 <? size priceContainer) && truthy whole
    then Some (roundToNumber
                 (Qmake (digitsValue (W ++ F))
                        (Z.to_pos (10 ^ Z.of_nat (length F)))))
    else None.
Proof.
  cbv zeta. unfold AmazonScraper.extractPrice.
  destruct (0 <? size (find container ".a-price")); [|reflexivity].
  cbn [fst andb]. destruct (truthy (trim _)); [|reflexivity].
  f_equal. apply parseFloat_decimal.
  - apply Forall_forall. intros c Hc. by apply list_elem_of_filter in Hc as [Hc _].
  - destruct (truthy (filter _ _)); [|by repeat constructor].
    apply Forall_forall. intros c Hc. by apply list_elem_of_filter in Hc as [Hc _].
  - destruct (filter _ (trim (text (first (find _ ".a-price-fraction")))));
      discriminate.
Qed.

Lemma extractPrice_sound (container : Selection) :
  sound (AmazonScraper.extractPrice container).1.
Proof.
  rewrite extractPrice_reading.
  destruct (_ && _); [|by split]. unfold roundToNumber.
  destruct (Qle_bool _ _); [by split|]. split; [done|].
  intros q [= <-]. unfold Qle. cbn [Qnum Qden]. rewrite Z.mul_1_r. cbn.
  apply digitsValue_nonneg, Forall_app. split.
  - apply Forall_forall. intros c Hc. by apply list_elem_of_filter in Hc as [Hc _].
  - destruct (truthy (filter _ _)); [|by repeat constructor].
    apply Forall_forall. intros c Hc. by apply list_elem_of_filter in Hc as [Hc _].
Qed.

(** X11.  No listing ever carries NaN or a negative number as its price:
    the price of a marketplace or wholesale listing is null, [Infinity] or
    a non-negative number, and so is every result of [extractPrice] and
    of [parsePrice]. *)
Theorem prices_are_never_nan_nor_negative (maxResults : Z) (html : jsstring) :
  (forall container, sound (AmazonScraper.extractPrice container).1)
  /\ (forall raw, sound (AliExpressScraper.parsePrice raw).1)
  /\ (forall p, p ∈ AmazonScraper.parseProducts maxResults html ->
        sound (price p))
  /\ (forall p, p ∈ AliExpressScraper.parseProducts maxResults html ->
        sound (price p)).
Proof.
  split; [exact extractPrice_sound|]. split; [exact parsePrice_sound|].
  destruct (parseProducts_take maxResults html) as (-> & -> & _).
  split; intros p Hp; apply parsed_from_container in Hp as (c & _ & Hc).
  - unfold AmazonScraper.listingOf in Hc.
    repeat match type of Hc with
           | (if ?b then _ else _) = Some _ => destruct b; [discriminate|]
           | (if ?b then _ else _) = Some _ => destruct b; [|discriminate]
           | match ?o with Some _ => _ | None => _ end = Some _ =>
               destruct o; [|discriminate]
           end.
    injection Hc as <-. apply extractPrice_sound.
  - unfold AliExpressScraper.listingOf in Hc.
    pose proof (parsePrice_sound
                  (AliExpressScraper.extractPriceText c)) as Hs.
    repeat match type of Hc with
           | (if ?b then _ else _) = Some _ => destruct b; [discriminate|]
           | match ?o with Some _ => _ | None => _ end = Some _ =>
               destruct o; [|discriminate]
           end.
    destruct (AliExpressScraper.parsePrice _) as [pr cu].
    injection Hc as <-. exact Hs.
Qed.

(** X12.  How the marketplace reads a price.  With a price container and
    a non-empty whole text, the price is the decimal made of the digits of
    the whole text, a dot and the digits of the fraction text ("00" when
    there are none), so a whole text without digits still gives a number;
    without a price container or with an empty whole text it is null.
    The currency is null without a price container or for an empty symbol
    text, and "USD", "EUR" or "GBP" for the dollar, euro or pound sign. *)
Theorem amazon_price_reading (container : Selection) :
  let priceContainer := find container ".a-price" in
  let symbol := trim (text (first (find priceContainer ".a-price-symbol"))) in
  let whole := trim (text (first (find priceContainer ".a-price-whole"))) in
  let fraction :=
    trim (text (first (find priceContainer ".a-price-fraction"))) in
  let W := filter (fun c => isDigit c = true) whole in
  let F := if truthy (filter (fun c => isDigit c = true) fraction)
           then filter (fun c => isDigit c = true) fraction else js "00" in
  (AmazonScraper.extractPrice container).1
  = (if (0 <? size priceContainer) && truthy whole
     then Some (roundToNumber
                  (Qmake (digitsValue (W ++ F))
                         (Z.to_pos (10 ^ Z.of_nat (length F)))))
     else None)
  /\ ((0 <? size priceContainer) && truthy symbol = false ->
      (AmazonScraper.extractPrice container).2 = None)
  /\ ((0 <? size priceContainer) = true ->
      (symbol = js "$" ->
       (AmazonScraper.extractPrice container).2 = Some (js "USD"))
      /\ (symbol = [8364%N] ->
          (AmazonScraper.extractPrice container).2 = Some (js "EUR"))
      /\ (symbol = [163%N] ->
          (AmazonScraper.extractPrice container).2 = Some (js "GBP"))).
Proof.
  cbv zeta. split; [apply extractPrice_reading|].
  unfold AmazonScraper.extractPrice.
  destruct (0 <? size (find container ".a-price")); [|by split].
  cbn [snd andb]. split.
  - by intros ->.
  - intros _. by repeat split; intros ->.
Qed.

End PriceMore.

(** ** The shape of marketplace links *)

Section LinkMore.
Context {rt : ECMAScript} {ch : Cheerio}.





End LinkMore.


(** ** The product matcher *)

Section MatcherFacts.
Context {rt : ECMAScript}.

Lemma includes_empty (s : jsstring) : includes s [] = true.
Proof. by destruct s. Qed.

(** X14.  [matchProducts] keeps, in their order, exactly the candidates
    whose lower-cased name contains the lower-cased query: the result is
    a sublist of the candidates, matching again changes nothing, matching
    distributes over concatenation, and the empty query keeps every
    candidate. *)
Theorem matchProducts_filters (query : jsstring)
    (candidates more : list ProductMatcher.Product) :
  ProductMatcher.matchProducts query candidates `sublist_of` candidates
  /\ (forall product,
        product ∈ ProductMatcher.matchProducts query candidates
        <-> product ∈ candidates
            /\ includes (toLowerCase (ProductMatcher.name product))
                 (toLowerCase query) = true)
  /\ ProductMatcher.matchProducts query
       (ProductMatcher.matchProducts query candidates)
     = ProductMatcher.matchProducts query candidates
  /\ ProductMatcher.matchProducts query (candidates ++ more)
     = ProductMatcher.matchProducts query candidates
       ++ ProductMatcher.matchProducts query more
  /\ ProductMatcher.matchProducts [] candidates = candidates.
Proof.
  unfold ProductMatcher.matchProducts. cbn zeta.
  set (keep := fun product =>
         includes (toLowerCase (ProductMatcher.name product))
           (toLowerCase query)).
  split.
  { induction candidates as [|c cs IH]; cbn [List.filter]; [constructor|].
    destruct (keep c); by constructor. }
  split.
  { intros product. rewrite !list_elem_of_In. apply filter_In. }
  split.
  { induction candidates as [|c cs IH]; cbn [List.filter]; [reflexivity|].
    destruct (keep c) eqn:E; cbn [List.filter]; [|exact IH].
    by rewrite E, IH. }
  split; [apply List.filter_app|].
  rewrite (toLowerCase_ascii []) by constructor. cbn [fmap list_fmap].
  induction candidates as [|c cs IH]; cbn [List.filter]; [reflexivity|].
  by rewrite includes_empty, IH.
Qed.

End MatcherFacts.

(** ** The tracker service and its route *)

Section ServiceFacts.
Context {rt : ECMAScript} {ch : Cheerio}.

Lemma descending_head (query : jsstring) (p : PlatformProduct)
    (rest : list PlatformProduct) :
  Spec.descending (ScraperManager.computeScore query) (p :: rest) ->
  forall p', p' ∈ rest ->
    (ScraperManager.computeScore query p'
     <= ScraperManager.computeScore query p)%Q.
Proof.
  intros Hs p' Hp'. inversion Hs as [|? ? _ Hall]; subst.
  rewrite Forall_forall in Hall. by apply Hall.
Qed.

(** What the service reports for one platform: the link of the first
    listing of the ranked list, which no other listing of the list
    outscores, or null for an empty list. *)
Local Abbreviation top query resp pf link :=
  (exists products,
     TrackerService.matches resp !! pf = Some products
     /\ link = url <$> head products
     /\ (link = None <-> products = [])
     /\ forall p rest, products = p :: rest ->
          forall p', p' ∈ rest ->
            (ScraperManager.computeScore query p'
             <= ScraperManager.computeScore query p)%Q).

Lemma runTracker_returns (query : jsstring) (sourceUrl : option jsstring)
    (config : AppConfig) (world : PlatformName -> Scraper.World) :
  exists resp,
    TrackerService.runTracker query sourceUrl config world = Ok resp
    /\ ScraperManager.runAll query config world
       = Ok (TrackerService.matches resp)
    /\ TrackerService.productQuery resp = query
    /\ TrackerService.sourceUrl resp = sourceUrl
    /\ TrackerService.productPageUrl resp = sourceUrl
    /\ top query resp amazon (TrackerService.amazonProductUrl resp)
    /\ top query resp aliexpress (TrackerService.aliexpressProductUrl resp)
    /\ top query resp shopify (TrackerService.shopifyProductUrl resp).
Proof.
  destruct (runAll_entries_sorted query config world) as (m & Hm & Hall).
  unfold TrackerService.runTracker, TrackerService.entry. rewrite Hm.
  unfold mbind, Result_bind, mret, Result_ret.
  destruct (Hall amazon) as (pa & Ea & Ha).
  destruct (Hall aliexpress) as (pb & Eb & Hb).
  destruct (Hall shopify) as (pc & Ec & Hc).
  rewrite Ea, Eb, Ec. eexists. split; [reflexivity|]. cbn.
  repeat split; try done.
  all: eexists; split; [eassumption|]; split; [reflexivity|]; split.
  all: try (intros p rest ->; by eapply descending_head).
  all: match goal with |- context [head ?l] => by destruct l end.
Qed.

(** X15.  [runTracker] never throws.  It hands back the query and the
    source URL it was given (the latter also as the product page URL),
    the matches of [runAll], and for each platform the link of the first
    listing of that platform's ranked list, a listing that none of the
    others outscores, or null exactly when the list is empty. *)
Theorem runTracker_top_links (query : jsstring) (sourceUrl : option jsstring)
    (config : AppConfig) (world : PlatformName -> Scraper.World) :
  exists resp,
    TrackerService.runTracker query sourceUrl config world = Ok resp
    /\ ScraperManager.runAll query config world
       = Ok (TrackerService.matches resp)
    /\ TrackerService.productQuery resp = query
    /\ TrackerService.sourceUrl resp = sourceUrl
    /\ TrackerService.productPageUrl resp = sourceUrl
    /\ top query resp amazon (TrackerService.amazonProductUrl resp)
    /\ top query resp aliexpress (TrackerService.aliexpressProductUrl resp)
    /\ top query resp shopify (TrackerService.shopifyProductUrl resp).
Proof.
  destruct (runTracker_returns query sourceUrl config world) as (resp & H).
  by exists resp.
Qed.

(** X16.  The POST handler answers 400 exactly when [productQuery] is not
    a string or is blank, else 500 "Server configuration missing" when
    there is no configuration, and otherwise always 200 with what
    [runTracker] returned for the query as sent (not trimmed): the reply
    "Unable to fetch tracker data" is never given. *)
Theorem post_replies (body : option TrackerRoute.Body)
    (config : option AppConfig) (world : PlatformName -> Scraper.World) :
  let reply := TrackerRoute.post body config world in
  let valid :=
    exists b q,
      body = Some b /\ TrackerRoute.productQuery b = TrackerRoute.IsString q
      /\ trim q <> [] in
  (TrackerRoute.status reply = 400%Z <-> ~ valid)
  /\ (valid -> config = None ->
      reply = {| TrackerRoute.status := 500;
                 TrackerRoute.payload :=
                   TrackerRoute.Failure (js "Server configuration missing") |})
  /\ (forall b q c,
        body = Some b ->
        TrackerRoute.productQuery b = TrackerRoute.IsString q ->
        trim q <> [] -> config = Some c ->
        exists data,
          TrackerService.runTracker q (TrackerRoute.sourceUrl b) c world
          = Ok data
          /\ reply = {| TrackerRoute.status := 200;
                        TrackerRoute.payload := TrackerRoute.Success data |})
  /\ TrackerRoute.payload reply
     <> TrackerRoute.Failure (js "Unable to fetch tracker data").
Proof.
  cbv zeta. unfold TrackerRoute.post.
  assert (Hmsg : forall m,
            m = js "productQuery must be a non-empty string"
            \/ m = js "Server configuration missing" ->
            TrackerRoute.Failure m
            <> TrackerRoute.Failure (js "Unable to fetch tracker data")).
  { intros m [-> | ->] H; vm_compute in H; discriminate H. }
  destruct body as [[[q|] src]|];
    cbn [TrackerRoute.productQuery TrackerRoute.sourceUrl].
  - destruct (trim q) as [|c0 t] eqn:Et; cbn [length Nat.eqb].
    + split; [split; [|done]|].
      { intros _ (b & q' & Hb & Hq & Hne). simplify_eq/=; try congruence. }
      split; [intros (b & q' & Hb & Hq & Hne); simplify_eq/=; try congruence|].
      split; [intros b q' c Hb Hq Hne; simplify_eq/=; try congruence|].
      cbn. apply Hmsg. by left.
    + assert (Hvalid : exists b q',
                Some {| TrackerRoute.productQuery := TrackerRoute.IsString q;
                        TrackerRoute.sourceUrl := src |} = Some b
                /\ TrackerRoute.productQuery b = TrackerRoute.IsString q'
                /\ trim q' <> []).
      { eexists _, q. repeat split. by rewrite Et. }
      destruct config as [c|].
      * destruct (runTracker_returns q src c world) as (data & Hd & _).
        rewrite Hd. cbn.
        split; [split; [intros [=] | intros Hn; by destruct Hn]|].
        split; [intros _ [=]|].
        split; [|intros [=]].
        intros b q' c' Hb Hq _ Hc. simplify_eq/=. by exists data.
      * cbn.
        split; [split; [intros [=] | intros Hn; by destruct Hn]|].
        split; [done|].
        split; [intros b q' c' _ _ _ [=]|].
        apply Hmsg. by right.
  - split; [split; [|done]|].
    { intros _ (b & q' & Hb & Hq & Hne). simplify_eq/=. }
    split; [intros (b & q' & Hb & Hq & Hne); simplify_eq/=|].
    split; [intros b q' c Hb Hq Hne; simplify_eq/=|].
    cbn. apply Hmsg. by left.
  - split; [split; [|done]|].
    { intros _ (b & q' & Hb & Hq & Hne). simplify_eq/=. }
    split; [intros (b & q' & Hb & Hq & Hne); simplify_eq/=|].
    split; [intros b q' c Hb Hq Hne; simplify_eq/=|].
    cbn. apply Hmsg. by left.
Qed.

End ServiceFacts.

(** ** The cached HTTP client *)

Section ClientFacts.
Context (resolveProxyAgent : nat -> option BaseScraper.Agent) (timeoutMs : Z).

Local Abbreviation getHttpClients :=
  (BaseScraper.getHttpClients resolveProxyAgent timeoutMs).

Lemma getHttpClients_cached (n : nat) (this : BaseScraper.Instance) client :
  BaseScraper.httpClientPromise this = Some client ->
  getHttpClients n this = (replicate n client, this).
Proof.
  intros Hc. induction n as [|n IH]; [reflexivity|].
  cbn [BaseScraper.getHttpClients replicate].
  unfold BaseScraper.getHttpClient. by rewrite Hc, IH.
Qed.

(** X17.  However often [getHttpClient] is called on an instance, every
    call returns one and the same client, made with the instance's
    timeout and with the proxy agent resolved in the constructor;
    [resolveProxyAgent] runs once in all, and [axios.create] once, at the
    first call. *)
Theorem client_is_built_once (n : nat) :
  let run :=
    getHttpClients n (BaseScraper.constructor resolveProxyAgent) in
  run.1 = replicate n {| BaseScraper.timeout := timeoutMs;
                         BaseScraper.agent := resolveProxyAgent 1 |}
  /\ BaseScraper.resolutions run.2 = 1
  /\ BaseScraper.clients run.2 = (if n is 0 then 0 else 1)
  /\ BaseScraper.proxyAgentPromise run.2 = Some (resolveProxyAgent 1).
Proof.
  cbv zeta. destruct n as [|n]; [by repeat split|].
  cbn [BaseScraper.getHttpClients]. unfold BaseScraper.getHttpClient at 1.
  cbn.
  erewrite getHttpClients_cached by reflexivity.
  by repeat split.
Qed.

End ClientFacts.

(** ** Reading a wholesale price *)

Section PriceReading.

Lemma filter_all {A : Type} (P : A -> Prop) `{!forall x, Decision (P x)}
    (l : list A) :
  Forall P l -> filter P l = l.
Proof.
  induction 1 as [|x l Hx _ IH]; [reflexivity|].
  by rewrite filter_cons_True, IH.
Qed.

Lemma amount_not_space (c : N) :
  AliExpressScraper.isAmountChar c = true -> isWhiteSpace c = false.
Proof.
  unfold AliExpressScraper.isAmountChar. intros H.
  apply orb_true_iff in H as [H | H].
  - apply orb_true_iff in H as [H | H]; [by apply digit_not_space|].
    apply N.eqb_eq in H as ->. reflexivity.
  - apply N.eqb_eq in H as ->. reflexivity.
Qed.

(** X18.  A currency sign, an amount written with digits and thousands
    commas, a dot and at least one decimal digit is read as that sign and
    that decimal number, the commas dropped. *)
Theorem parsePrice_reads_decimal (sign : N) (a f : jsstring) :
  AliExpressScraper.isCurrencySign sign = true ->
  Forall (fun c => isDigit c = true \/ c = 44%N) a ->
  Forall (fun c => isDigit c = true) f ->
  f <> [] ->
  AliExpressScraper.parsePrice ([sign] ++ a ++ js "." ++ f)
  = (Some (roundToNumber
             (Qmake (digitsValue (filter (fun c => (c =? 44)%N = false) a ++ f))
                    (Z.to_pos (10 ^ Z.of_nat (length f))))),
     Some [sign]).
Proof.
  intros Hsign Ha Hf Hne. change (js ".") with [46%N]. cbn [app].
  set (rest := a ++ 46%N :: f).
  assert (Hamount : Forall (fun c => AliExpressScraper.isAmountChar c = true)
                      rest).
  { apply Forall_app. split; [|constructor; [reflexivity|]].
    - eapply Forall_impl; [exact Ha|]. cbn beta.
      intros c [Hc | ->]; [|reflexivity].
      unfold AliExpressScraper.isAmountChar. by rewrite Hc.
    - eapply Forall_impl; [exact Hf|]. cbn beta. intros c Hc.
      unfold AliExpressScraper.isAmountChar. by rewrite Hc. }
  assert (Hrest : exists c r, rest = c :: r) by
    (subst rest; destruct a; cbn; eauto).
  assert (Hmatch : AliExpressScraper.match_amount rest = Some rest).
  { unfold AliExpressScraper.match_amount.
    destruct Hrest as (c & r & Er). rewrite Er in Hamount |- *.
    cbn [dropWhile].
    rewrite (amount_not_space c) by by inversion Hamount.
    by rewrite takeWhile_all. }
  set (W := filter (fun c => (c =? 44)%N = false) a).
  assert (HW : Forall (fun c => isDigit c = true) W).
  { apply Forall_forall. intros c Hc.
    apply list_elem_of_filter in Hc as [Hnc Hc].
    rewrite Forall_forall in Ha. destruct (Ha c Hc) as [Hd | ->]; done. }
  assert (Hnum : AliExpressScraper.numericPartOf rest = W ++ 46%N :: f).
  { unfold AliExpressScraper.numericPartOf. subst rest W.
    unfold jsstring in *.
    rewrite filter_app, filter_cons_True by reflexivity.
    rewrite (filter_all _ f).
    - apply filter_all, Forall_app. split; [|constructor; [reflexivity|]].
      + eapply Forall_impl; [exact HW|]. cbn beta. intros c Hc. by rewrite Hc.
      + eapply Forall_impl; [exact Hf|]. cbn beta. intros c Hc. by rewrite Hc.
    - eapply Forall_impl; [exact Hf|]. cbn beta. intros c Hc.
      unfold isDigit in Hc. apply andb_true_iff in Hc as [H1 H2].
      apply N.leb_le in H1, H2. apply N.eqb_neq. lia. }
  unfold AliExpressScraper.parsePrice. cbn [truthy negb].
  cbn [AliExpressScraper.match_price].
  unfold AliExpressScraper.match_price_here.
  cbn [AliExpressScraper.match_currency]. rewrite Hsign.
  cbn [length drop]. rewrite drop_0, Hmatch, Hnum.
  assert (Htruthy : truthy (W ++ 46%N :: f) = true) by by destruct W.
  rewrite Htruthy.
  pose proof (parseFloat_decimal W f HW Hf Hne) as Hp.
  change (js ".") with [46%N] in Hp. cbn [app] in Hp. rewrite Hp.
  f_equal.
  - unfold roundToNumber. by destruct (Qle_bool _ _).
  - cbn [fmap option_fmap option_map]. f_equal.
    eapply (match_currency_trim [sign]).
    cbn [AliExpressScraper.match_currency]. by rewrite Hsign.
Qed.

End PriceReading.

Lemma parsePrice_reads_decimal_witness :
  AliExpressScraper.parsePrice (js "$1,234.50")
  = (Some (Finite (123450 # 100)), Some (js "$")).
Proof.
  exact (parsePrice_reads_decimal 36 (js "1,234") (js "50") eq_refl
           ltac:(repeat constructor; (by left) || (by right))
           ltac:(repeat constructor) ltac:(discriminate)).
Defined.
